(** * populate_cbv: the inspection and resolution core of the CBV importer

    A shallow embedding of [cbv/management/commands/populate_cbv.py].

    - Python values are finite trees of [PyObject]s; every object carries
      the answers the [inspect] module gives about it.
    - Code that may raise runs in the [Result] monad; generators are
      modelled by what they yield before they finish or raise ([Gen]).
    - Dictionaries keyed by strings are [gmap string _]; the attribute
      table, whose insertion order decides the order of the created rows,
      is an association list. *)

From Stdlib Require Import String Ascii List ZArith Lia Bool Relations.
From stdpp Require Import gmap strings list.
From Equations Require Import Equations.
Import ListNotations.
Local Open Scope string_scope.
Local Open Scope Z_scope.
Set Warnings "-register-all".

(** ** Exceptions and results *)

Inductive Exn : Type :=
| ImproperlyConfigured (msg : string)
| ImportError
| TypeError
| OSError
| ValueError
| IndexError
| AttributeError
| KeyError (key : string)
| IntegrityError.

Inductive Result (A : Type) : Type :=
| Ok (a : A)
| Raise (e : Exn).
Arguments Ok {A} a.
Arguments Raise {A} e.

Definition bind {A B : Type} (r : Result A) (k : A -> Result B) : Result B :=
  match r with
  | Ok a => k a
  | Raise e => Raise e
  end.

Notation "'let*' x ':=' r 'in' k" := (bind r (fun x => k))
  (at level 10, x pattern, r at level 100, k at level 200).

(** ** Python strings *)

Module Str.

(** [s.startswith(p)] *)
Definition startswith (s p : string) : bool := String.prefix p s.

(** [sep.join(parts)] *)
Definition join (sep : string) (parts : list string) : string :=
  String.concat sep parts.

(** [s[n:]] for [0 <= n]. *)
Definition drop (n : nat) (s : string) : string :=
  substring n (String.length s - n) s.

(** [s[1:-1]] *)
Definition slice_1_m1 (s : string) : string :=
  substring 1 (String.length s - 2) s.

(** [s[:-1]] *)
Definition slice_to_m1 (s : string) : string :=
  substring 0 (String.length s - 1) s.

(** [s[-4:]] *)
Definition slice_from_m4 (s : string) : string :=
  drop (String.length s - 4) s.

(** [p in s]: [p] occurs in [s] as a substring. *)
Fixpoint contains (s p : string) : bool :=
  String.prefix p s ||
  match s with
  | EmptyString => false
  | String _ rest => contains rest p
  end.

(** The characters [str.isspace] accepts among the ASCII ones. *)
Definition isspace (c : ascii) : bool :=
  let n := nat_of_ascii c in
  ((9 <=? n) && (n <=? 13) || (28 <=? n) && (n <=? 32))%nat.

(** [s.lstrip()] *)
Fixpoint lstrip (s : string) : string :=
  match s with
  | EmptyString => EmptyString
  | String c rest => if isspace c then lstrip rest else s
  end.

(** [s.rpartition(".")]: [Some head] when [s] contains a dot, [head]
    being what precedes the last one; [None] when it contains none. *)
Fixpoint rpartition_dot (s : string) : option string :=
  match s with
  | EmptyString => None
  | String c rest =>
      match rpartition_dot rest with
      | Some head => Some (String c head)
      | None => if Ascii.eqb c "."%char then Some EmptyString else None
      end
  end.

(** [s.rpartition(".")[0]]: empty when [s] has no dot. *)
Definition rpartition_head (s : string) : string :=
  match rpartition_dot s with
  | Some head => head
  | None => EmptyString
  end.

(** The f-string that puts [s] between single quotes. *)
Definition quote (s : string) : string := "'" +:+ s +:+ "'".

End Str.

(** ** Python objects and what [inspect] reports about them *)

(** The result of [inspect.getsourcelines]. *)
Inductive SourceLines : Type :=
| SourceOK (lines : list string) (start_line : Z)
| SourceTypeError
| SourceOSError.

(** The result of [inspect.getsourcefile]: a file name, [None], or the
    [TypeError] raised for built-in objects. *)
Inductive SourceFile : Type :=
| FileOK (file : option string)
| FileTypeError.

(** [inspect.getfullargspec]; default values and annotations are held
    already formatted. *)
Record FullArgSpec : Type := {
  spec_args : list string;
  spec_varargs : option string;
  spec_varkw : option string;
  spec_defaults : list string;
  spec_kwonlyargs : list string;
  spec_kwonlydefaults : list (string * string);
  spec_annotations : list (string * string)
}.

Record Reflect : Type := {
  r_id : nat;                     (* id(obj) *)
  r_doc : option string;          (* inspect.getdoc *)
  r_file : option string;         (* inspect.getfile; None: TypeError *)
  r_sourcefile : SourceFile;      (* inspect.getsourcefile *)
  r_sourcelines : SourceLines;    (* inspect.getsourcelines *)
  r_str : string;                 (* str(obj) *)
  r_eq : nat -> option bool       (* type(obj).__eq__(obj, other), by
                                     id(other); None: NotImplemented *)
}.

(** An argument of a deferred call: a string or any other value (held
    by its repr). *)
Inductive PyArg : Type :=
| ArgStr (s : string)
| ArgOther (repr : string).

(** Objects by the classification [_process_member] makes of them.
    [PyPromise] is an instance of [django.utils.functional.Promise] made
    by [lazy(func, resultclass)], whose [__reduce__()[1]] is the tuple
    [(func, args, kwargs, resultclass)]: the wrapped function is held by
    its [__name__], the keyword dictionary by its items in order. *)
Inductive PyObject : Type :=
| PyBuiltin (r : Reflect)
| PyModule (r : Reflect) (name : string) (members : list (string * PyObject))
| PyClass (r : Reflect) (name module : string)
          (bases : list (string * string))
          (members : list (string * PyObject))
| PyFunction (r : Reflect) (spec : option FullArgSpec)
             (wrapped : option PyObject)
| PyString (id : nat) (s : string)
| PyPromise (id : nat) (func_name : string) (args : list PyArg)
            (kwargs : list (string * PyArg))
| PyOther (r : Reflect).

Definition py_id (o : PyObject) : nat :=
  match o with
  | PyBuiltin r | PyModule r _ _ | PyClass r _ _ _ _ | PyFunction r _ _
  | PyOther r => r_id r
  | PyString id _ | PyPromise id _ _ _ => id
  end.

(** [a is b] *)
Definition py_is (a b : PyObject) : bool := Nat.eqb (py_id a) (py_id b).

(** [type(o).__eq__(o, other)]. A string answers [NotImplemented] to
    what is not a string, and a deferred call is taken to keep the
    comparison of [object]. *)
Definition eq_method (o : PyObject) (other : nat) : option bool :=
  match o with
  | PyBuiltin r | PyModule r _ _ | PyClass r _ _ _ _ | PyFunction r _ _
  | PyOther r => r_eq r other
  | PyString _ _ | PyPromise _ _ _ _ => None
  end.

(** [a == b]: strings compare by value; otherwise the [__eq__] of the
    left operand is asked, then that of the right one, and when both
    answer [NotImplemented] the comparison is identity. (Python asks the
    right operand first when its type is a subclass of the left one's;
    here the left one always comes first.) *)
Definition py_eq (a b : PyObject) : bool :=
  match a, b with
  | PyString _ s, PyString _ t => String.eqb s t
  | _, _ =>
      match eq_method a (py_id b) with
      | Some answer => answer
      | None =>
          match eq_method b (py_id a) with
          | Some answer => answer
          | None => py_is a b
          end
      end
  end.

(** [x in seq] for the built-in containers: identity or equality. *)
Definition py_in (x : PyObject) (seq : list PyObject) : bool :=
  existsb (fun e => py_is x e || py_eq x e) seq.

Module inspect.

Definition isbuiltin (o : PyObject) : bool :=
  match o with PyBuiltin _ => true | _ => false end.

Definition ismodule (o : option PyObject) : bool :=
  match o with Some (PyModule _ _ _) => true | _ => false end.

Definition isclass (o : option PyObject) : bool :=
  match o with Some (PyClass _ _ _ _ _) => true | _ => false end.

(** [inspect.ismethod(o) or inspect.isfunction(o)] *)
Definition isroutine (o : PyObject) : bool :=
  match o with PyFunction _ _ _ => true | _ => false end.

Definition reflect (o : PyObject) : option Reflect :=
  match o with
  | PyBuiltin r | PyModule r _ _ | PyClass r _ _ _ _ | PyFunction r _ _
  | PyOther r => Some r
  | PyString _ _ | PyPromise _ _ _ _ => None
  end.

(** Strings, deferred calls and [None] have no source: [TypeError]. *)
Definition getsourcelines (o : option PyObject) : SourceLines :=
  match o with
  | Some o' =>
      match reflect o' with
      | Some r => r_sourcelines r
      | None => SourceTypeError
      end
  | None => SourceTypeError
  end.

Definition getsourcefile (o : option PyObject) : Result (option string) :=
  match o with
  | Some o' =>
      match reflect o' with
      | Some r =>
          match r_sourcefile r with
          | FileOK f => Ok f
          | FileTypeError => Raise TypeError
          end
      | None => Raise TypeError
      end
  | None => Raise TypeError
  end.

Definition getfile (o : PyObject) : Result string :=
  match reflect o with
  | Some r =>
      match r_file r with
      | Some f => Ok f
      | None => Raise TypeError
      end
  | None => Raise TypeError
  end.

Definition getdoc (o : PyObject) : option string :=
  match reflect o with
  | Some r => r_doc r
  | None => None
  end.

Definition getfullargspec (o : PyObject) : Result FullArgSpec :=
  match o with
  | PyFunction _ (Some spec) _ => Ok spec
  | _ => Raise TypeError
  end.

Definition lookup_assoc (k : string) (d : list (string * string))
  : option string :=
  snd <$> List.find (fun kv => String.eqb (fst kv) k) d.

(** [formatargspec]'s inner [formatargandannotation]. *)
Definition formatargandannotation (annotations : list (string * string))
    (arg : string) : string :=
  match lookup_assoc arg annotations with
  | Some a => arg +:+ ": " +:+ a
  | None => arg
  end.

(** The positional arguments; the last [len(defaults)] ones are
    followed by [=] and their default. *)
Fixpoint format_positional (annotations : list (string * string))
    (firstdefault : nat) (defaults : list string) (i : nat)
    (args : list string) : list string :=
  match args with
  | [] => []
  | arg :: rest =>
      let spec := formatargandannotation annotations arg in
      let spec' :=
        match defaults with
        | [] => spec
        | _ :: _ =>
            if (firstdefault <=? i)%nat
            then spec +:+ "=" +:+ nth (i - firstdefault) defaults ""
            else spec
        end in
      spec' :: format_positional annotations firstdefault defaults (S i) rest
  end.

Definition format_kwonly (annotations kwonlydefaults : list (string * string))
    (kwonlyarg : string) : string :=
  let spec := formatargandannotation annotations kwonlyarg in
  match lookup_assoc kwonlyarg kwonlydefaults with
  | Some v => spec +:+ "=" +:+ v
  | None => spec
  end.

(** The entries [formatargspec] joins between the parentheses. *)
Definition argspec_specs (a : FullArgSpec) : list string :=
  let ann := spec_annotations a in
  format_positional ann
    (List.length (spec_args a) - List.length (spec_defaults a))
    (spec_defaults a) 0 (spec_args a)
  ++ match spec_varargs a with
     | Some v => ["*" +:+ formatargandannotation ann v]
     | None => match spec_kwonlyargs a with [] => [] | _ :: _ => ["*"] end
     end
  ++ List.map (format_kwonly ann (spec_kwonlydefaults a)) (spec_kwonlyargs a)
  ++ match spec_varkw a with
     | Some v => ["**" +:+ formatargandannotation ann v]
     | None => []
     end.

(** [inspect.formatargspec] on the fields of a spec: the parenthesised, comma-separated
    entries, followed by the return annotation when there is one. *)
Definition formatargspec (a : FullArgSpec) : string :=
  let result := "(" +:+ Str.join ", " (argspec_specs a) +:+ ")" in
  match lookup_assoc "return" (spec_annotations a) with
  | Some r => result +:+ " -> " +:+ r
  | None => result
  end.

End inspect.

(** [inspect.getmembers(o)], in the order it returns them. *)
Definition getmembers (o : PyObject) : list (string * PyObject) :=
  match o with
  | PyModule _ _ members | PyClass _ _ _ _ members => members
  | _ => []
  end.

(** [getattr(o, name, None)] *)
Definition getattr (o : PyObject) (name : string) : option PyObject :=
  snd <$> List.find (fun nm => String.eqb (fst nm) name) (getmembers o).

(** [o.__name__] *)
Definition py_name (o : PyObject) : Result string :=
  match o with
  | PyModule _ name _ | PyClass _ name _ _ _ => Ok name
  | _ => Raise AttributeError
  end.

(** [o.__module__] *)
Definition py_module (o : PyObject) : Result string :=
  match o with
  | PyClass _ _ module _ _ => Ok module
  | _ => Raise AttributeError
  end.

(** ** The deferred-call wrapper *)

(** The message of the configuration error. *)
Definition unknown_message (func_name : string) : string :=
  "'" +:+ func_name +:+ "' not in known lazily called functions".

Module LazyAttribute.

Record t : Type := {
  lazy_func : string;
  args : list PyArg;
  kwargs : list (string * PyArg)
}.

Definition functions : list (string * string) :=
  [ ("gettext", "gettext_lazy");
    ("reverse", "reverse_lazy");
    ("ugettext", "ugettext_lazy") ].

(** [LazyAttribute(promise)] *)
Definition __init__ (promise : PyObject) : Result t :=
  match promise with
  | PyPromise _ func_name a kw =>
      match inspect.lookup_assoc func_name functions with
      | Some lazy => Ok {| lazy_func := lazy; args := a; kwargs := kw |}
      | None =>
          Raise (ImproperlyConfigured (unknown_message func_name))
      end
  | _ => Raise AttributeError
  end.

(** The first loop of [__repr__]: strings are quoted, other values are
    appended as they are. *)
Definition repr_args (a : list PyArg) : list PyArg :=
  List.map (fun arg => match arg with
                       | ArgStr s => ArgStr (Str.quote s)
                       | ArgOther r => ArgOther r
                       end) a.

(** The second loop: [for key, value in self.kwargs] iterates over the
    keys of the dictionary and unpacks each key, a string, into two
    names, which only a key of two characters allows. *)
Fixpoint repr_kwargs (kw : list (string * PyArg)) : Result (list PyArg) :=
  match kw with
  | [] => Ok []
  | (k, _) :: rest =>
      match k with
      | String key (String value EmptyString) =>
          let key' := Str.quote (String key EmptyString) in
          let value' := Str.quote (String value EmptyString) in
          let* more := repr_kwargs rest in
          Ok (ArgStr (key' +:+ ": " +:+ value') :: more)
      | _ => Raise ValueError
      end
  end.

(** [", ".join(arguments)] accepts strings only. *)
Fixpoint all_str (l : list PyArg) : Result (list string) :=
  match l with
  | [] => Ok []
  | ArgStr s :: rest => let* more := all_str rest in Ok (s :: more)
  | ArgOther _ :: _ => Raise TypeError
  end.

Definition __repr__ (self : t) : Result string :=
  let arguments := repr_args (args self) in
  let* from_kwargs := repr_kwargs (kwargs self) in
  let arguments := (arguments ++ from_kwargs)%list in
  let func := lazy_func self in
  let* strs := all_str arguments in
  let arguments := Str.join ", " strs in
  Ok (func +:+ "(" +:+ arguments +:+ ")").

End LazyAttribute.

Definition BANNED_ATTR_NAMES : list string :=
  [ "__all__"; "__builtins__"; "__class__"; "__dict__"; "__doc__";
    "__file__"; "__module__"; "__name__"; "__package__"; "__path__";
    "__spec__"; "__weakref__" ].

(** ** The records the importer yields *)

(** Modelled from the spec: [cbv.importer.dataclasses] is not among the
    sources; the four records have the fields section 3 lists, under the
    names the constructor calls of the importer use. *)
Record ModuleRecord : Type := {
  module_name : string;
  module_docstring : string;
  module_filename : string
}.

Record Klass : Type := {
  klass_name : string;
  klass_module : string;
  klass_docstring : string;
  klass_line_number : Z;
  klass_path : string;
  klass_bases : list string;
  klass_best_import_path : string
}.

Record Method : Type := {
  method_name : string;
  method_docstring : string;
  method_code : string;
  method_kwargs : string;
  method_line_number : Z;
  method_klass_path : string
}.

Record KlassAttribute : Type := {
  attr_name : string;
  attr_value : string;
  attr_line_number : Z;
  attr_klass_path : string
}.

Inductive Member : Type :=
| IsModule (m : ModuleRecord)
| IsKlass (k : Klass)
| IsMethod (m : Method)
| IsKlassAttribute (a : KlassAttribute).

(** ** Generators

    A generator is modelled by the records it yields, in order, and by
    the exception that ends it, if one does. *)

Record Gen : Type := {
  yielded : list Member;
  raised : option Exn
}.

Definition gen_return : Gen := {| yielded := []; raised := None |}.
Definition gen_raise (e : Exn) : Gen := {| yielded := []; raised := Some e |}.
Definition gen_yield (m : Member) : Gen := {| yielded := [m]; raised := None |}.

(** [yield from g1] followed by [g2]. *)
Definition gen_seq (g1 g2 : Gen) : Gen :=
  match raised g1 with
  | Some e => g1
  | None => {| yielded := (yielded g1 ++ yielded g2)%list; raised := raised g2 |}
  end.

(** A call that may raise, inside a generator. *)
Definition gen_try {A : Type} (r : Result A) (k : A -> Gen) : Gen :=
  match r with
  | Ok a => k a
  | Raise e => gen_raise e
  end.

Notation "'try*' x ':=' r 'in' k" := (gen_try r (fun x => k))
  (at level 10, x pattern, r at level 100, k at level 200).

(** ** The running interpreter *)

Record Runtime : Type := {
  sys_path : list string;                  (* sys.path *)
  sys_modules : gmap string PyObject;      (* what importlib.import_module finds *)
  object_dict_values : list PyObject       (* object.__dict__.values() *)
}.

(** [importlib.import_module(path)] *)
Definition import_module (rt : Runtime) (path : string) : Result PyObject :=
  match sys_modules rt !! path with
  | Some m => Ok m
  | None => Raise ImportError
  end.

(** ** Helpers of the importer *)

Definition _full_path (klass : PyObject) : Result string :=
  let* module := py_module klass in
  let* name := py_name klass in
  Ok (module +:+ "." +:+ name).

Definition get_docstring (member : PyObject) : string :=
  match inspect.getdoc member with
  | Some doc => doc
  | None => ""
  end.

(** [max(l, key=len)]: the first string of greatest length. *)
Fixpoint max_by_len (l : list string) : Result string :=
  match l with
  | [] => Raise ValueError
  | p :: rest =>
      match max_by_len rest with
      | Ok q => if (String.length p <? String.length q)%nat then Ok q else Ok p
      | Raise _ => Ok p
      end
  end.

Definition get_filename (rt : Runtime) (member : PyObject) : Result string :=
  let* filename := inspect.getfile member in
  let* sys_folder :=
    max_by_len (List.filter (fun p => Str.contains filename p) (sys_path rt)) in
  let filename := Str.drop (String.length sys_folder) filename in
  if String.eqb (Str.slice_from_m4 filename) ".pyc"
  then Ok (Str.slice_to_m1 filename)
  else Ok filename.

(** What a class member is once [_handle_class_attribute] has replaced a
    deferred call by its [LazyAttribute]. *)
Inductive AttrMember : Type :=
| Plain (o : PyObject)
| Lazy (l : LazyAttribute.t).

(** A [LazyAttribute] is none of the things [inspect] has sources for. *)
Definition attr_sourcelines (member : AttrMember) : SourceLines :=
  match member with
  | Plain o => inspect.getsourcelines (Some o)
  | Lazy _ => SourceTypeError
  end.

Definition get_line_number_of (lines : SourceLines) : Result Z :=
  match lines with
  | SourceOK _ start_line => Ok start_line
  | SourceTypeError => Ok (-1)
  | SourceOSError => Raise OSError
  end.

Definition get_line_number (member : AttrMember) : Result Z :=
  get_line_number_of (attr_sourcelines member).

(** Deferred calls reach [get_value] wrapped only; [str] of any other
    object is what reflection reports. *)
Definition get_value (member : AttrMember) : Result string :=
  match member with
  | Plain (PyString _ s) => Ok (Str.quote s)
  | Plain o =>
      match inspect.reflect o with
      | Some r => Ok (r_str r)
      | None => Raise TypeError
      end
  | Lazy l => LazyAttribute.__repr__ l
  end.

(** A fresh [LazyAttribute] is identical to nothing that existed before
    and compares by identity. *)
Definition attr_in (member : AttrMember) (seq : list PyObject) : bool :=
  match member with
  | Plain o => py_in o seq
  | Lazy _ => false
  end.

Definition ok_to_add_attribute (rt : Runtime) (member : AttrMember)
    (member_name : string) (parent : option PyObject) : bool :=
  if inspect.isclass parent && attr_in member (object_dict_values rt)
  then false
  else if existsb (String.eqb member_name) BANNED_ATTR_NAMES
  then false
  else true.

Definition ok_to_add_method (member : PyObject) (parent : option PyObject)
    : Result bool :=
  let* member_file := inspect.getsourcefile (Some member) in
  let* parent_file := inspect.getsourcefile parent in
  if negb (bool_decide (member_file = parent_file)) then Ok false
  else if negb (inspect.isclass parent) then Ok false
  else
    match inspect.getsourcelines (Some member) with
    | SourceTypeError => Raise TypeError
    | SourceOSError => Raise OSError
    | SourceOK lines start_line =>
        match inspect.getsourcelines parent with
        | SourceTypeError => Raise TypeError
        | SourceOSError => Raise OSError
        | SourceOK parent_lines parent_start_line =>
            if (start_line <? parent_start_line)
               || (parent_start_line + Z.of_nat (List.length parent_lines)
                   <? start_line)
            then Ok false
            else Ok true
        end
    end.

Definition get_code (member : PyObject) : Result (string * string * Z) :=
  match inspect.getsourcelines (Some member) with
  | SourceTypeError => Raise TypeError
  | SourceOSError => Raise OSError
  | SourceOK lines start_line =>
      match lines with
      | [] => Raise IndexError
      | first :: _ =>
          let whitespace :=
            (String.length first - String.length (Str.lstrip first))%nat in
          let lines := List.map (Str.drop whitespace) lines in
          let code := Str.join "" lines in
          let* spec := inspect.getfullargspec member in
          let arguments := inspect.formatargspec spec in
          Ok (code, arguments, start_line)
      end
  end.

(** ** The importer *)

(** A value together with the equation that says where it came from. *)
Definition remember_eq {A : Type} (x : A) : { y : A | x = y } :=
  exist _ x eq_refl.

Section Importer.

Context (rt : Runtime).

(** [getattr(module, klass.__name__, None) == klass] *)
Definition exposes (module : PyObject) (name : string) (klass : PyObject)
    : bool :=
  match getattr module name with
  | Some o => py_eq o klass
  | None => false
  end.

(** The loop of [_get_best_import_path_for_class], entered with the
    current [module_path] and [best_path]. *)
Equations? best_import_path_loop (name : string) (klass : PyObject)
    (module_path best_path : string) : Result string
    by wf (String.length module_path) lt :=
  best_import_path_loop name klass module_path best_path
    with remember_eq (Str.rpartition_head module_path) := {
    | exist _ EmptyString _ => Ok best_path
    | exist _ (String c s) H =>
        match import_module rt (String c s) with
        | Raise e => Raise e
        | Ok module =>
            best_import_path_loop name klass (String c s)
              (if exposes module name klass then String c s else best_path)
        end }.
Proof.
  assert (shorter : forall path head,
            Str.rpartition_dot path = Some head ->
            (String.length head < String.length path)%nat).
  { induction path as [|x rest IH]; intros head; simpl; [discriminate|].
    destruct (Str.rpartition_dot rest) as [h|].
    - intros [= <-]. simpl. specialize (IH h eq_refl). lia.
    - destruct (Ascii.eqb x "."); [|discriminate].
      intros [= <-]. simpl. lia. }
  unfold Str.rpartition_head in H.
  destruct (Str.rpartition_dot module_path) as [h|] eqn:E; [|discriminate].
  subst h. exact (shorter module_path (String c s) E).
Qed.

Definition _get_best_import_path_for_class (klass : PyObject)
    : Result string :=
  let* module_path := py_module klass in
  let* name := py_name klass in
  best_import_path_loop name klass module_path module_path.

End Importer.

Section Walker.

Context (rt : Runtime).

(** [subs] is the generator [_process_submembers] returns for the
    members of the module. *)
Definition _handle_module (module : PyObject) (root_module_name : string)
    (subs : Gen) : Gen :=
  try* module_name := py_name module in
  (* Only traverse under hierarchy *)
  if negb (Str.startswith module_name root_module_name) then gen_return
  else
    try* filename := get_filename rt module in
    gen_seq
      (gen_yield (IsModule {| module_name := module_name;
                              module_docstring := get_docstring module;
                              module_filename := filename |}))
      subs.

Fixpoint full_paths (bases : list (string * string)) : list string :=
  match bases with
  | [] => []
  | (module, name) :: rest => (module +:+ "." +:+ name) :: full_paths rest
  end.

(** [member.__bases__], each base by its [__module__] and [__name__]. *)
Definition py_bases (o : PyObject) : Result (list (string * string)) :=
  match o with
  | PyClass _ _ _ bases _ => Ok bases
  | _ => Raise AttributeError
  end.

Definition _handle_class_on_module (member parent : PyObject)
    (root_module_name : string) (subs : Gen) : Gen :=
  try* member_module := py_module member in
  try* parent_name := py_name parent in
  if negb (Str.startswith member_module parent_name) then gen_return
  else
    try* member_file := inspect.getsourcefile (Some member) in
    try* parent_file := inspect.getsourcefile (Some parent) in
    if negb (bool_decide (member_file = parent_file)) then gen_return
    else
      try* name := py_name member in
      try* line_number := get_line_number (Plain member) in
      try* path := _full_path member in
      try* bases := py_bases member in
      try* best_import_path := _get_best_import_path_for_class rt member in
      gen_seq
        (gen_yield (IsKlass {| klass_name := name;
                               klass_module := member_module;
                               klass_docstring := get_docstring member;
                               klass_line_number := line_number;
                               klass_path := path;
                               klass_bases := full_paths bases;
                               klass_best_import_path := best_import_path |}))
        subs.

(** [while getattr(member, "__wrapped__", None): member = member.__wrapped__] *)
Fixpoint unwrap (member : PyObject) : PyObject :=
  match member with
  | PyFunction _ _ (Some inner) => unwrap inner
  | _ => member
  end.

Definition _handle_function_or_method (member : PyObject)
    (member_name : string) (parent : option PyObject) : Gen :=
  (* Decoration *)
  let member := unwrap member in
  (* Checks *)
  try* ok := ok_to_add_method member parent in
  if negb ok then gen_return
  else
    try* source := get_code member in
    let '(code, arguments, start_line) := source in
    try* klass_path :=
      match parent with
      | Some p => _full_path p
      | None => Raise AttributeError
      end in
    gen_yield (IsMethod {| method_name := member_name;
                           method_docstring := get_docstring member;
                           method_code := code;
                           method_kwargs := Str.slice_1_m1 arguments;
                           method_line_number := start_line;
                           method_klass_path := klass_path |}).

(** [isinstance(member, Promise)] *)
Definition is_promise (o : PyObject) : bool :=
  match o with PyPromise _ _ _ _ => true | _ => false end.

(** Replace lazy function call with an object representing it *)
Definition replace_lazy (member : PyObject) : Result AttrMember :=
  if is_promise member
  then let* l := LazyAttribute.__init__ member in Ok (Lazy l)
  else Ok (Plain member).

Definition _handle_class_attribute (member : PyObject)
    (member_name : string) (parent : option PyObject) : Gen :=
  try* member := replace_lazy member in
  if negb (ok_to_add_attribute rt member member_name parent) then gen_return
  else
    try* value := get_value member in
    try* line_number := get_line_number member in
    try* klass_path :=
      match parent with
      | Some p => _full_path p
      | None => Raise AttributeError
      end in
    gen_yield (IsKlassAttribute {| attr_name := member_name;
                                   attr_value := value;
                                   attr_line_number := line_number;
                                   attr_klass_path := klass_path |}).

(** The body of [_process_member]; [subs] is the generator that
    [_process_submembers] returns for the members of [member]. *)
Definition _process_member_with (subs : Gen) (member : PyObject)
    (member_name root_module_name : string) (parent : option PyObject)
    : Gen :=
  (* BUILTIN *)
  if inspect.isbuiltin member then gen_return
  (* MODULE *)
  else if inspect.ismodule (Some member)
  then _handle_module member root_module_name subs
  (* CLASS *)
  else if inspect.isclass (Some member) && inspect.ismodule parent
  then
    match parent with
    | Some p => _handle_class_on_module member p root_module_name subs
    | None => gen_return
    end
  (* METHOD *)
  else if inspect.isroutine member
  then _handle_function_or_method member member_name parent
  (* (Class) ATTRIBUTE *)
  else if inspect.isclass parent
  then _handle_class_attribute member member_name parent
  else gen_return.

(** [_process_member], with the loop of [_process_submembers] over the
    members of [member] as its inner fixpoint. *)
Fixpoint _process_member (member : PyObject)
    (member_name root_module_name : string) (parent : option PyObject)
    {struct member} : Gen :=
  let _process_submembers :=
    fix each (members : list (string * PyObject)) : Gen :=
      match members with
      | [] => gen_return
      | (submember_name, submember) :: rest =>
          gen_seq
            (_process_member submember submember_name root_module_name
               (Some member))
            (each rest)
      end in
  _process_member_with
    match member with
    | PyModule _ _ members | PyClass _ _ _ _ members =>
        _process_submembers members
    | _ => gen_return
    end
    member member_name root_module_name parent.

(** [_process_submembers] over a list of members of [parent]. *)
Fixpoint _process_submembers (parent : PyObject) (root_module_name : string)
    (members : list (string * PyObject)) : Gen :=
  match members with
  | [] => gen_return
  | (submember_name, submember) :: rest =>
      gen_seq
        (_process_member submember submember_name root_module_name
           (Some parent))
        (_process_submembers parent root_module_name rest)
  end.

(** The modules [process_modules] could import, in the order given. *)
Fixpoint import_all (module_paths : list string) : list PyObject :=
  match module_paths with
  | [] => []
  | module_path :: rest =>
      match import_module rt module_path with
      | Ok m => m :: import_all rest
      | Raise _ => import_all rest
      end
  end.

Fixpoint process_each (modules : list PyObject) : Gen :=
  match modules with
  | [] => gen_return
  | module :: rest =>
      gen_seq
        (try* module_name := py_name module in
         _process_member module module_name module_name None)
        (process_each rest)
  end.

Definition process_modules (module_paths : list string) : Gen :=
  process_each (import_all module_paths).

End Walker.

(** ** The rows of the database *)

(** Modelled from the spec: [cbv.models] is not among the sources. The
    tables are those of section 3, each row with the fields the
    constructor calls of the source give it. Rows refer to one another
    by primary key, and two rows of a table are the same object when
    their keys are equal. *)
Record ModuleModel : Type := {
  mm_pk : nat;
  mm_name : string;
  mm_docstring : string;
  mm_filename : string
}.

Record KlassModel : Type := {
  km_pk : nat;
  km_module : nat;
  km_name : string;
  km_docstring : string;
  km_line_number : Z;
  km_import_path : string
}.

Record MethodModel : Type := {
  mt_klass : nat;
  mt_name : string;
  mt_docstring : string;
  mt_code : string;
  mt_kwargs : string;
  mt_line_number : Z
}.

Record Inheritance : Type := {
  inh_parent : nat;
  inh_child : nat;
  inh_order : nat
}.

Record KlassAttributeModel : Type := {
  ka_klass : nat;
  ka_line_number : Z;
  ka_name : string;
  ka_value : string
}.

Record DB : Type := {
  db_next_pk : nat;
  db_modules : list ModuleModel;
  db_klasses : list KlassModel;
  db_methods : list MethodModel;
  db_inheritance : list Inheritance;
  db_attributes : list KlassAttributeModel
}.

Definition empty_db : DB :=
  {| db_next_pk := 1; db_modules := []; db_klasses := []; db_methods := [];
     db_inheritance := []; db_attributes := [] |}.

(** Modelled from the spec: [models.Klass.get_all_children] is not among
    the sources. The spec has it return the descendants of a class, "via
    transitive closure over the Inheritance edges, in the child
    direction". [get_children] are the children one edge away; a
    descendant is reached in at most as many steps as there are edges. *)
Definition get_children (edges : list Inheritance) (klass : nat) : list nat :=
  List.map inh_child
    (List.filter (fun e => Nat.eqb (inh_parent e) klass) edges).

Fixpoint descend (steps : nat) (edges : list Inheritance) (klass : nat)
    : list nat :=
  match steps with
  | O => []
  | S n =>
      List.flat_map (fun child => child :: descend n edges child)
        (get_children edges klass)
  end.

Definition get_all_children (edges : list Inheritance) (klass : nat)
    : list nat :=
  descend (List.length edges) edges klass.

(** The dictionary [attributes] of [import_project_version], in insertion
    order: (name, value) -> [(klass_path, line_number); ...]. *)
Definition AttributeTable : Type :=
  list ((string * string) * list (string * Z)).

(** [attributes[key] += [entry]] on a [defaultdict(list)] *)
Fixpoint add_attribute (key : string * string) (entry : string * Z)
    (attributes : AttributeTable) : AttributeTable :=
  match attributes with
  | [] => [(key, [entry])]
  | (k, entries) :: rest =>
      if bool_decide (k = key)
      then (k, (entries ++ [entry])%list) :: rest
      else (k, entries) :: add_attribute key entry rest
  end.

(** [klass_lookup[klass_path]] *)
Definition lookup_klass (klass_lookup : gmap string KlassModel)
    (klass_path : string) : Result KlassModel :=
  match klass_lookup !! klass_path with
  | Some klass => Ok klass
  | None => Raise (KeyError klass_path)
  end.

Section Resolver.

Context (edges : list Inheritance) (klass_lookup : gmap string KlassModel).

(** Find all the descendants of each Klass. *)
Fixpoint all_descendants (klasses : list (string * Z)) : Result (gset nat) :=
  match klasses with
  | [] => Ok ∅
  | (klass_path, _) :: rest =>
      let* klass := lookup_klass klass_lookup klass_path in
      let* more := all_descendants rest in
      Ok (list_to_set (get_all_children edges (km_pk klass)) ∪ more)
  end.

(** The comprehension that leaves out the descendants. *)
Fixpoint remaining_klasses (descendants : gset nat)
    (klasses : list (string * Z)) : Result (list (string * Z)) :=
  match klasses with
  | [] => Ok []
  | k_and_l :: rest =>
      let* klass := lookup_klass klass_lookup (fst k_and_l) in
      let* more := remaining_klasses descendants rest in
      if bool_decide (km_pk klass ∉ descendants)
      then Ok (k_and_l :: more)
      else Ok more
  end.

Fixpoint attribute_models (name value : string)
    (remaining : list (string * Z)) : Result (list KlassAttributeModel) :=
  match remaining with
  | [] => Ok []
  | (klass_path, line) :: rest =>
      let* klass := lookup_klass klass_lookup klass_path in
      let* more := attribute_models name value rest in
      Ok ({| ka_klass := km_pk klass; ka_line_number := line;
             ka_name := name; ka_value := value |} :: more)
  end.

(** The list handed to [bulk_create]. *)
Fixpoint create_attributes (attributes : AttributeTable)
    : Result (list KlassAttributeModel) :=
  match attributes with
  | [] => Ok []
  | ((name, value), klasses) :: rest =>
      let* descendants := all_descendants klasses in
      let* remaining := remaining_klasses descendants klasses in
      let* models := attribute_models name value remaining in
      let* more := create_attributes rest in
      Ok (models ++ more)%list
  end.

End Resolver.

(** [create_inheritance]: the inner loop over [enumerate(direct_ancestors)]. *)
Fixpoint inheritance_of (klass_lookup : gmap string KlassModel)
    (klass_data : Klass) (i : nat) (direct_ancestors : list string)
    : Result (list Inheritance) :=
  match direct_ancestors with
  | [] => Ok []
  | ancestor :: rest =>
      match klass_lookup !! ancestor with
      | Some parent =>
          let* child := lookup_klass klass_lookup klass_data.(klass_path) in
          let* more := inheritance_of klass_lookup klass_data (S i) rest in
          Ok ({| inh_parent := km_pk parent; inh_child := km_pk child;
                 inh_order := i |} :: more)
      | None => inheritance_of klass_lookup klass_data (S i) rest
      end
  end.

(** The list [create_inheritance] hands to [bulk_create]. *)
Fixpoint create_inheritance (klasses : list Klass)
    (klass_lookup : gmap string KlassModel) : Result (list Inheritance) :=
  match klasses with
  | [] => Ok []
  | klass_data :: rest =>
      let* edges :=
        inheritance_of klass_lookup klass_data 0 klass_data.(klass_bases) in
      let* more := create_inheritance rest klass_lookup in
      Ok (edges ++ more)%list
  end.

(** ** DBStorage

    [import_project_version] from the loop over [members] on; the rows of
    Project and ProjectVersion and [_wipe_clashing_data] are left out. *)

Record ImportState : Type := {
  st_db : DB;
  st_klasses : list Klass;
  st_attributes : AttributeTable;
  st_klass_models : gmap string KlassModel;
  st_module_models : gmap string ModuleModel;
  st_method_models : list MethodModel
}.

Definition initial_state (db : DB) : ImportState :=
  {| st_db := db; st_klasses := []; st_attributes := [];
     st_klass_models := ∅; st_module_models := ∅; st_method_models := [] |}.

(** Modelled from the spec: [objects.create] is not among the sources.
    Section 3 has the name of a Module and the canonical path of a Klass
    "unique within a version": the database refuses a second row of the
    same name, or of the same path, with [IntegrityError]. The rows of
    the version are those made in this run, which [module_models] and
    [klass_models] hold by name and by path. *)
Definition create_module (st : ImportState) (module_model : ModuleModel)
    : Result ModuleModel :=
  match st_module_models st !! mm_name module_model with
  | Some _ => Raise IntegrityError
  | None => Ok module_model
  end.

(** Modelled from the spec: the same for the canonical path of a
    Klass. *)
Definition create_klass (st : ImportState) (klass_path : string)
    (klass_model : KlassModel) : Result KlassModel :=
  match st_klass_models st !! klass_path with
  | Some _ => Raise IntegrityError
  | None => Ok klass_model
  end.

(** One turn of the loop [for member in members]. *)
Definition consume (st : ImportState) (member : Member) : Result ImportState :=
  let db := st_db st in
  match member with
  | IsModule m =>
      let* module_model :=
        create_module st
          {| mm_pk := db_next_pk db; mm_name := module_name m;
             mm_docstring := module_docstring m;
             mm_filename := module_filename m |} in
      Ok {| st_db := {| db_next_pk := S (db_next_pk db);
                        db_modules := (db_modules db ++ [module_model])%list;
                        db_klasses := db_klasses db;
                        db_methods := db_methods db;
                        db_inheritance := db_inheritance db;
                        db_attributes := db_attributes db |};
            st_klasses := st_klasses st;
            st_attributes := st_attributes st;
            st_klass_models := st_klass_models st;
            st_module_models :=
              <[module_name m := module_model]> (st_module_models st);
            st_method_models := st_method_models st |}
  | IsKlassAttribute a =>
      Ok {| st_db := db;
            st_klasses := st_klasses st;
            st_attributes :=
              add_attribute (attr_name a, attr_value a)
                (attr_klass_path a, attr_line_number a) (st_attributes st);
            st_klass_models := st_klass_models st;
            st_module_models := st_module_models st;
            st_method_models := st_method_models st |}
  | IsMethod m =>
      let* klass := lookup_klass (st_klass_models st) (method_klass_path m) in
      let method :=
        {| mt_klass := km_pk klass; mt_name := method_name m;
           mt_docstring := method_docstring m; mt_code := method_code m;
           mt_kwargs := method_kwargs m;
           mt_line_number := method_line_number m |} in
      Ok {| st_db := db;
            st_klasses := st_klasses st;
            st_attributes := st_attributes st;
            st_klass_models := st_klass_models st;
            st_module_models := st_module_models st;
            st_method_models := (st_method_models st ++ [method])%list |}
  | IsKlass k =>
      match st_module_models st !! klass_module k with
      | None => Raise (KeyError (klass_module k))
      | Some module =>
          let* klass_model :=
            create_klass st (klass_path k)
              {| km_pk := db_next_pk db; km_module := mm_pk module;
                 km_name := klass_name k; km_docstring := klass_docstring k;
                 km_line_number := klass_line_number k;
                 km_import_path := klass_best_import_path k |} in
          Ok {| st_db := {| db_next_pk := S (db_next_pk db);
                            db_modules := db_modules db;
                            db_klasses := (db_klasses db ++ [klass_model])%list;
                            db_methods := db_methods db;
                            db_inheritance := db_inheritance db;
                            db_attributes := db_attributes db |};
                st_klasses := (st_klasses st ++ [k])%list;
                st_attributes := st_attributes st;
                st_klass_models :=
                  <[klass_path k := klass_model]> (st_klass_models st);
                st_module_models := st_module_models st;
                st_method_models := st_method_models st |}
      end
  end.

(** The loop, up to the member whose handling raises, if one does. *)
Fixpoint consume_all (st : ImportState) (members : list Member)
    : ImportState * option Exn :=
  match members with
  | [] => (st, None)
  | member :: rest =>
      match consume st member with
      | Ok st' => consume_all st' rest
      | Raise e => (st, Some e)
      end
  end.

(** What is left in the database, and the exception that ended the
    import, if one did. *)
Definition import_project_version (db : DB) (members : Gen)
    : DB * option Exn :=
  let '(st, err) := consume_all (initial_state db) (yielded members) in
  let db := st_db st in
  match err with
  | Some e => (db, Some e)
  | None =>
      match raised members with
      | Some e => (db, Some e)
      | None =>
          let db :=
            {| db_next_pk := db_next_pk db; db_modules := db_modules db;
               db_klasses := db_klasses db;
               db_methods := (db_methods db ++ st_method_models st)%list;
               db_inheritance := db_inheritance db;
               db_attributes := db_attributes db |} in
          match create_inheritance (st_klasses st) (st_klass_models st) with
          | Raise e => (db, Some e)
          | Ok inheritance_models =>
              let db :=
                {| db_next_pk := db_next_pk db; db_modules := db_modules db;
                   db_klasses := db_klasses db; db_methods := db_methods db;
                   db_inheritance :=
                     (db_inheritance db ++ inheritance_models)%list;
                   db_attributes := db_attributes db |} in
              match create_attributes (db_inheritance db)
                      (st_klass_models st) (st_attributes st) with
              | Raise e => (db, Some e)
              | Ok attribute_models =>
                  ({| db_next_pk := db_next_pk db;
                      db_modules := db_modules db;
                      db_klasses := db_klasses db;
                      db_methods := db_methods db;
                      db_inheritance := db_inheritance db;
                      db_attributes :=
                        (db_attributes db ++ attribute_models)%list |}, None)
              end
          end
      end
  end.

(** [Command.handle] on an empty database. *)
Definition handle (rt : Runtime) (module_paths : list string)
    : DB * option Exn :=
  import_project_version empty_db (process_modules rt module_paths).

(** ** The vocabulary of the properties *)

(** [visits m0 p0 n0 m p n]: walking [m0], found under the name [n0] in
    [p0], may reach [m] under the name [n] in [p]. *)
Inductive visits (m0 : PyObject) (p0 : option PyObject) (n0 : string)
  : PyObject -> option PyObject -> string -> Prop :=
| visits_here : visits m0 p0 n0 m0 p0 n0
| visits_sub n' s m p n :
    In (n', s) (getmembers m0) ->
    visits s (Some m0) n' m p n ->
    visits m0 p0 n0 m p n.

(** [emits rt member name root parent rec]: the body of
    [_process_member], run on [member] alone, yields [rec]. One
    constructor for each branch that yields. *)
Inductive emits (rt : Runtime) (member : PyObject) (member_name root : string)
    (parent : option PyObject) : Member -> Prop :=
| emits_module module_name filename :
    inspect.ismodule (Some member) = true ->
    py_name member = Ok module_name ->
    Str.startswith module_name root = true ->
    get_filename rt member = Ok filename ->
    emits rt member member_name root parent
      (IsModule {| module_name := module_name;
                   module_docstring := get_docstring member;
                   module_filename := filename |})
| emits_klass p member_module parent_name file name line_number path bases
      best_import_path :
    parent = Some p ->
    inspect.ismodule parent = true ->
    inspect.isclass (Some member) = true ->
    py_module member = Ok member_module ->
    py_name p = Ok parent_name ->
    Str.startswith member_module parent_name = true ->
    inspect.getsourcefile (Some member) = Ok file ->
    inspect.getsourcefile (Some p) = Ok file ->
    py_name member = Ok name ->
    get_line_number (Plain member) = Ok line_number ->
    _full_path member = Ok path ->
    py_bases member = Ok bases ->
    _get_best_import_path_for_class rt member = Ok best_import_path ->
    emits rt member member_name root parent
      (IsKlass {| klass_name := name;
                  klass_module := member_module;
                  klass_docstring := get_docstring member;
                  klass_line_number := line_number;
                  klass_path := path;
                  klass_bases := full_paths bases;
                  klass_best_import_path := best_import_path |})
| emits_method p code arguments start_line klass_path :
    inspect.isroutine member = true ->
    parent = Some p ->
    ok_to_add_method (unwrap member) parent = Ok true ->
    get_code (unwrap member) = Ok (code, arguments, start_line) ->
    _full_path p = Ok klass_path ->
    emits rt member member_name root parent
      (IsMethod {| method_name := member_name;
                   method_docstring := get_docstring (unwrap member);
                   method_code := code;
                   method_kwargs := Str.slice_1_m1 arguments;
                   method_line_number := start_line;
                   method_klass_path := klass_path |})
| emits_attribute p attr value line_number klass_path :
    inspect.isbuiltin member = false ->
    inspect.ismodule (Some member) = false ->
    inspect.isroutine member = false ->
    parent = Some p ->
    inspect.isclass parent = true ->
    replace_lazy member = Ok attr ->
    ok_to_add_attribute rt attr member_name parent = true ->
    get_value attr = Ok value ->
    get_line_number attr = Ok line_number ->
    _full_path p = Ok klass_path ->
    emits rt member member_name root parent
      (IsKlassAttribute {| attr_name := member_name;
                           attr_value := value;
                           attr_line_number := line_number;
                           attr_klass_path := klass_path |}).

(** [walked rt module_paths root member parent name]: [member], found
    under [name] in [parent], is within reach of the run of
    [process_modules] on [module_paths] while it walks the root module
    [root]. *)
Definition walked (rt : Runtime) (module_paths : list string) (root : string)
    (member : PyObject) (parent : option PyObject) (name : string) : Prop :=
  exists module,
    In module (import_all rt module_paths) /\
    py_name module = Ok root /\
    visits module None root member parent name.

(** [p] followed by a dot is the beginning of [s]. *)
Definition dotted_prefix (p s : string) : Prop :=
  exists rest, s = p +:+ "." +:+ rest.

(** Importing [path] gives a module where [name] is [klass]. *)
Definition passes (rt : Runtime) (name : string) (klass : PyObject)
    (path : string) : Prop :=
  exists module,
    import_module rt path = Ok module /\ exposes module name klass = true.

(** What the loop returns when it is entered with [module_path] and
    [best_path]: [best_path] again when no dotted prefix of
    [module_path] passes, and else the shortest one that passes. *)
Definition loop_result (rt : Runtime) (name : string) (klass : PyObject)
    (module_path best_path best : string) : Prop :=
  (best = best_path /\
   forall p, p <> "" -> dotted_prefix p module_path ->
             ~ passes rt name klass p)
  \/
  (best <> "" /\ dotted_prefix best module_path /\
   passes rt name klass best /\
   forall p, p <> "" -> dotted_prefix p module_path ->
             passes rt name klass p ->
             (String.length best <= String.length p)%nat).

(** An Inheritance row makes [child] a child of [parent]. *)
Definition child_of (edges : list Inheritance) (parent child : nat) : Prop :=
  exists e, In e edges /\ inh_parent e = parent /\ inh_child e = child.

(** [walk k l c]: the edges lead from [k] through the classes of [l],
    one after the other, to [c], the last of them. *)
Inductive walk (edges : list Inheritance) : nat -> list nat -> nat -> Prop :=
| walk_one k c : child_of edges k c -> walk edges k [c] c
| walk_cons k d l c :
    child_of edges k d -> walk edges d l c -> walk edges k (d :: l) c.

(** Every class of a group is in [klass_lookup]. *)
Definition all_known (klass_lookup : gmap string KlassModel)
    (klasses : list (string * Z)) : Prop :=
  forall klass_path line,
    In (klass_path, line) klasses -> is_Some (klass_lookup !! klass_path).

(** [descends klasses pk]: the class [pk] is a descendant of a class
    of the group. *)
Definition descends (edges : list Inheritance)
    (klass_lookup : gmap string KlassModel) (klasses : list (string * Z))
    (pk : nat) : Prop :=
  exists klass_path line klass,
    In (klass_path, line) klasses /\
    klass_lookup !! klass_path = Some klass /\
    clos_trans nat (child_of edges) (km_pk klass) pk.

(** Every character of [s] is one [str.lstrip] removes. *)
Fixpoint all_space (s : string) : bool :=
  match s with
  | EmptyString => true
  | String c rest => Str.isspace c && all_space rest
  end.

(** What [get_code] makes of one source line when the first line is
    indented by [indent]: a line that begins with the indentation loses
    it, a line no longer than the indentation is left empty. *)
Definition dedented (indent line out : string) : Prop :=
  line = indent +:+ out \/
  ((String.length line <= String.length indent)%nat /\ out = "").

(** [filename] with a last extension [.pyc] turned into [.py]. *)
Definition pyc_to_py (filename : string) : string :=
  if String.eqb (Str.slice_from_m4 filename) ".pyc"
  then Str.slice_to_m1 filename
  else filename.

(** [attributes.get(key, [])] *)
Fixpoint table_find (key : string * string) (table : AttributeTable)
    : list (string * Z) :=
  match table with
  | [] => []
  | (k, entries) :: rest =>
      if bool_decide (k = key) then entries else table_find key rest
  end.

(** The candidates among [members] for one (name, value), each by its
    class and line, in the order of the stream. *)
Fixpoint candidates_for (key : string * string) (members : list Member)
    : list (string * Z) :=
  match members with
  | [] => []
  | IsKlassAttribute a :: rest =>
      if bool_decide ((attr_name a, attr_value a) = key)
      then (attr_klass_path a, attr_line_number a) :: candidates_for key rest
      else candidates_for key rest
  | _ :: rest => candidates_for key rest
  end.

(** [covered seen members]: every Method and KlassAttribute record of
    [members] names a class that is in [seen] or has its Klass record
    earlier in [members]. *)
Fixpoint covered (seen : list string) (members : list Member) : Prop :=
  match members with
  | [] => True
  | IsModule _ :: rest => covered seen rest
  | IsKlass k :: rest => covered (klass_path k :: seen) rest
  | IsMethod m :: rest => In (method_klass_path m) seen /\ covered seen rest
  | IsKlassAttribute a :: rest =>
      In (attr_klass_path a) seen /\ covered seen rest
  end.

(** A Module or Klass record lies under the root module [root]. *)
Definition under_root (root : string) (rec : Member) : Prop :=
  match rec with
  | IsModule m => Str.startswith (module_name m) root = true
  | IsKlass k => Str.startswith (klass_module k) root = true
  | _ => True
  end.

(** The record names a module, or a class path, that a record of
    [before] names already. *)
Definition repeats (before : list Member) (rec : Member) : Prop :=
  match rec with
  | IsModule m =>
      exists m', In (IsModule m') before /\ module_name m' = module_name m
  | IsKlass k =>
      exists k', In (IsKlass k') before /\ klass_path k' = klass_path k
  | _ => False
  end.

(** [ancestor in klass_lookup] *)
Definition discovered (klass_lookup : gmap string KlassModel)
    (ancestor : string) : bool :=
  bool_decide (is_Some (klass_lookup !! ancestor)).

(** No class is its own descendant. *)
Definition acyclic (edges : list Inheritance) : Prop :=
  forall k, ~ clos_trans nat (child_of edges) k k.

(** ** The rendering of deferred calls in the words of the spec

    Section 4.2 has a deferred call rendered as
    [lazy_func_name('arg1', 'arg2', kwarg='value', ...)]. *)

Definition spec_render_arg (a : PyArg) : string :=
  match a with
  | ArgStr s => Str.quote s
  | ArgOther repr => repr
  end.

Definition spec_lazy_repr (l : LazyAttribute.t) : string :=
  LazyAttribute.lazy_func l +:+ "(" +:+
  Str.join ", "
    (List.map spec_render_arg (LazyAttribute.args l) ++
     List.map (fun kv => fst kv +:+ "=" +:+ spec_render_arg (snd kv))
       (LazyAttribute.kwargs l))%list
  +:+ ")".

(** ** The keyword arguments of a method in the words of the spec

    Section 3 has them be the argument names of the callable with the
    first positional argument and the final catch-all stripped. *)

Definition argument_names (a : FullArgSpec) : list string :=
  (spec_args a
   ++ match spec_varargs a with Some v => [v] | None => [] end
   ++ spec_kwonlyargs a
   ++ match spec_varkw a with Some v => [v] | None => [] end)%list.

Definition spec_kwargs (a : FullArgSpec) : list string :=
  removelast (List.tl (argument_names a)).

(** ** A small project to run the importer on

    [/srv/site/shop/views.py]:
<<
    1  class A:
    2      x = 1
    3      def get(self, request, *args, **kwargs):
    4          return self.x
    5
    6  class B(A):
    7      pass
>>
    [inspect.getmembers] shows [get] and [x] under [B] as well: they are
    the very objects of [A]. *)

Module Fixture.

Definition no_source (id : nat) (str : string) : Reflect :=
  {| r_id := id; r_doc := None; r_file := None;
     r_sourcefile := FileTypeError; r_sourcelines := SourceTypeError;
     r_str := str; r_eq := fun _ => None |}.

Definition in_file (id : nat) (file : string) (lines : list string)
    (start_line : Z) (str : string) : Reflect :=
  {| r_id := id; r_doc := None; r_file := Some file;
     r_sourcefile := FileOK (Some file);
     r_sourcelines := SourceOK lines start_line; r_str := str;
     r_eq := fun _ => None |}.

Definition views_py : string := "/srv/site/shop/views.py".
Definition init_py : string := "/srv/site/shop/__init__.py".

(** Two entries of [object.__dict__]: a slot wrapper and the docstring
    of [object]. *)
Definition object_init : PyObject :=
  PyOther (no_source 1 "<slot wrapper '__init__' of 'object' objects>").
Definition object_doc_text : string :=
  "The base class of the class hierarchy.

When called, it accepts no arguments and returns a new featureless
instance that has no instance attributes and cannot be given any.
".
Definition object_doc : PyObject := PyString 2 object_doc_text.

Definition none : PyObject := PyOther (no_source 3 "None").
Definition one : PyObject := PyOther (no_source 11 "1").
Definition two : PyObject := PyOther (no_source 12 "2").

Definition get_spec : FullArgSpec :=
  {| spec_args := ["self"; "request"]; spec_varargs := Some "args";
     spec_varkw := Some "kwargs"; spec_defaults := [];
     spec_kwonlyargs := []; spec_kwonlydefaults := [];
     spec_annotations := [] |}.

Definition get_lines : list string :=
  [ "    def get(self, request, *args, **kwargs):
";
    "        return self.x
" ].

Definition get : PyObject :=
  PyFunction (in_file 20 views_py get_lines 3 "<function A.get>")
    (Some get_spec) None.

Definition A_lines : list string :=
  ("class A:
" :: "    x = 1
" :: get_lines)%list.

Definition dunders : list (string * PyObject) :=
  [ ("__doc__", none); ("__init__", object_init);
    ("__module__", PyString 4 "shop.views") ].

Definition A : PyObject :=
  PyClass (in_file 30 views_py A_lines 1 "<class 'shop.views.A'>")
    "A" "shop.views" [("builtins", "object")]
    (dunders ++ [("get", get); ("x", one)])%list.

(** [B] as written above, and [B] with a line [x = 2] in place of
    [pass]. *)
Definition B_with (x : PyObject) : PyObject :=
  PyClass (in_file 31 views_py ["class B(A):
"; "    pass
"] 6
             "<class 'shop.views.B'>")
    "B" "shop.views" [("shop.views", "A")]
    (dunders ++ [("get", get); ("x", x)])%list.

Definition views (B : PyObject) : PyObject :=
  PyModule (in_file 40 views_py [] 0 "<module 'shop.views'>")
    "shop.views" [("A", A); ("B", B)].

Definition shop : PyObject :=
  PyModule (in_file 41 init_py [] 0 "<module 'shop'>") "shop" [].

Definition runtime (B : PyObject) : Runtime :=
  {| sys_path := ["/usr/lib/python3"; "/srv/site"];
     sys_modules := <["shop.views" := views B]> (<["shop" := shop]> ∅);
     object_dict_values := [object_init; object_doc] |}.

Definition rt : Runtime := runtime (B_with one).

(** A class attribute [help_text] whose value is the text of
    [object.__doc__], written out in a string of its own. *)
Definition help_text : PyObject := PyString 50 object_doc_text.

(** [success_url = reverse_lazy("detail", kwargs={"pk": 1})] and
    [title = gettext_lazy("Detail")], two deferred calls of Django; and
    [label = pgettext_lazy("menu", "Detail")], a deferred call of a
    function the importer does not know. *)
Definition success_url : PyObject :=
  PyPromise 60 "reverse" [ArgStr "detail"] [("kwargs", ArgOther "{'pk': 1}")].
Definition title : PyObject :=
  PyPromise 61 "gettext" [ArgStr "Detail"] [].

(** A function written right after the block of [B], on line 8, and
    made a member of it:
<<
  8  def helper(self):
  9      return None
 10  B.helper = helper
>> *)
Definition helper : PyObject :=
  PyFunction
    (in_file 22 views_py ["def helper(self):
"; "    return None
"] 8 "<function helper>")
    (Some {| spec_args := ["self"]; spec_varargs := None;
             spec_varkw := None; spec_defaults := [];
             spec_kwonlyargs := []; spec_kwonlydefaults := [];
             spec_annotations := [] |})
    None.

(** A package compiled to extension modules: [inspect.getsourcefile]
    returns [None] for them and for their classes. [Base] is defined
    in [fast.base]; [fast.views] imports it. *)
Definition compiled (id : nat) (file str : string) : Reflect :=
  {| r_id := id; r_doc := None; r_file := Some file;
     r_sourcefile := FileOK None; r_sourcelines := SourceOSError;
     r_str := str; r_eq := fun _ => None |}.

Definition Base : PyObject :=
  PyClass (compiled 70 "/srv/site/fast/base.so" "<class 'fast.base.Base'>")
    "Base" "fast.base" [("builtins", "object")] [].

Definition fast_views : PyObject :=
  PyModule (compiled 71 "/srv/site/fast/views.so" "<module 'fast.views'>")
    "fast.views" [("Base", Base)].

(** [/srv/site/shop/views/generic.py] defines [Detail];
    [shop/__init__.py] has [from shop.views.generic import Detail],
    [shop/views/__init__.py] imports nothing. *)
Definition generic_py : string := "/srv/site/shop/views/generic.py".

Definition Detail : PyObject :=
  PyClass (in_file 80 generic_py ["class Detail:
"; "    pass
"] 1 "<class 'shop.views.generic.Detail'>")
    "Detail" "shop.views.generic" [("builtins", "object")] [].

Definition generic : PyObject :=
  PyModule (in_file 81 generic_py [] 0 "<module 'shop.views.generic'>")
    "shop.views.generic" [("Detail", Detail)].

Definition views_package : PyObject :=
  PyModule (in_file 82 "/srv/site/shop/views/__init__.py" [] 0
              "<module 'shop.views'>")
    "shop.views" [].

Definition shop_package : PyObject :=
  PyModule (in_file 83 init_py [] 0 "<module 'shop'>")
    "shop" [("Detail", Detail)].

Definition packages : Runtime :=
  {| sys_path := ["/srv/site"];
     sys_modules :=
       <["shop.views.generic" := generic]>
         (<["shop.views" := views_package]> (<["shop" := shop_package]> ∅));
     object_dict_values := [object_init; object_doc] |}.

(** The same packages, where [shop/__init__.py] has
    [from unittest.mock import ANY as Detail] in the place of the import
    of the class: [ANY.__eq__] returns [True] whatever it is compared
    with. *)
Definition any_value : PyObject :=
  PyOther {| r_id := 84; r_doc := None; r_file := None;
             r_sourcefile := FileTypeError;
             r_sourcelines := SourceTypeError;
             r_str := "<ANY>"; r_eq := fun _ => Some true |}.

Definition shop_mocked : PyObject :=
  PyModule (in_file 83 init_py [] 0 "<module 'shop'>")
    "shop" [("Detail", any_value)].

(** The same packages, where [shop/__init__.py] imports the module
    [shop.views.generic] under two names, [generic] and [views]. *)
Definition shop_twice : PyObject :=
  PyModule (in_file 83 init_py [] 0 "<module 'shop'>")
    "shop" [("generic", generic); ("views", generic)].

Definition twice : Runtime :=
  {| sys_path := ["/srv/site"];
     sys_modules :=
       <["shop.views.generic" := generic]>
         (<["shop.views" := views_package]> (<["shop" := shop_twice]> ∅));
     object_dict_values := [object_init; object_doc] |}.

Definition mocked : Runtime :=
  {| sys_path := ["/srv/site"];
     sys_modules :=
       <["shop.views.generic" := generic]>
         (<["shop.views" := views_package]> (<["shop" := shop_mocked]> ∅));
     object_dict_values := [object_init; object_doc] |}.

(** [/srv/site/shop/traced.py], where a decorator puts a class of
    another name in the place of the class it decorates:
<<
  1  def traced(cls):
  2      class Wrapper(cls):
  3          pass
  4      return Wrapper
  5
  6  @traced
  7  class DetailView:
  8      pass
>>
    The module has the attribute [DetailView], whose value is the
    class named [Wrapper], and no attribute [Wrapper]. *)
Definition traced_py : string := "/srv/site/shop/traced.py".

Definition Wrapper : PyObject :=
  PyClass (in_file 90 traced_py ["    class Wrapper(cls):
"; "        pass
"] 2 "<class 'shop.traced.traced.<locals>.Wrapper'>")
    "Wrapper" "shop.traced" [("shop.traced", "DetailView")] [].

Definition traced : PyObject :=
  PyModule (in_file 91 traced_py [] 0 "<module 'shop.traced'>")
    "shop.traced" [("DetailView", Wrapper)].

Definition decorated : Runtime :=
  {| sys_path := ["/srv/site"];
     sys_modules := <["shop.traced" := traced]> (<["shop" := shop]> ∅);
     object_dict_values := [object_init; object_doc] |}.

(** The rows of [A] and [B], the edge between them and the candidates
    for [x = 1], as the import of [shop.views] builds them. *)
Definition klass_A : KlassModel :=
  {| km_pk := 2; km_module := 1; km_name := "A"; km_docstring := "";
     km_line_number := 1; km_import_path := "shop.views" |}.
Definition klass_B : KlassModel :=
  {| km_pk := 3; km_module := 1; km_name := "B"; km_docstring := "";
     km_line_number := 6; km_import_path := "shop.views" |}.
Definition klass_lookup : gmap string KlassModel :=
  <["shop.views.B" := klass_B]> (<["shop.views.A" := klass_A]> ∅).
Definition edges : list Inheritance :=
  [{| inh_parent := 2; inh_child := 3; inh_order := 0 |}].
Definition candidates : AttributeTable :=
  [(("x", "1"), [("shop.views.A", -1); ("shop.views.B", -1)])].

(** The records the walk of [shop.views] yields for [get] and for [x]
    of [A]. *)
Definition get_record : Method :=
  {| method_name := "get"; method_docstring := "";
     method_code := Str.join "" (List.map (Str.drop 4) get_lines);
     method_kwargs := "self, request, *args, **kwargs";
     method_line_number := 3; method_klass_path := "shop.views.A" |}.
Definition x_record : KlassAttribute :=
  {| attr_name := "x"; attr_value := "1"; attr_line_number := -1;
     attr_klass_path := "shop.views.A" |}.
Definition Detail_record : Klass :=
  {| klass_name := "Detail"; klass_module := "shop.views.generic";
     klass_docstring := ""; klass_line_number := 1;
     klass_path := "shop.views.generic.Detail";
     klass_bases := ["builtins.object"];
     klass_best_import_path := "shop" |}.

(** The Klass records the walk of [shop.views] yields for [A] and [B]. *)
Definition A_record : Klass :=
  {| klass_name := "A"; klass_module := "shop.views"; klass_docstring := "";
     klass_line_number := 1; klass_path := "shop.views.A";
     klass_bases := ["builtins.object"];
     klass_best_import_path := "shop.views" |}.
Definition B_record : Klass :=
  {| klass_name := "B"; klass_module := "shop.views"; klass_docstring := "";
     klass_line_number := 6; klass_path := "shop.views.B";
     klass_bases := ["shop.views.A"];
     klass_best_import_path := "shop.views" |}.

(** [B] with one more class attribute. *)
Definition B_and (name : string) (value : PyObject) : PyObject :=
  PyClass (in_file 31 views_py ["class B(A):
"; "    pass
"] 6
             "<class 'shop.views.B'>")
    "B" "shop.views" [("shop.views", "A")]
    (dunders ++ [("get", get); (name, value); ("x", one)])%list.

End Fixture.

(** * Properties *)

(** ** Generators *)

Lemma gen_seq_yielded (g1 g2 : Gen) (m : Member) :
  In m (yielded (gen_seq g1 g2)) -> In m (yielded g1) \/ In m (yielded g2).
Proof.
  unfold gen_seq. destruct (raised g1); simpl; [tauto|].
  rewrite in_app_iff. tauto.
Qed.


Lemma gen_seq_yield_head (m : Member) (g : Gen) :
  gen_seq (gen_yield m) g = {| yielded := m :: yielded g; raised := raised g |}.
Proof. reflexivity. Qed.

(** ** Induction over an object and its members *)

Lemma PyObject_members_ind (P : PyObject -> Prop) :
  (forall o, (forall n s, In (n, s) (getmembers o) -> P s) -> P o) ->
  forall o, P o.
Proof.
  intros step. fix IH 1. intros o. apply step.
  destruct o as [r|r name members|r name module bases members
                |r spec wrapped|id s|id f a k|r]; simpl;
    try (intros ? ? []).
  - revert members. fix each 1. intros [|[n' s'] rest] n s; simpl.
    + intros [].
    + intros [E|H].
      * injection E as _ <-. apply IH.
      * apply (each rest n s H).
  - revert members. fix each 1. intros [|[n' s'] rest] n s; simpl.
    + intros [].
    + intros [E|H].
      * injection E as _ <-. apply IH.
      * apply (each rest n s H).
Qed.

(** ** The walk as a sequence of visits *)

Section WalkFacts.

Context (rt : Runtime).

Lemma _process_member_unfold member name root parent :
  _process_member rt member name root parent =
  _process_member_with rt
    (_process_submembers rt member root (getmembers member))
    member name root parent.
Proof.
  destruct member as [r|r nm members|r nm md bases members
                     |r spec wrapped|id s|id f a k|r]; try reflexivity.
  - cbn [_process_member getmembers].
    set (o := PyModule r nm members). clearbody o. f_equal.
    induction members as [|[n' s'] rest IH]; [reflexivity|].
    cbn [_process_submembers]. rewrite <- IH. reflexivity.
  - cbn [_process_member getmembers].
    set (o := PyClass r nm md bases members). clearbody o. f_equal.
    induction members as [|[n' s'] rest IH]; [reflexivity|].
    cbn [_process_submembers]. rewrite <- IH. reflexivity.
Qed.

Lemma gen_try_yielded {A : Type} (r : Result A) (k : A -> Gen) (m : Member) :
  In m (yielded (gen_try r k)) ->
  exists a, r = Ok a /\ In m (yielded (k a)).
Proof.
  destruct r as [a|e]; simpl; [eauto|tauto].
Qed.

(** A record comes from the node itself or from its members. *)
Lemma _process_member_with_split subs member name root parent rec :
  In rec (yielded (_process_member_with rt subs member name root parent)) ->
  In rec (yielded (_process_member_with rt gen_return member name root parent))
  \/ In rec (yielded subs).
Proof.
  unfold _process_member_with.
  destruct (inspect.isbuiltin member); [tauto|].
  destruct (inspect.ismodule (Some member)).
  - unfold _handle_module.
    destruct (py_name member) as [mn|e]; simpl; [|tauto].
    destruct (negb _); [tauto|].
    destruct (get_filename rt member) as [fn|e]; simpl; [|tauto].
    intros [H|H]; [left; left; exact H|right; exact H].
  - destruct (inspect.isclass (Some member) && inspect.ismodule parent).
    + destruct parent as [p|]; [|tauto].
      unfold _handle_class_on_module.
      repeat match goal with
             | |- context [gen_try ?r _] =>
                 destruct r; simpl; [|tauto]
             | |- context [if ?b then _ else _] =>
                 destruct b; simpl; [tauto|]
             end.
      intros [H|H]; [left; left; exact H|right; exact H].
    + tauto.
Qed.

Lemma _process_submembers_yielded parent root members rec :
  In rec (yielded (_process_submembers rt parent root members)) ->
  exists n s, In (n, s) members /\
    In rec (yielded (_process_member rt s n root (Some parent))).
Proof.
  induction members as [|[n' s'] rest IH]; simpl; [tauto|].
  intros H. apply gen_seq_yielded in H as [H|H].
  - exists n', s'. split; [left; reflexivity|exact H].
  - destruct (IH H) as (n & s & Hin & Hy). exists n, s. split; [right|]; assumption.
Qed.

(** Every record the walk yields is yielded by the body of
    [_process_member] at one of the members it visits. *)
Lemma walk_yields root rec :
  forall m0 n0 p0,
  In rec (yielded (_process_member rt m0 n0 root p0)) ->
  exists m p n, visits m0 p0 n0 m p n /\
    In rec (yielded (_process_member_with rt gen_return m n root p)).
Proof.
  intros m0. induction m0 as [m0 IH] using PyObject_members_ind.
  intros n0 p0 H. rewrite _process_member_unfold in H.
  apply _process_member_with_split in H as [H|H].
  - exists m0, p0, n0. split; [constructor|exact H].
  - apply _process_submembers_yielded in H as (n' & s & Hin & Hy).
    destruct (IH n' s Hin n' (Some m0) Hy) as (m & p & n & Hv & Hr).
    exists m, p, n. split; [|exact Hr].
    eapply visits_sub; eassumption.
Qed.

End WalkFacts.

(** ** What one visit yields *)

Ltac gen_simpl :=
  cbn [gen_try gen_raise gen_return gen_yield gen_seq yielded raised negb
       In app].

Ltac step_gen :=
  match goal with
  | |- context [gen_try ?r _] =>
      let E := fresh "E" in destruct r eqn:E; gen_simpl; [|tauto]
  | |- context [if negb ?b then _ else _] =>
      let E := fresh "E" in destruct b eqn:E; gen_simpl; [|tauto]
  end.

Lemma node_emits rt member name root parent rec :
  In rec (yielded (_process_member_with rt gen_return member name root parent))
  -> emits rt member name root parent rec.
Proof.
  unfold _process_member_with.
  destruct (inspect.isbuiltin member) eqn:Hb; [gen_simpl; tauto|].
  destruct (inspect.ismodule (Some member)) eqn:Hm.
  { unfold _handle_module. repeat step_gen.
    intros [<-|[]]. eapply emits_module; eauto. }
  destruct (inspect.isclass (Some member) && inspect.ismodule parent) eqn:Hc.
  { apply andb_true_iff in Hc as [Hc Hp].
    destruct parent as [p|]; [|gen_simpl; tauto].
    unfold _handle_class_on_module. repeat step_gen.
    intros [<-|[]].
    match goal with
    | H : bool_decide _ = true |- _ => apply bool_decide_eq_true in H; subst
    end.
    eapply emits_klass; eauto. }
  destruct (inspect.isroutine member) eqn:Hr.
  { unfold _handle_function_or_method. repeat step_gen.
    match goal with
    | H : get_code _ = Ok ?x |- _ => destruct x as [[code arguments] start_line]
    end.
    destruct parent as [p|]; [|gen_simpl; tauto]. repeat step_gen.
    intros [<-|[]]. eapply emits_method; eauto. }
  destruct (inspect.isclass parent) eqn:Hp; [|gen_simpl; tauto].
  unfold _handle_class_attribute. repeat step_gen.
  destruct parent as [p|]; [|discriminate]. repeat step_gen.
  intros [<-|[]]. eapply emits_attribute; eauto.
Qed.

Lemma process_each_yields rt modules rec :
  In rec (yielded (process_each rt modules)) ->
  exists module root,
    In module modules /\ py_name module = Ok root /\
    In rec (yielded (_process_member rt module root root None)).
Proof.
  induction modules as [|module rest IH]; simpl; [tauto|].
  intros H. apply gen_seq_yielded in H as [H|H].
  - apply gen_try_yielded in H as (root & Hn & H).
    exists module, root. auto.
  - destruct (IH H) as (m & root & Hin & Hn & Hy).
    exists m, root. auto.
Qed.

(** Every record of a run is emitted at a member the run visits. *)
Lemma process_modules_yields rt module_paths rec :
  In rec (yielded (process_modules rt module_paths)) ->
  exists root member parent name,
    walked rt module_paths root member parent name /\
    emits rt member name root parent rec.
Proof.
  intros H. apply process_each_yields in H as (module & root & Hin & Hn & H).
  apply walk_yields in H as (m & p & n & Hv & H).
  exists root, m, p, n. split.
  - exists module. auto.
  - apply node_emits. exact H.
Qed.

(** ** Line numbers *)




(** ** Attribute candidates *)

Lemma banned_name_spec (name : string) :
  existsb (String.eqb name) BANNED_ATTR_NAMES = true <->
  In name BANNED_ATTR_NAMES.
Proof.
  rewrite existsb_exists. split.
  - intros (x & Hin & E). apply String.eqb_eq in E. subst. exact Hin.
  - intros H. exists name. split; [exact H|apply String.eqb_refl].
Qed.

Lemma py_in_spec (x : PyObject) (seq : list PyObject) :
  py_in x seq = true <->
  exists e, In e seq /\ (py_is x e = true \/ py_eq x e = true).
Proof.
  unfold py_in. rewrite existsb_exists.
  split; intros (e & Hin & H); exists e; split; try exact Hin.
  - apply orb_true_iff. exact H.
  - apply orb_true_iff. exact H.
Qed.

Lemma ok_to_add_attribute_false rt attr name parent :
  ok_to_add_attribute rt attr name parent = false <->
  (inspect.isclass parent = true /\
   attr_in attr (object_dict_values rt) = true)
  \/ In name BANNED_ATTR_NAMES.
Proof.
  unfold ok_to_add_attribute. rewrite <- banned_name_spec.
  destruct (inspect.isclass parent), (attr_in attr (object_dict_values rt)),
    (existsb (String.eqb name) BANNED_ATTR_NAMES); simpl;
    intuition congruence.
Qed.

(** C7, as the code has it. There are twelve reserved names. A member
    yields no KlassAttribute candidate when its name is one of them, or
    when its value is [in object.__dict__.values()]; that membership test
    holds for a value that is identical to an entry and also for one that
    merely compares equal to an entry. *)
Theorem attribute_candidate_filter (rt : Runtime) :
  List.length BANNED_ATTR_NAMES = 12%nat /\
  (forall attr name parent,
     ok_to_add_attribute rt attr name parent = false <->
     (inspect.isclass parent = true /\
      attr_in attr (object_dict_values rt) = true)
     \/ In name BANNED_ATTR_NAMES) /\
  (forall o,
     py_in o (object_dict_values rt) = true <->
     exists e, In e (object_dict_values rt) /\
               (py_is o e = true \/ py_eq o e = true)) /\
  (forall module_paths a,
     In (IsKlassAttribute a) (yielded (process_modules rt module_paths)) ->
     ~ In (attr_name a) BANNED_ATTR_NAMES /\
     exists root member parent,
       walked rt module_paths root member parent (attr_name a) /\
       (is_promise member = false ->
        forall e, In e (object_dict_values rt) ->
                  py_is member e = false /\ py_eq member e = false)).
Proof.
  split; [reflexivity|]. split; [apply ok_to_add_attribute_false|].
  split; [intros o; apply py_in_spec|].
  intros module_paths a H.
  apply process_modules_yields in H as (root & m & p & n & Hw & He).
  inversion He as [| | |p' attr value line path Hb Hm Hr Hp Hc Hl Hok Hv Hln Hfp Hrec];
    subst; cbn [attr_name].
  assert (Hno : ~ ((inspect.isclass (Some p') = true /\
                    attr_in attr (object_dict_values rt) = true)
                   \/ In n BANNED_ATTR_NAMES)).
  { rewrite <- ok_to_add_attribute_false. congruence. }
  split; [intros Hban; apply Hno; right; exact Hban|].
  exists root, m, (Some p'). split; [exact Hw|].
  intros Hnp e Hin. unfold replace_lazy in Hl. rewrite Hnp in Hl.
  injection Hl as <-. cbn [attr_in] in Hno.
  destruct (py_is m e) eqn:E1, (py_eq m e) eqn:E2; try (split; reflexivity);
    exfalso; apply Hno; left; (split; [exact Hc|]);
    apply py_in_spec; exists e; split; auto.
Qed.

(** The reading of C7 that the code does not follow: the value test is
    an identity test. A class attribute holding a string equal to the
    docstring of [object], held by another object, is left out although
    its name is not reserved and it is identical to no entry of
    [object.__dict__]. *)
Lemma attribute_filter_compares_values :
  ~ (ok_to_add_attribute Fixture.rt (Plain Fixture.help_text) "help_text"
       (Some Fixture.A) = false <->
     In "help_text" BANNED_ATTR_NAMES \/
     exists e, In e (object_dict_values Fixture.rt) /\
               py_is Fixture.help_text e = true) /\
  yielded (_process_member Fixture.rt Fixture.help_text "help_text"
             "shop.views" (Some Fixture.A)) = [].
Proof.
  split; [|reflexivity].
  intros [H _]. destruct (H eq_refl) as [Hb|(e & Hin & His)].
  - simpl in Hb. intuition discriminate.
  - simpl in Hin. destruct Hin as [<-|[<-|[]]]; discriminate His.
Qed.

(** ** Deferred calls *)







Lemma repr_args_strings (strs : list string) :
  LazyAttribute.repr_args (List.map ArgStr strs)
  = List.map ArgStr (List.map Str.quote strs).
Proof.
  unfold LazyAttribute.repr_args. rewrite !List.map_map. reflexivity.
Qed.

Lemma all_str_strings (strs : list string) :
  LazyAttribute.all_str (List.map ArgStr strs) = Ok strs.
Proof.
  induction strs as [|s rest IH]; simpl; [reflexivity|].
  rewrite IH. reflexivity.
Qed.

(** The deferred calls that [__repr__] renders as the spec has it: a
    call of a known function with string positional arguments and no
    keyword argument is rendered as the lazy name applied to the quoted
    arguments, [lazy_func_name('arg1', 'arg2')]; gettext becomes
    gettext_lazy, reverse reverse_lazy and ugettext ugettext_lazy; and
    that text is the value of the KlassAttribute candidate. *)
Theorem lazy_repr_of_string_arguments (rt : Runtime) (id : nat)
    (f lazy : string) (strs : list string) :
  inspect.lookup_assoc f LazyAttribute.functions = Some lazy ->
  let rendering :=
    lazy +:+ "(" +:+ Str.join ", " (List.map Str.quote strs) +:+ ")" in
  let promise := PyPromise id f (List.map ArgStr strs) [] in
  (exists l,
     LazyAttribute.__init__ promise = Ok l /\
     LazyAttribute.__repr__ l = Ok rendering /\
     get_value (Lazy l) = Ok rendering /\
     spec_lazy_repr l = rendering) /\
  (forall name root p path,
     inspect.isclass (Some p) = true ->
     _full_path p = Ok path ->
     ~ In name BANNED_ATTR_NAMES ->
     _process_member rt promise name root (Some p)
     = gen_yield (IsKlassAttribute {| attr_name := name;
                                      attr_value := rendering;
                                      attr_line_number := -1;
                                      attr_klass_path := path |})) /\
  inspect.lookup_assoc "gettext" LazyAttribute.functions = Some "gettext_lazy"
  /\
  inspect.lookup_assoc "reverse" LazyAttribute.functions = Some "reverse_lazy"
  /\
  inspect.lookup_assoc "ugettext" LazyAttribute.functions
  = Some "ugettext_lazy".
Proof.
  intros Hf rendering promise.
  assert (Hrepr : LazyAttribute.__repr__
                    {| LazyAttribute.lazy_func := lazy;
                       LazyAttribute.args := List.map ArgStr strs;
                       LazyAttribute.kwargs := [] |} = Ok rendering).
  { unfold LazyAttribute.__repr__.
    cbn [LazyAttribute.args LazyAttribute.kwargs LazyAttribute.lazy_func
         LazyAttribute.repr_kwargs bind].
    rewrite repr_args_strings, app_nil_r, all_str_strings. reflexivity. }
  split; [|split; [|repeat split]].
  - eexists. unfold promise, LazyAttribute.__init__. rewrite Hf.
    split; [reflexivity|]. split; [exact Hrepr|]. split; [exact Hrepr|].
    unfold spec_lazy_repr.
    cbn [LazyAttribute.args LazyAttribute.kwargs LazyAttribute.lazy_func
         List.map].
    rewrite app_nil_r, List.map_map. reflexivity.
  - intros name root p path Hp Hpath Hname.
    rewrite _process_member_unfold. unfold _process_member_with, promise.
    rewrite Hp.
    cbn [inspect.isbuiltin inspect.ismodule inspect.isclass inspect.isroutine
         andb].
    unfold _handle_class_attribute, replace_lazy.
    cbn [is_promise]. unfold LazyAttribute.__init__. rewrite Hf.
    cbn [bind gen_try].
    assert (Hok : ok_to_add_attribute rt
                    (Lazy {| LazyAttribute.lazy_func := lazy;
                             LazyAttribute.args := List.map ArgStr strs;
                             LazyAttribute.kwargs := [] |}) name (Some p)
                  = true).
    { destruct (ok_to_add_attribute rt _ name (Some p)) eqn:E; [reflexivity|].
      apply ok_to_add_attribute_false in E as [[_ E]|E];
        [discriminate E|contradiction]. }
    rewrite Hok. cbn [negb get_value]. rewrite Hrepr, Hpath. reflexivity.
Qed.

(** C6 at the input the code gets wrong: a keyword argument. The loop
    of [__repr__] is written to render every keyword with its value,
    but it iterates over the dictionary, that is over its keys, and
    unpacks each key into two names. For the keyword [kwargs] of
    [reverse_lazy('detail', kwargs={'pk': 1})] it raises [ValueError]
    where the rendering of the spec is the text of the call, and the
    walk of the class that holds the attribute ends with that exception;
    a key of two characters is split into its characters, so [pk='1']
    is rendered ['p': 'k']. *)
Lemma lazy_repr_of_keyword_arguments :
  (exists l,
     LazyAttribute.__init__ Fixture.success_url = Ok l /\
     LazyAttribute.__repr__ l = Raise ValueError /\
     spec_lazy_repr l = "reverse_lazy('detail', kwargs={'pk': 1})") /\
  (exists l,
     LazyAttribute.__init__
       (PyPromise 63 "reverse" [ArgStr "detail"] [("pk", ArgStr "1")]) = Ok l /\
     LazyAttribute.__repr__ l = Ok "reverse_lazy('detail', 'p': 'k')" /\
     spec_lazy_repr l = "reverse_lazy('detail', pk='1')") /\
  raised (_process_member Fixture.rt Fixture.success_url "success_url"
            "shop.views" (Some Fixture.A)) = Some ValueError.
Proof.
  split; [|split].
  - eexists. split; [reflexivity|]. split; reflexivity.
  - eexists. split; [reflexivity|]. split; reflexivity.
  - reflexivity.
Qed.

(** ** Methods *)

Lemma substring_0_append (s t : string) :
  substring 0 (String.length s) (s +:+ t) = s.
Proof.
  induction s as [|c s IH]; simpl.
  - destruct t; reflexivity.
  - rewrite IH. reflexivity.
Qed.

Lemma length_append_char (s : string) (c : ascii) :
  String.length (s +:+ String c EmptyString) = S (String.length s).
Proof.
  induction s as [|d s IH]; simpl; [reflexivity|]. rewrite IH. reflexivity.
Qed.

(** [("(" + s + ")")[1:-1] == s] *)
Lemma slice_1_m1_parens (s : string) :
  Str.slice_1_m1 ("(" +:+ s +:+ ")") = s.
Proof.
  unfold Str.slice_1_m1.
  change ("(" +:+ s +:+ ")") with (String "(" (s +:+ ")")).
  simpl String.length. rewrite length_append_char.
  replace (S (S (String.length s)) - 2)%nat with (String.length s) by lia.
  apply substring_0_append.
Qed.

Lemma get_code_arguments member code arguments start_line :
  get_code member = Ok (code, arguments, start_line) ->
  exists spec,
    inspect.getfullargspec member = Ok spec /\
    arguments = inspect.formatargspec spec.
Proof.
  unfold get_code.
  destruct (inspect.getsourcelines (Some member)) as [lines start| |];
    try discriminate.
  destruct lines as [|first rest]; [discriminate|].
  destruct (inspect.getfullargspec member) as [spec|e]; [|discriminate].
  cbn [bind]. intros [= _ <- _]. eauto.
Qed.

(** What [ok_to_add_method] accepts. *)
Lemma ok_to_add_method_true member parent :
  ok_to_add_method member parent = Ok true <->
  exists file lines start_line parent_lines parent_start_line,
    inspect.getsourcefile (Some member) = Ok file /\
    inspect.getsourcefile parent = Ok file /\
    inspect.isclass parent = true /\
    inspect.getsourcelines (Some member) = SourceOK lines start_line /\
    inspect.getsourcelines parent = SourceOK parent_lines parent_start_line /\
    parent_start_line <= start_line
      <= parent_start_line + Z.of_nat (List.length parent_lines).
Proof.
  unfold ok_to_add_method. split.
  - destruct (inspect.getsourcefile (Some member)) as [mf|]; [|discriminate].
    destruct (inspect.getsourcefile parent) as [pf|]; [|discriminate].
    cbn [bind]. destruct (bool_decide (mf = pf)) eqn:Ef; [|discriminate].
    apply bool_decide_eq_true in Ef. subst pf. cbn [negb].
    destruct (inspect.isclass parent); [|discriminate]. cbn [negb].
    destruct (inspect.getsourcelines (Some member)) as [lines start| |];
      try discriminate.
    destruct (inspect.getsourcelines parent) as [plines pstart| |];
      try discriminate.
    destruct (start <? pstart) eqn:E1; [discriminate|].
    destruct (pstart + Z.of_nat (List.length plines) <? start) eqn:E2;
      [discriminate|].
    intros _. exists mf, lines, start, plines, pstart.
    repeat split; try reflexivity; lia.
  - intros (file & lines & start & plines & pstart & -> & -> & -> & -> & ->
            & H1 & H2).
    cbn [bind]. rewrite bool_decide_eq_true_2 by reflexivity. cbn [negb].
    replace (start <? pstart) with false by lia.
    replace (pstart + Z.of_nat (List.length plines) <? start) with false
      by lia.
    reflexivity.
Qed.

(** C3, as the code has it. The kwargs of a Method record are the text
    that [inspect.formatargspec] gives for the callable without its
    first and its last character; when the callable has no return
    annotation these are the two parentheses, and what is left is the
    whole argument list, the receiver and the catch-all included. *)
Theorem method_kwargs_is_signature_text (rt : Runtime) :
  (forall s, Str.slice_1_m1 ("(" +:+ s +:+ ")") = s) /\
  (forall module_paths m,
     In (IsMethod m) (yielded (process_modules rt module_paths)) ->
     exists root member parent spec,
       walked rt module_paths root member parent (method_name m) /\
       inspect.getfullargspec (unwrap member) = Ok spec /\
       method_kwargs m = Str.slice_1_m1 (inspect.formatargspec spec) /\
       (inspect.lookup_assoc "return" (spec_annotations spec) = None ->
        method_kwargs m = Str.join ", " (inspect.argspec_specs spec))).
Proof.
  split; [apply slice_1_m1_parens|].
  intros module_paths m H.
  apply process_modules_yields in H as (root & mb & p & n & Hw & He).
  inversion He as [| |p' code arguments start path Hr Hp Hok Hcode Hfp Hrec|];
    subst; cbn [method_name method_kwargs].
  apply get_code_arguments in Hcode as (spec & Hspec & ->).
  exists root, mb, (Some p'), spec.
  split; [exact Hw|]. split; [exact Hspec|]. split; [reflexivity|].
  intros Hret. unfold inspect.formatargspec. rewrite Hret.
  apply slice_1_m1_parens.
Qed.

(** The reading of C3 that the code does not follow: for
    [def get(self, request, *args, **kwargs)] the Method record holds
    the text [self, request, *args, **kwargs], not the names left when
    the receiver and the catch-all are taken away. *)
Lemma method_kwargs_keeps_receiver :
  exists m,
    In (IsMethod m) (yielded (process_modules Fixture.rt ["shop.views"])) /\
    method_name m = "get" /\
    method_kwargs m = "self, request, *args, **kwargs" /\
    spec_kwargs Fixture.get_spec = ["request"; "args"] /\
    method_kwargs m <> Str.join ", " (spec_kwargs Fixture.get_spec).
Proof.
  eexists. split.
  - vm_compute. right. right. left. reflexivity.
  - repeat split. discriminate.
Qed.

(** C4 at the input the code gets wrong. The block of [B] is lines 6 and
    7; [helper] starts on line 8, outside the half-open range from 6 to
    6 + 2, and in the same file. [ok_to_add_method] accepts it, and the
    walk of [B] yields it as a Method of [B]. *)
Theorem method_one_line_past_class_is_accepted :
  inspect.getsourcelines (Some (Fixture.B_and "helper" Fixture.helper))
  = SourceOK ["class B(A):
"; "    pass
"] 6 /\
  (exists lines,
     inspect.getsourcelines (Some Fixture.helper) = SourceOK lines 8) /\
  ~ (6 <= 8 < 6 + 2) /\
  ok_to_add_method Fixture.helper
    (Some (Fixture.B_and "helper" Fixture.helper)) = Ok true /\
  (exists m,
     In (IsMethod m)
       (yielded (_process_member Fixture.rt
                   (Fixture.B_and "helper" Fixture.helper) "B" "shop.views"
                   (Some (Fixture.views
                            (Fixture.B_and "helper" Fixture.helper))))) /\
     method_name m = "helper" /\
     method_klass_path m = "shop.views.B" /\
     method_line_number m = 8).
Proof.
  split; [reflexivity|]. split; [eexists; reflexivity|].
  split; [lia|]. split; [reflexivity|].
  eexists. split.
  - vm_compute. right. left. reflexivity.
  - repeat split.
Qed.

(** ** Classes *)

Lemma prefix_trans (a b c : string) :
  String.prefix a b = true -> String.prefix b c = true ->
  String.prefix a c = true.
Proof.
  revert b c. induction a as [|x a IH]; intros b c.
  { intros _ _. destruct c; reflexivity. }
  destruct b as [|y b]; [destruct c; discriminate|].
  destruct c as [|z c]; [discriminate|].
  simpl. destruct (ascii_dec x y) as [->|]; [|discriminate].
  destruct (ascii_dec y z) as [->|]; [|discriminate].
  apply IH.
Qed.

(** C5, as the code has it. A class found as a member of a module
    yields a Klass record, followed by what the walk of its members
    yields, exactly when its [__module__] starts with the name of the
    module it was found in and both have the same source file (and
    reflection raises nothing on the way); when the name or the file
    does not match, nothing is yielded and the class is not walked. The
    containing module is itself under the root, so the name of a class
    that is emitted starts with the root module name too. *)
Theorem class_emission_filter (rt : Runtime) (r : Reflect)
    (cname cmodule : string) (bases : list (string * string))
    (members : list (string * PyObject)) (pr : Reflect) (pname : string)
    (pmembers : list (string * PyObject)) (name root : string) :
  let member := PyClass r cname cmodule bases members in
  let parent := PyModule pr pname pmembers in
  let g := _process_member rt member name root (Some parent) in
  let subs := _process_submembers rt member root members in
  ((exists k,
      yielded g = IsKlass k :: yielded subs /\ raised g = raised subs /\
      klass_name k = cname /\ klass_module k = cmodule)
   <->
   (Str.startswith cmodule pname = true /\
    (exists file, r_sourcefile r = FileOK file /\ r_sourcefile pr = FileOK file)
    /\ r_sourcelines r <> SourceOSError /\
    exists best, _get_best_import_path_for_class rt member = Ok best)) /\
  (Str.startswith cmodule pname = false \/
   (exists f1 f2,
      r_sourcefile r = FileOK f1 /\ r_sourcefile pr = FileOK f2 /\ f1 <> f2) ->
   g = gen_return) /\
  (Str.startswith pname root = true ->
   Str.startswith cmodule pname = true ->
   Str.startswith cmodule root = true).
Proof.
  intros member parent g subs.
  assert (Hg : g = _handle_class_on_module rt member parent root subs).
  { unfold g. rewrite _process_member_unfold. reflexivity. }
  rewrite Hg. clear Hg g.
  unfold _handle_class_on_module, member, parent.
  cbn [py_module py_name gen_try inspect.getsourcefile inspect.reflect
       _full_path py_bases bind].
  fold member.
  change (get_line_number (Plain member))
    with (get_line_number_of (r_sourcelines r)).
  split; [|split].
  - destruct (Str.startswith cmodule pname); cbn [negb]; cycle 1.
    { split; [intros (k & H & _); discriminate H|intros [H _]; discriminate H]. }
    destruct (r_sourcefile r) as [f1|]; cbn [gen_try]; cycle 1.
    { split; [intros (k & H & _); discriminate H|].
      intros (_ & (file & H & _) & _). discriminate H. }
    destruct (r_sourcefile pr) as [f2|]; cbn [gen_try]; cycle 1.
    { split; [intros (k & H & _); discriminate H|].
      intros (_ & (file & _ & H) & _). discriminate H. }
    destruct (bool_decide (f1 = f2)) eqn:Ef; cbn [negb]; cycle 1.
    { apply bool_decide_eq_false in Ef.
      split; [intros (k & H & _); discriminate H|].
      intros (_ & (file & H1 & H2) & _). congruence. }
    apply bool_decide_eq_true in Ef. subst f2.
    destruct (r_sourcelines r) as [lines start| |];
      cbn [get_line_number_of gen_try].
    + destruct (_get_best_import_path_for_class rt member) as [best|e];
        cbn [gen_try].
      * split.
        { intros _. split; [reflexivity|]. split; [eauto|].
          split; [discriminate|eauto]. }
        intros _. eexists. split; [reflexivity|]. split; [reflexivity|].
        split; reflexivity.
      * split; [intros (k & H & _); discriminate H|].
        intros (_ & _ & _ & best & H). discriminate H.
    + destruct (_get_best_import_path_for_class rt member) as [best|e];
        cbn [gen_try].
      * split.
        { intros _. split; [reflexivity|]. split; [eauto|].
          split; [discriminate|eauto]. }
        intros _. eexists. split; [reflexivity|]. split; [reflexivity|].
        split; reflexivity.
      * split; [intros (k & H & _); discriminate H|].
        intros (_ & _ & _ & best & H). discriminate H.
    + split; [intros (k & H & _); discriminate H|].
      intros (_ & _ & H & _). congruence.
  - intros [H|(f1 & f2 & H1 & H2 & Hne)].
    + rewrite H. reflexivity.
    + destruct (Str.startswith cmodule pname); [|reflexivity].
      rewrite H1, H2. cbn [negb gen_try].
      rewrite bool_decide_eq_false_2 by exact Hne. reflexivity.
  - unfold Str.startswith. intros H1 H2. eapply prefix_trans; eassumption.
Qed.

(** The reading of C5 that the code does not follow: the name of the
    class is checked against the root module. [Base] lives in
    [fast.base], which starts with the root [fast], and its source file
    is that of the module [fast.views] it is found in ([None] for both);
    the walk of [fast.views] yields no Klass record for it, because
    [fast.base] does not start with [fast.views]. *)
Lemma class_filter_checks_the_containing_module :
  Str.startswith "fast.base" "fast" = true /\
  inspect.getsourcefile (Some Fixture.Base)
  = inspect.getsourcefile (Some Fixture.fast_views) /\
  Str.startswith "fast.base" "fast.views" = false /\
  _process_member Fixture.rt Fixture.Base "Base" "fast"
    (Some Fixture.fast_views) = gen_return.
Proof. repeat split. Qed.

(** ** The best import path *)

Lemma append_cons (x : ascii) (a b : string) :
  String x a +:+ b = String x (a +:+ b).
Proof. reflexivity. Qed.

Lemma append_assoc (a b c : string) : (a +:+ b) +:+ c = a +:+ (b +:+ c).
Proof.
  induction a as [|x a IH]; [reflexivity|].
  rewrite !append_cons, IH. reflexivity.
Qed.

Lemma length_append (a b : string) :
  String.length (a +:+ b) = (String.length a + String.length b)%nat.
Proof.
  induction a as [|x a IH]; [reflexivity|].
  rewrite append_cons. simpl. rewrite IH. reflexivity.
Qed.

Lemma dotted_prefix_trans (a b c : string) :
  dotted_prefix a b -> dotted_prefix b c -> dotted_prefix a c.
Proof.
  intros [r1 ->] [r2 ->]. exists (r1 +:+ "." +:+ r2).
  rewrite append_assoc. reflexivity.
Qed.

Lemma dotted_prefix_shorter (p s : string) :
  dotted_prefix p s -> (String.length p < String.length s)%nat.
Proof.
  intros [r ->]. rewrite length_append. simpl. lia.
Qed.

Lemma dotted_prefix_empty (p : string) : ~ dotted_prefix p "".
Proof.
  intros H. apply dotted_prefix_shorter in H. simpl in H. lia.
Qed.

Lemma rpartition_dot_sound (s head : string) :
  Str.rpartition_dot s = Some head -> dotted_prefix head s.
Proof.
  revert head. induction s as [|c s IH]; intros head; simpl; [discriminate|].
  destruct (Str.rpartition_dot s) as [h|].
  - intros [= <-]. destruct (IH h eq_refl) as [r ->].
    exists r. reflexivity.
  - destruct (Ascii.eqb_spec c ".") as [->|]; [|discriminate].
    intros [= <-]. exists s. reflexivity.
Qed.

Lemma rpartition_dot_complete (p s : string) :
  dotted_prefix p s ->
  exists head,
    Str.rpartition_dot s = Some head /\ (p = head \/ dotted_prefix p head).
Proof.
  intros [r ->]. induction p as [|c p IH].
  - change ("" +:+ "." +:+ r) with (String "." r).
    cbn [Str.rpartition_dot].
    destruct (Str.rpartition_dot r) as [h|] eqn:E.
    + exists (String "." h). split; [reflexivity|]. right.
      exists h. reflexivity.
    + exists "". split; [reflexivity|]. left. reflexivity.
  - rewrite append_cons. cbn [Str.rpartition_dot].
    destruct IH as (h & -> & [->|[r' ->]]).
    + exists (String c h). split; [reflexivity|]. left. reflexivity.
    + exists (String c (p +:+ "." +:+ r')). split; [reflexivity|]. right.
      exists r'. reflexivity.
Qed.

(** The dotted prefixes of a path are the head of its [rpartition] and
    the dotted prefixes of that head. *)
Lemma dotted_prefix_step (p s : string) :
  dotted_prefix p s <->
  exists head,
    Str.rpartition_dot s = Some head /\ (p = head \/ dotted_prefix p head).
Proof.
  split; [apply rpartition_dot_complete|].
  intros (h & E & [->|H]).
  - apply rpartition_dot_sound. exact E.
  - eapply dotted_prefix_trans; [exact H|].
    apply rpartition_dot_sound. exact E.
Qed.

Section BestImportPath.

Context (rt : Runtime) (name : string) (klass : PyObject).

Lemma rpartition_head_empty (module_path p : string) :
  Str.rpartition_head module_path = "" ->
  p <> "" -> ~ dotted_prefix p module_path.
Proof.
  unfold Str.rpartition_head. intros E Hp H.
  apply dotted_prefix_step in H as (h & Eh & [->|H]).
  - rewrite Eh in E. contradiction.
  - rewrite Eh in E. subst h. exact (dotted_prefix_empty p H).
Qed.

Lemma rpartition_head_step (module_path head p : string) :
  Str.rpartition_head module_path = head -> head <> "" ->
  (dotted_prefix p module_path <-> p = head \/ dotted_prefix p head).
Proof.
  unfold Str.rpartition_head. intros E Hh. rewrite dotted_prefix_step.
  destruct (Str.rpartition_dot module_path) as [h|]; [|congruence].
  subst h. split.
  - intros (h & [= <-] & H). exact H.
  - intros H. exists head. auto.
Qed.

Lemma best_import_path_loop_ok (module_path best_path best : string) :
  best_import_path_loop rt name klass module_path best_path = Ok best ->
  loop_result rt name klass module_path best_path best.
Proof.
  funelim (best_import_path_loop rt name klass module_path best_path).
  - intros [= <-]. left. split; [reflexivity|].
    intros p Hp Hdp. exfalso.
    match goal with
    | E : Str.rpartition_head _ = "" |- _ =>
        exact (rpartition_head_empty _ p E Hp Hdp)
    end.
  - destruct (import_module rt (String c s)) as [module|e] eqn:Ei;
      [|discriminate].
    intros Hloop.
    assert (Hstep : forall p, dotted_prefix p module_path <->
                              p = String c s \/ dotted_prefix p (String c s)).
    { intros p. apply rpartition_head_step; [assumption|discriminate]. }
    match goal with
    | IH : forall (m : PyObject) (b : string), _ -> loop_result rt name klass _ _ _ |- _ =>
        destruct (IH module best Hloop)
          as [[Hb Hnone]|(Hne & Hd & Hp & Hmin)]
    end.
    + destruct (exposes module name klass) eqn:Ex.
      * right. subst best. split; [discriminate|].
        split; [apply Hstep; left; reflexivity|].
        split; [exists module; auto|].
        intros p Hp Hdp Hpass. apply Hstep in Hdp as [->|Hdp]; [lia|].
        exfalso. exact (Hnone p Hp Hdp Hpass).
      * left. split; [exact Hb|].
        intros p Hp Hdp Hpass. apply Hstep in Hdp as [->|Hdp].
        -- destruct Hpass as (m & Em & Hm). rewrite Ei in Em.
           injection Em as <-. congruence.
        -- exact (Hnone p Hp Hdp Hpass).
    + right. split; [exact Hne|].
      split; [apply Hstep; right; exact Hd|].
      split; [exact Hp|].
      intros p Hpne Hdp Hpass. apply Hstep in Hdp as [->|Hdp].
      * apply dotted_prefix_shorter in Hd. lia.
      * exact (Hmin p Hpne Hdp Hpass).
Qed.

Lemma best_import_path_loop_total (module_path best_path : string) :
  (forall p, p <> "" -> dotted_prefix p module_path ->
             exists module, import_module rt p = Ok module) ->
  exists best,
    best_import_path_loop rt name klass module_path best_path = Ok best.
Proof.
  funelim (best_import_path_loop rt name klass module_path best_path).
  - intros _. eauto.
  - intros Himp.
    assert (Hstep : forall p, dotted_prefix p module_path <->
                              p = String c s \/ dotted_prefix p (String c s)).
    { intros p. apply rpartition_head_step; [assumption|discriminate]. }
    destruct (Himp (String c s)) as [module Ei];
      [discriminate|apply Hstep; left; reflexivity|].
    rewrite Ei.
    match goal with
    | IH : forall (m : PyObject), _ -> exists b, _ |- _ => apply IH
    end.
    intros p Hp Hdp. apply Himp; [exact Hp|]. apply Hstep. right. exact Hdp.
Qed.

End BestImportPath.

(** Where neither operand has an [__eq__] of its own to answer with,
    [==] is identity. *)
Lemma py_eq_default (o : PyObject) r name module bases members :
  eq_method o (r_id r) = None ->
  r_eq r (py_id o) = None ->
  py_eq o (PyClass r name module bases members)
  = py_is o (PyClass r name module bases members).
Proof.
  intros Ho Hk. unfold py_eq.
  cbn [py_id eq_method]. rewrite Ho, Hk. destruct o; reflexivity.
Qed.

(** C2, as the code has it. The search goes through every dotted prefix
    of the defining module path, from the longest to the shortest, and
    does not stop at a prefix that fails the check. It returns the
    shortest non-empty prefix that passes, and the defining module path
    when none passes; it returns whenever every prefix can be imported. *)
Theorem best_import_path_is_shortest_exposing_prefix (rt : Runtime)
    (r : Reflect) (cname cmodule : string) (bases : list (string * string))
    (members : list (string * PyObject)) :
  let klass := PyClass r cname cmodule bases members in
  (forall best,
     _get_best_import_path_for_class rt klass = Ok best ->
     (best = cmodule /\
      forall p, p <> "" -> dotted_prefix p cmodule ->
                ~ passes rt cname klass p)
     \/
     (best <> "" /\ dotted_prefix best cmodule /\
      passes rt cname klass best /\
      forall p, p <> "" -> dotted_prefix p cmodule ->
                passes rt cname klass p ->
                (String.length best <= String.length p)%nat)) /\
  ((forall p, p <> "" -> dotted_prefix p cmodule ->
              exists module, import_module rt p = Ok module) ->
   exists best, _get_best_import_path_for_class rt klass = Ok best).
Proof.
  intros klass. unfold _get_best_import_path_for_class. cbn [py_module py_name bind klass].
  split.
  - intros best H. apply best_import_path_loop_ok in H. exact H.
  - apply best_import_path_loop_total.
Qed.

(** The reading of C2 that the code does not follow: the search stops at
    the first prefix that fails. For [Detail] of [shop.views.generic]
    the first prefix, [shop.views], does not expose the class; the
    shorter prefix [shop] does, and is returned. *)
Lemma best_import_path_skips_a_failing_prefix :
  Str.rpartition_head "shop.views.generic" = "shop.views" /\
  import_module Fixture.packages "shop.views" = Ok Fixture.views_package /\
  exposes Fixture.views_package "Detail" Fixture.Detail = false /\
  (String.length "shop" < String.length "shop.views")%nat /\
  _get_best_import_path_for_class Fixture.packages Fixture.Detail = Ok "shop".
Proof.
  split; [reflexivity|]. split; [reflexivity|]. split; [reflexivity|].
  split; [simpl; lia|]. vm_compute. reflexivity.
Qed.

(** C9, as the code has it. The best import path is the defining module
    path or a dotted prefix of it. When it is a prefix, importing it and
    looking up the simple name of the class gives an object that
    compares equal to the class: the test of the code is [==], and the
    object is the class itself where neither of the two answers the
    comparison with an [__eq__] of its own. The defining module path is
    where the search starts and is not checked. *)
Theorem best_import_path_round_trip (rt : Runtime) :
  (forall r cname cmodule bases members best,
     let klass := PyClass r cname cmodule bases members in
     _get_best_import_path_for_class rt klass = Ok best ->
     (best = cmodule \/ dotted_prefix best cmodule) /\
     (best <> cmodule ->
      exists module o,
        import_module rt best = Ok module /\
        getattr module cname = Some o /\
        py_eq o klass = true /\
        (eq_method o (py_id klass) = None ->
         eq_method klass (py_id o) = None ->
         py_is o klass = true))) /\
  (forall module_paths k,
     In (IsKlass k) (yielded (process_modules rt module_paths)) ->
     (klass_best_import_path k = klass_module k \/
      dotted_prefix (klass_best_import_path k) (klass_module k)) /\
     (klass_best_import_path k <> klass_module k ->
      exists root member parent name module o,
        walked rt module_paths root member parent name /\
        import_module rt (klass_best_import_path k) = Ok module /\
        getattr module (klass_name k) = Some o /\
        py_eq o member = true /\
        (eq_method o (py_id member) = None ->
         eq_method member (py_id o) = None ->
         py_is o member = true))).
Proof.
  assert (Hclass : forall r cname cmodule bases members best,
            let klass := PyClass r cname cmodule bases members in
            _get_best_import_path_for_class rt klass = Ok best ->
            (best = cmodule \/ dotted_prefix best cmodule) /\
            (best <> cmodule ->
             exists module o,
               import_module rt best = Ok module /\
               getattr module cname = Some o /\
               py_eq o klass = true /\
               (eq_method o (py_id klass) = None ->
                eq_method klass (py_id o) = None ->
                py_is o klass = true))).
  { intros r cname cmodule bases members best klass H. subst klass.
    unfold _get_best_import_path_for_class in H.
    cbn [py_module py_name bind] in H.
    apply best_import_path_loop_ok in H
      as [[-> _]|(_ & Hd & (module & Ei & Ex) & _)].
    - split; [left; reflexivity|]. congruence.
    - split; [right; exact Hd|]. intros _.
      unfold exposes in Ex.
      destruct (getattr module cname) as [o|] eqn:Eg; [|discriminate].
      exists module, o. split; [exact Ei|]. split; [exact Eg|].
      split; [exact Ex|]. intros Ho Hk.
      rewrite <- (py_eq_default o r cname cmodule bases members Ho Hk).
      exact Ex. }
  split; [exact Hclass|].
  intros module_paths k H.
  apply process_modules_yields in H as (root & mb & p & n & Hw & He).
  inversion He as [|p' mm pn file nm line path bases best Hp Hm Hc Hmod Hpn
                      Hsw Hf1 Hf2 Hn Hln Hfp Hb Hbest Hrec| |]; subst.
  cbn [klass_best_import_path klass_module klass_name].
  destruct mb as [| |r cname cmodule cbases members| | | |]; try discriminate.
  cbn [py_module py_name] in Hmod, Hn. injection Hmod as <-. injection Hn as <-.
  destruct (Hclass _ _ _ _ _ _ Hbest) as [H1 H2].
  split; [exact H1|]. intros Hne.
  destruct (H2 Hne) as (module & o & Ei & Eg & Heq & His).
  exists root, (PyClass r cname cmodule cbases members), (Some p'), n, module, o.
  auto.
Qed.

(** The round trip of C9 where it fails: a class that its defining
    module holds under another name. The walk of [shop.traced] yields a
    Klass record for [Wrapper] with the best import path [shop.traced],
    and [shop.traced] has no attribute [Wrapper]. *)
Lemma best_import_path_is_not_checked_at_the_module :
  (exists k,
     In (IsKlass k)
       (yielded (process_modules Fixture.decorated ["shop.traced"])) /\
     klass_name k = "Wrapper" /\
     klass_module k = "shop.traced" /\
     klass_best_import_path k = "shop.traced") /\
  import_module Fixture.decorated "shop.traced" = Ok Fixture.traced /\
  getattr Fixture.traced "Wrapper" = None.
Proof.
  split; [|split; reflexivity].
  eexists. split.
  - vm_compute. right. left. reflexivity.
  - repeat split.
Qed.

(** The round trip of C9 is a round trip up to [==]. In [mocked] the
    package [shop] holds under the name [Detail] a value whose [__eq__]
    answers [True] to everything ([unittest.mock.ANY] is one): the check
    passes at [shop], which becomes the best import path, and what the
    lookup gives there is not the class. *)
Lemma best_import_path_accepts_an_equal_object :
  _get_best_import_path_for_class Fixture.mocked Fixture.Detail = Ok "shop" /\
  import_module Fixture.mocked "shop" = Ok Fixture.shop_mocked /\
  getattr Fixture.shop_mocked "Detail" = Some Fixture.any_value /\
  py_eq Fixture.any_value Fixture.Detail = true /\
  py_is Fixture.any_value Fixture.Detail = false.
Proof.
  split; [vm_compute; reflexivity|]. repeat split.
Qed.

(** ** Descendants *)

Section Descendants.

Context (edges : list Inheritance).

Lemma get_children_spec (k c : nat) :
  In c (get_children edges k) <-> child_of edges k c.
Proof.
  unfold get_children, child_of. rewrite in_map_iff. split.
  - intros (e & Hc & He). apply filter_In in He as [He Hp].
    apply Nat.eqb_eq in Hp. eauto.
  - intros (e & He & Hp & Hc). exists e. split; [exact Hc|].
    apply filter_In. split; [exact He|]. apply Nat.eqb_eq. exact Hp.
Qed.

Lemma descend_spec (n k c : nat) :
  In c (descend n edges k) <->
  exists l, walk edges k l c /\ (List.length l <= n)%nat.
Proof.
  revert k. induction n as [|n IH]; intros k; simpl.
  - split; [tauto|]. intros (l & Hw & Hl). destruct Hw; simpl in Hl; lia.
  - rewrite in_flat_map. split.
    + intros (d & Hd & [<-|Hc]).
      * apply get_children_spec in Hd. exists [d]. split.
        -- constructor. exact Hd.
        -- simpl. lia.
      * apply get_children_spec in Hd. apply IH in Hc as (l & Hw & Hl).
        exists (d :: l). split.
        -- constructor; assumption.
        -- simpl. lia.
    + intros (l & Hw & Hl). destruct Hw as [k c Hc|k d l c Hd Hw].
      * exists c. split; [apply get_children_spec; exact Hc|].
        left. reflexivity.
      * exists d. split; [apply get_children_spec; exact Hd|].
        right. apply IH. exists l. split; [exact Hw|]. simpl in Hl. lia.
Qed.

Lemma walk_clos_trans (k c : nat) :
  clos_trans nat (child_of edges) k c <-> exists l, walk edges k l c.
Proof.
  split.
  - intros H. apply clos_trans_t1n in H.
    induction H as [k c Hc|k d c Hd _ [l Hw]].
    + exists [c]. constructor. exact Hc.
    + exists (d :: l). constructor; assumption.
  - intros [l Hw]. induction Hw as [k c Hc|k d l c Hd _ IH].
    + apply t_step. exact Hc.
    + eapply t_trans; [apply t_step; exact Hd|exact IH].
Qed.

Lemma walk_children (k c : nat) (l : list nat) :
  walk edges k l c -> incl l (List.map inh_child edges).
Proof.
  induction 1 as [k c (e & He & _ & <-)|k d l c (e & He & _ & <-) _ IH].
  - intros x [<-|[]]. apply in_map. exact He.
  - intros x [<-|Hx]; [apply in_map; exact He|apply IH; exact Hx].
Qed.

(** From a class on a walk without repetition, the rest of the walk. *)
Lemma walk_from (k c d : nat) (l : list nat) :
  walk edges k l c -> List.NoDup l -> In d l ->
  d = c \/ exists b, walk edges d b c /\ List.NoDup (d :: b) /\ incl b l.
Proof.
  induction 1 as [k c Hc|k d0 l c Hd0 Hw IH]; intros Hnd Hin.
  - destruct Hin as [<-|[]]. left. reflexivity.
  - destruct Hin as [<-|Hin].
    + right. exists l. split; [exact Hw|]. split; [exact Hnd|].
      apply incl_tl, incl_refl.
    + apply NoDup_cons_iff in Hnd as [_ Hnd].
      destruct (IH Hnd Hin) as [->|(b & Hb & Hndb & Hincl)].
      * left. reflexivity.
      * right. exists b. split; [exact Hb|]. split; [exact Hndb|].
        apply incl_tl. exact Hincl.
Qed.

(** A walk can be cut down to one that meets no class twice. *)
Lemma walk_nodup (k c : nat) (l : list nat) :
  walk edges k l c -> exists l', walk edges k l' c /\ List.NoDup l'.
Proof.
  induction 1 as [k c Hc|k d l c Hd Hw (l' & Hw' & Hnd)].
  - exists [c]. split; [constructor; exact Hc|].
    constructor; [simpl; tauto|constructor].
  - destruct (in_dec Nat.eq_dec d l') as [Hin|Hout].
    + destruct (walk_from _ _ _ _ Hw' Hnd Hin) as [->|(b & Hb & Hndb & _)].
      * exists [c]. split; [constructor; exact Hd|].
        constructor; [simpl; tauto|constructor].
      * exists (d :: b). split; [constructor; assumption|exact Hndb].
    + exists (d :: l'). split; [constructor; assumption|].
      constructor; assumption.
Qed.

(** [get_all_children] is the transitive closure of the edges, in the
    child direction. *)
Lemma get_all_children_spec (k c : nat) :
  In c (get_all_children edges k) <-> clos_trans nat (child_of edges) k c.
Proof.
  unfold get_all_children. rewrite descend_spec, walk_clos_trans. split.
  - intros (l & Hw & _). eauto.
  - intros (l & Hw). apply walk_nodup in Hw as (l' & Hw' & Hnd).
    exists l'. split; [exact Hw'|].
    rewrite <- (length_map inh_child edges).
    apply NoDup_incl_length; [exact Hnd|].
    eapply walk_children. exact Hw'.
Qed.

End Descendants.

(** ** Attribute shadowing *)

Section Shadowing.

Context (edges : list Inheritance) (klass_lookup : gmap string KlassModel).

Lemma lookup_klass_ok klass_path klass :
  lookup_klass klass_lookup klass_path = Ok klass <->
  klass_lookup !! klass_path = Some klass.
Proof.
  unfold lookup_klass. destruct (klass_lookup !! klass_path); split;
    congruence.
Qed.

Lemma all_known_cons k_and_l klasses :
  all_known klass_lookup (k_and_l :: klasses) ->
  is_Some (klass_lookup !! fst k_and_l) /\ all_known klass_lookup klasses.
Proof.
  intros H. split.
  - destruct k_and_l as [p l]. apply (H p l). left. reflexivity.
  - intros p l Hin. apply (H p l). right. exact Hin.
Qed.

Lemma all_descendants_spec klasses :
  all_known klass_lookup klasses ->
  exists descendants,
    all_descendants edges klass_lookup klasses = Ok descendants /\
    forall pk, pk ∈ descendants <-> descends edges klass_lookup klasses pk.
Proof.
  induction klasses as [|[klass_path line] rest IH]; intros Hk.
  - exists ∅. split; [reflexivity|]. intros pk. split.
    + intros H. apply not_elem_of_empty in H. contradiction.
    + intros (p & l & k & [] & _).
  - apply all_known_cons in Hk as [[klass Hl] Hk].
    destruct (IH Hk) as (more & Hmore & Hspec). simpl in Hl.
    eexists. cbn [all_descendants]. unfold lookup_klass at 1. rewrite Hl.
    cbn [bind]. rewrite Hmore. cbn [bind]. split; [reflexivity|].
    intros pk. rewrite elem_of_union, elem_of_list_to_set, list_elem_of_In.
    rewrite get_all_children_spec, Hspec. split.
    + intros [H|(p & l & k & Hin & Hp & Hc)].
      * exists klass_path, line, klass. split; [left; reflexivity|]. auto.
      * exists p, l, k. split; [right; exact Hin|]. auto.
    + intros (p & l & k & [[= <- <-]|Hin] & Hp & Hc).
      * left. rewrite Hl in Hp. injection Hp as <-. exact Hc.
      * right. exists p, l, k. auto.
Qed.

Lemma remaining_klasses_spec (descendants : gset nat) klasses :
  all_known klass_lookup klasses ->
  exists remaining,
    remaining_klasses klass_lookup descendants klasses = Ok remaining /\
    forall klass_path line,
      In (klass_path, line) remaining <->
      In (klass_path, line) klasses /\
      exists klass, klass_lookup !! klass_path = Some klass /\
                    km_pk klass ∉ descendants.
Proof.
  induction klasses as [|[p0 l0] rest IH]; intros Hk.
  - exists []. split; [reflexivity|]. simpl. tauto.
  - apply all_known_cons in Hk as [[klass Hl] Hk].
    destruct (IH Hk) as (more & Hmore & Hspec). simpl in Hl.
    cbn [remaining_klasses fst]. unfold lookup_klass at 1. rewrite Hl.
    cbn [bind]. rewrite Hmore. cbn [bind].
    destruct (bool_decide (km_pk klass ∉ descendants)) eqn:E.
    + apply bool_decide_eq_true in E. eexists. split; [reflexivity|].
      intros p l. cbn [In]. rewrite Hspec. split.
      * intros [[= <- <-]|[Hin Hx]]; [|tauto].
        split; [left; reflexivity|]. eauto.
      * intros [[H|H] Hx]; [left; exact H|right; tauto].
    + apply bool_decide_eq_false in E. exists more. split; [reflexivity|].
      intros p l. rewrite Hspec. cbn [In]. split; [tauto|].
      intros [[[= <- <-]|H] Hx]; [|tauto].
      destruct Hx as (k & Hk' & Hn). rewrite Hl in Hk'.
      injection Hk' as <-. contradiction.
Qed.

Lemma attribute_models_spec name value remaining :
  all_known klass_lookup remaining ->
  exists models,
    attribute_models klass_lookup name value remaining = Ok models /\
    forall row,
      In row models <->
      exists klass_path line klass,
        In (klass_path, line) remaining /\
        klass_lookup !! klass_path = Some klass /\
        row = {| ka_klass := km_pk klass; ka_line_number := line;
                 ka_name := name; ka_value := value |}.
Proof.
  induction remaining as [|[p0 l0] rest IH]; intros Hk.
  - exists []. split; [reflexivity|]. intros row. split; [intros []|].
    intros (p & l & k & [] & _).
  - apply all_known_cons in Hk as [[klass Hl] Hk].
    destruct (IH Hk) as (more & Hmore & Hspec). simpl in Hl.
    eexists. cbn [attribute_models]. unfold lookup_klass at 1. rewrite Hl.
    cbn [bind]. rewrite Hmore. cbn [bind]. split; [reflexivity|].
    intros row. cbn [In]. rewrite Hspec. split.
    + intros [<-|(p & l & k & Hin & Hp & ->)].
      * exists p0, l0, klass. auto.
      * exists p, l, k. auto.
    + intros (p & l & k & [[= <- <-]|Hin] & Hp & ->).
      * left. rewrite Hl in Hp. injection Hp as <-. reflexivity.
      * right. exists p, l, k. auto.
Qed.

(** The rows made for one group. *)
Lemma group_spec name value klasses :
  all_known klass_lookup klasses ->
  exists descendants remaining models,
    all_descendants edges klass_lookup klasses = Ok descendants /\
    remaining_klasses klass_lookup descendants klasses = Ok remaining /\
    attribute_models klass_lookup name value remaining = Ok models /\
    forall row,
      In row models <->
      exists klass_path line klass,
        In (klass_path, line) klasses /\
        klass_lookup !! klass_path = Some klass /\
        row = {| ka_klass := km_pk klass; ka_line_number := line;
                 ka_name := name; ka_value := value |} /\
        ~ descends edges klass_lookup klasses (km_pk klass).
Proof.
  intros Hk.
  destruct (all_descendants_spec klasses Hk) as (D & HD & HDspec).
  destruct (remaining_klasses_spec D klasses Hk) as (rem & Hrem & Hrspec).
  assert (Hkr : all_known klass_lookup rem).
  { intros p l Hin. apply Hrspec in Hin as [Hin _]. exact (Hk p l Hin). }
  destruct (attribute_models_spec name value rem Hkr)
    as (models & Hm & Hmspec).
  exists D, rem, models. repeat (split; [assumption|]).
  intros row. rewrite Hmspec. split.
  - intros (p & l & k & Hin & Hp & ->).
    apply Hrspec in Hin as [Hin (k' & Hk' & Hn)].
    rewrite Hp in Hk'. injection Hk' as <-.
    exists p, l, k. rewrite <- HDspec. auto.
  - intros (p & l & k & Hin & Hp & -> & Hn).
    exists p, l, k. split; [|auto].
    apply Hrspec. split; [exact Hin|]. exists k. rewrite HDspec. auto.
Qed.

End Shadowing.

(** C1. [create_attributes] goes through the candidates group by group,
    a group being the candidates of one (name, value). A candidate gets
    a row exactly when its class is not a descendant of a class of its
    group, a descendant being a class reached over Inheritance edges in
    the child direction (the transitive closure, as the spec has
    [get_all_children] compute it). Run on the two classes of
    [shop/views.py]: when [B] only inherits [x = 1] from [A], the one
    row is that of [A] (key 2); when [B] sets [x = 2], there is the row
    of [A] for ['1'] and the row of [B] (key 3) for ['2']. *)
Theorem attribute_shadowing_resolution (edges : list Inheritance)
    (klass_lookup : gmap string KlassModel) (attributes : AttributeTable) :
  (forall key klasses klass_path line,
     In (key, klasses) attributes -> In (klass_path, line) klasses ->
     is_Some (klass_lookup !! klass_path)) ->
  (exists rows,
     create_attributes edges klass_lookup attributes = Ok rows /\
     forall row,
       In row rows <->
       exists name value klasses klass_path line klass,
         In ((name, value), klasses) attributes /\
         In (klass_path, line) klasses /\
         klass_lookup !! klass_path = Some klass /\
         row = {| ka_klass := km_pk klass; ka_line_number := line;
                  ka_name := name; ka_value := value |} /\
         ~ (exists other_path other_line other,
              In (other_path, other_line) klasses /\
              klass_lookup !! other_path = Some other /\
              clos_trans nat (child_of edges) (km_pk other) (km_pk klass)))
  /\
  (forall k c,
     In c (get_all_children edges k) <-> clos_trans nat (child_of edges) k c)
  /\
  (let db := fst (handle Fixture.rt ["shop.views"]) in
   db_inheritance db
   = [{| inh_parent := 2; inh_child := 3; inh_order := 0 |}] /\
   db_attributes db
   = [{| ka_klass := 2; ka_line_number := -1; ka_name := "x";
         ka_value := "1" |}]) /\
  (let db :=
     fst (handle (Fixture.runtime (Fixture.B_with Fixture.two))
            ["shop.views"]) in
   db_inheritance db
   = [{| inh_parent := 2; inh_child := 3; inh_order := 0 |}] /\
   db_attributes db
   = [{| ka_klass := 2; ka_line_number := -1; ka_name := "x";
         ka_value := "1" |};
      {| ka_klass := 3; ka_line_number := -1; ka_name := "x";
         ka_value := "2" |}]).
Proof.
  intros Hknown.
  split; [|split; [apply get_all_children_spec|split; vm_compute; auto]].
  induction attributes as [|[[name value] klasses] rest IH].
  - exists []. split; [reflexivity|]. intros row. split; [intros []|].
    intros (n & v & ks & p & l & k & [] & _).
  - assert (Hk : all_known klass_lookup klasses).
    { intros p l Hin. eapply Hknown; [left; reflexivity|exact Hin]. }
    destruct (group_spec edges klass_lookup name value klasses Hk)
      as (D & rem & models & HD & Hrem & Hm & Hspec).
    destruct IH as (more & Hmore & Hmspec).
    { intros key ks p l Hin. apply (Hknown key ks p l). right. exact Hin. }
    exists (models ++ more)%list. cbn [create_attributes].
    rewrite HD. cbn [bind]. rewrite Hrem. cbn [bind]. rewrite Hm.
    cbn [bind]. rewrite Hmore. cbn [bind]. split; [reflexivity|].
    intros row. rewrite in_app_iff, Hspec, Hmspec. unfold descends. split.
    + intros [(p & l & k & Hin & Hp & -> & Hn)
             |(n & v & ks & p & l & k & Hin & Hrest)].
      * exists name, value, klasses, p, l, k.
        split; [left; reflexivity|]. auto.
      * exists n, v, ks, p, l, k. split; [right; exact Hin|exact Hrest].
    + intros (n & v & ks & p & l & k & [[= <- <- <-]|Hin] & Hrest).
      * left. exists p, l, k. exact Hrest.
      * right. exists n, v, ks, p, l, k. auto.
Qed.

(** * The theorems at work on the small project *)

Ltac in_list := repeat (first [left; reflexivity | right]).

Lemma attribute_shadowing_resolution_witness :
  (forall key klasses klass_path line,
     In (key, klasses) Fixture.candidates -> In (klass_path, line) klasses ->
     is_Some (Fixture.klass_lookup !! klass_path)) /\
  exists rows,
    create_attributes Fixture.edges Fixture.klass_lookup Fixture.candidates
    = Ok rows.
Proof.
  assert (H : forall key klasses klass_path line,
            In (key, klasses) Fixture.candidates ->
            In (klass_path, line) klasses ->
            is_Some (Fixture.klass_lookup !! klass_path)).
  { intros key klasses klass_path line [[= <- <-]|[]] [[= <- <-]|[[= <- <-]|[]]];
      vm_compute; eauto. }
  split; [exact H|].
  destruct (attribute_shadowing_resolution Fixture.edges Fixture.klass_lookup
              Fixture.candidates H) as [(rows & Hrows & _) _].
  exists rows. exact Hrows.
Defined.

Lemma best_import_path_is_shortest_exposing_prefix_witness :
  _get_best_import_path_for_class Fixture.packages Fixture.Detail = Ok "shop"
  /\ passes Fixture.packages "Detail" Fixture.Detail "shop".
Proof.
  assert (H : _get_best_import_path_for_class Fixture.packages Fixture.Detail
              = Ok "shop") by (vm_compute; reflexivity).
  split; [exact H|].
  destruct (proj1 (best_import_path_is_shortest_exposing_prefix
                     Fixture.packages _ _ _ _ _) "shop" H)
    as [[E _]|(_ & _ & Hp & _)]; [discriminate E|exact Hp].
Defined.

Lemma method_kwargs_is_signature_text_witness :
  In (IsMethod Fixture.get_record)
    (yielded (process_modules Fixture.rt ["shop.views"])) /\
  exists root member parent spec,
    walked Fixture.rt ["shop.views"] root member parent "get" /\
    inspect.getfullargspec (unwrap member) = Ok spec /\
    "self, request, *args, **kwargs"
    = Str.slice_1_m1 (inspect.formatargspec spec).
Proof.
  assert (H : In (IsMethod Fixture.get_record)
                (yielded (process_modules Fixture.rt ["shop.views"])))
    by (vm_compute; in_list).
  split; [exact H|].
  destruct (proj2 (method_kwargs_is_signature_text Fixture.rt) _ _ H)
    as (root & member & parent & spec & Hw & Hs & Hk & _).
  exists root, member, parent, spec. auto.
Defined.

Lemma class_emission_filter_witness :
  Str.startswith "shop.views" "shop.views" = true /\
  exists k,
    yielded (_process_member Fixture.rt Fixture.A "A" "shop.views"
               (Some (Fixture.views (Fixture.B_with Fixture.one))))
    = IsKlass k
      :: yielded (_process_submembers Fixture.rt Fixture.A "shop.views"
                    (getmembers Fixture.A)) /\
    klass_name k = "A".
Proof.
  split; [reflexivity|].
  destruct (proj2 (proj1 (class_emission_filter Fixture.rt
                            (Fixture.in_file 30%nat Fixture.views_py
                               Fixture.A_lines 1 "<class 'shop.views.A'>")
                            "A" "shop.views" [("builtins", "object")]
                            (getmembers Fixture.A)
                            (Fixture.in_file 40%nat Fixture.views_py [] 0
                               "<module 'shop.views'>")
                            "shop.views"
                            [("A", Fixture.A);
                             ("B", Fixture.B_with Fixture.one)]
                            "A" "shop.views")))
    as (k & Hy & _ & Hn & _).
  - split; [reflexivity|]. split; [eexists; split; reflexivity|].
    split; [discriminate|]. exists "shop.views". vm_compute. reflexivity.
  - exists k. split; [exact Hy|exact Hn].
Defined.

Lemma lazy_repr_of_string_arguments_witness :
  inspect.lookup_assoc "gettext" LazyAttribute.functions = Some "gettext_lazy"
  /\
  exists l,
    LazyAttribute.__init__ Fixture.title = Ok l /\
    LazyAttribute.__repr__ l = Ok "gettext_lazy('Detail')".
Proof.
  split; [reflexivity|].
  destruct (proj1 (lazy_repr_of_string_arguments Fixture.rt 61%nat "gettext"
                     "gettext_lazy" ["Detail"] eq_refl))
    as (l & Hi & Hr & _).
  exists l. split; [exact Hi|exact Hr].
Defined.

Lemma attribute_candidate_filter_witness :
  In (IsKlassAttribute Fixture.x_record)
    (yielded (process_modules Fixture.rt ["shop.views"])) /\
  ~ In "x" BANNED_ATTR_NAMES.
Proof.
  assert (H : In (IsKlassAttribute Fixture.x_record)
                (yielded (process_modules Fixture.rt ["shop.views"])))
    by (vm_compute; in_list).
  split; [exact H|].
  exact (proj1 (proj2 (proj2 (proj2 (attribute_candidate_filter Fixture.rt)))
                  _ _ H)).
Defined.


Lemma best_import_path_round_trip_witness :
  In (IsKlass Fixture.Detail_record)
    (yielded (process_modules Fixture.packages ["shop.views.generic"])) /\
  exists root member parent name module o,
    walked Fixture.packages ["shop.views.generic"] root member parent name /\
    import_module Fixture.packages "shop" = Ok module /\
    getattr module "Detail" = Some o /\
    py_eq o member = true /\
    (eq_method o (py_id member) = None ->
     eq_method member (py_id o) = None ->
     py_is o member = true).
Proof.
  assert (H : In (IsKlass Fixture.Detail_record)
                (yielded (process_modules Fixture.packages
                            ["shop.views.generic"])))
    by (vm_compute; in_list).
  split; [exact H|].
  destruct (proj2 (best_import_path_round_trip Fixture.packages) _ _ H)
    as [_ Hrt].
  apply Hrt. discriminate.
Defined.


(** * More properties of the importer *)

(** ** Roots that cannot be imported *)

Lemma import_all_skips rt before path after :
  sys_modules rt !! path = None ->
  import_all rt (before ++ path :: after)%list
  = import_all rt (before ++ after)%list.
Proof.
  intros H. induction before as [|p rest IH]; simpl.
  - unfold import_module. rewrite H. reflexivity.
  - rewrite IH. reflexivity.
Qed.

(** A root module path that cannot be imported is passed over: the run
    is the run on the other paths. *)
Theorem process_modules_skips_failed_import (rt : Runtime)
    (before after : list string) (path : string) :
  import_module rt path = Raise ImportError ->
  process_modules rt (before ++ path :: after)%list
  = process_modules rt (before ++ after)%list.
Proof.
  unfold import_module at 1.
  destruct (sys_modules rt !! path) eqn:E; [discriminate|]. intros _.
  unfold process_modules. rewrite import_all_skips by exact E. reflexivity.
Qed.

Lemma process_modules_skips_failed_import_witness :
  import_module Fixture.rt "shop.missing" = Raise ImportError /\
  process_modules Fixture.rt ["shop.missing"; "shop.views"]
  = process_modules Fixture.rt ["shop.views"].
Proof.
  split; [reflexivity|].
  exact (process_modules_skips_failed_import Fixture.rt [] ["shop.views"]
           "shop.missing" eq_refl).
Defined.

(** ** The code of a method *)

Lemma substring_all (s : string) : substring 0 (String.length s) s = s.
Proof.
  induction s as [|c s IH]; simpl; [reflexivity|]. rewrite IH. reflexivity.
Qed.

Lemma substring_skip (a b : string) (n : nat) :
  substring (String.length a) n (a +:+ b) = substring 0 n b.
Proof.
  induction a as [|c a IH]; [reflexivity|].
  rewrite append_cons. simpl. exact IH.
Qed.

Lemma substring_past (s : string) (n m : nat) :
  (String.length s <= n)%nat -> substring n m s = "".
Proof.
  revert n. induction s as [|c s IH]; intros n H.
  - destruct n, m; reflexivity.
  - destruct n as [|n]; simpl in H; [lia|]. simpl. apply IH. lia.
Qed.

Lemma drop_append (a b : string) : Str.drop (String.length a) (a +:+ b) = b.
Proof.
  unfold Str.drop. rewrite substring_skip, length_append.
  replace (String.length a + String.length b - String.length a)%nat
    with (String.length b) by lia.
  apply substring_all.
Qed.

Lemma drop_past (s : string) (n : nat) :
  (String.length s <= n)%nat -> Str.drop n s = "".
Proof. intros H. unfold Str.drop. apply substring_past. exact H. Qed.

Lemma lstrip_indent (indent body : string) :
  all_space indent = true -> Str.lstrip body = body ->
  Str.lstrip (indent +:+ body) = body.
Proof.
  intros Hi Hb. induction indent as [|c indent IH]; [exact Hb|].
  rewrite append_cons. simpl in Hi. apply andb_true_iff in Hi as [Hc Hi].
  simpl. rewrite Hc. apply IH. exact Hi.
Qed.

Lemma dedented_drop indent line out :
  dedented indent line out -> Str.drop (String.length indent) line = out.
Proof.
  intros [->|[H ->]]; [apply drop_append|apply drop_past; exact H].
Qed.

(** [get_code] takes the indentation of the first line off every line:
    when the first line is [indent] followed by text that starts with no
    whitespace, the code is the lines put together, each without the
    indentation it begins with; a line no longer than the indentation,
    such as an empty line inside the method, leaves nothing, not even
    its line break. *)
Theorem get_code_dedents (member : PyObject) (indent first : string)
    (lines outs : list string) (start_line : Z) (spec : FullArgSpec) :
  all_space indent = true ->
  Str.lstrip first = first ->
  Forall2 (dedented indent) lines outs ->
  inspect.getsourcelines (Some member)
  = SourceOK ((indent +:+ first) :: lines) start_line ->
  inspect.getfullargspec member = Ok spec ->
  get_code member
  = Ok (Str.join "" (first :: outs), inspect.formatargspec spec, start_line).
Proof.
  intros Hi Hf Hl Hsrc Hspec. unfold get_code. rewrite Hsrc, Hspec.
  cbn [bind]. rewrite lstrip_indent by assumption.
  rewrite length_append.
  replace (String.length indent + String.length first - String.length first)%nat
    with (String.length indent) by lia.
  cbn [List.map]. rewrite drop_append.
  assert (Hm : List.map (Str.drop (String.length indent)) lines = outs).
  { clear - Hl. induction Hl as [|line out rest outs' Hd _ IH]; [reflexivity|].
    cbn [List.map]. rewrite (dedented_drop _ _ _ Hd), IH. reflexivity. }
  rewrite Hm. reflexivity.
Qed.

Lemma get_code_dedents_witness :
  all_space "    " = true /\
  get_code Fixture.get
  = Ok (Str.join ""
          ["def get(self, request, *args, **kwargs):
"; "    return self.x
"],
        "(self, request, *args, **kwargs)", 3).
Proof.
  split; [reflexivity|].
  apply (get_code_dedents Fixture.get "    "
           "def get(self, request, *args, **kwargs):
"
           ["        return self.x
"] ["    return self.x
"] 3 Fixture.get_spec).
  - reflexivity.
  - reflexivity.
  - constructor; [left; reflexivity|constructor].
  - reflexivity.
  - reflexivity.
Defined.

(** ** The file name of a module *)

Lemma max_by_len_spec (l : list string) (q : string) :
  max_by_len l = Ok q ->
  In q l /\
  forall p, In p l -> (String.length p <= String.length q)%nat.
Proof.
  revert q. induction l as [|x rest IH]; intros q; simpl; [discriminate|].
  destruct (max_by_len rest) as [y|e] eqn:E.
  - destruct (IH y eq_refl) as [Hin Hmax].
    destruct (String.length x <? String.length y)%nat eqn:Elt.
    + apply Nat.ltb_lt in Elt. intros [= <-]. split; [right; exact Hin|].
      intros p [<-|Hp]; [lia|apply Hmax; exact Hp].
    + apply Nat.ltb_ge in Elt. intros [= <-]. split; [left; reflexivity|].
      intros p [<-|Hp]; [lia|]. specialize (Hmax p Hp). lia.
  - intros [= <-]. split; [left; reflexivity|].
    intros p [<-|Hp]; [lia|]. destruct rest; [destruct Hp|].
    simpl in E. destruct (max_by_len rest); [destruct (_ <? _)%nat|];
      discriminate E.
Qed.

Lemma max_by_len_some (l : list string) :
  l <> [] -> exists q, max_by_len l = Ok q.
Proof.
  destruct l as [|x rest]; [congruence|]. intros _. simpl.
  destruct (max_by_len rest) as [y|e]; [|eauto].
  destruct (_ <? _)%nat; eauto.
Qed.

Lemma substring_0_add (a b : string) (n : nat) :
  substring 0 (String.length a + n) (a +:+ b) = a +:+ substring 0 n b.
Proof.
  induction a as [|c a IH]; [reflexivity|].
  rewrite !append_cons. simpl. rewrite IH. reflexivity.
Qed.

(** [(base + ".pyc")[:-1] == base + ".py"], and nothing changes without
    the extension. *)
Lemma pyc_to_py_spec (filename : string) :
  (forall base, filename = base +:+ ".pyc" ->
                pyc_to_py filename = base +:+ ".py") /\
  (Str.slice_from_m4 filename <> ".pyc" -> pyc_to_py filename = filename).
Proof.
  unfold pyc_to_py. split.
  - intros base ->.
    assert (H4 : Str.slice_from_m4 (base +:+ ".pyc") = ".pyc").
    { unfold Str.slice_from_m4. rewrite length_append.
      replace (String.length base + String.length ".pyc" - 4)%nat
        with (String.length base) by (simpl; lia).
      apply drop_append. }
    rewrite H4. cbn [String.eqb Ascii.eqb Bool.eqb].
    unfold Str.slice_to_m1. rewrite length_append.
    replace (String.length base + String.length ".pyc" - 1)%nat
      with (String.length base + 3)%nat by (simpl; lia).
    rewrite substring_0_add. reflexivity.
  - intros H. destruct (String.eqb_spec (Str.slice_from_m4 filename) ".pyc");
      [contradiction|reflexivity].
Qed.

(** [get_filename] cuts from the front of the file name as many
    characters as the longest entry of [sys.path] that occurs in the
    file name has (anywhere in it, the test being [p in filename]), and
    turns a last [.pyc] into [.py]. When that entry is the folder the
    file name begins with, what is left is the path below the folder. *)
Theorem get_filename_strips_longest_folder (rt : Runtime) (member : PyObject)
    (filename folder : string) :
  inspect.getfile member = Ok filename ->
  In folder (sys_path rt) ->
  Str.contains filename folder = true ->
  (forall p, In p (sys_path rt) -> Str.contains filename p = true ->
             (String.length p <= String.length folder)%nat) ->
  get_filename rt member
  = Ok (pyc_to_py (Str.drop (String.length folder) filename)) /\
  (forall rest, filename = folder +:+ rest ->
                get_filename rt member = Ok (pyc_to_py rest)) /\
  (forall base, Str.drop (String.length folder) filename = base +:+ ".pyc" ->
                get_filename rt member = Ok (base +:+ ".py")).
Proof.
  intros Hfile Hin Hcont Hmax.
  assert (Hres : get_filename rt member
                 = Ok (pyc_to_py (Str.drop (String.length folder) filename))).
  { unfold get_filename. rewrite Hfile. cbn [bind].
    set (found := List.filter (fun p => Str.contains filename p) (sys_path rt)).
    assert (Hf : In folder found) by (apply filter_In; auto).
    destruct (max_by_len_some found) as [q Hq];
      [intros E; rewrite E in Hf; destruct Hf|].
    rewrite Hq. cbn [bind].
    destruct (max_by_len_spec found q Hq) as [Hqin Hqmax].
    apply filter_In in Hqin as [Hq1 Hq2].
    assert (Hlen : String.length q = String.length folder).
    { specialize (Hmax q Hq1 Hq2). specialize (Hqmax folder Hf). lia. }
    rewrite Hlen. unfold pyc_to_py.
    destruct (String.eqb _ ".pyc"); reflexivity. }
  split; [exact Hres|]. split.
  - intros rest ->. rewrite Hres, drop_append. reflexivity.
  - intros base Hb. rewrite Hres, Hb.
    rewrite (proj1 (pyc_to_py_spec _) base eq_refl). reflexivity.
Qed.

Lemma get_filename_strips_longest_folder_witness :
  inspect.getfile (Fixture.views Fixture.A) = Ok "/srv/site/shop/views.py" /\
  get_filename Fixture.rt (Fixture.views Fixture.A) = Ok "/shop/views.py".
Proof.
  split; [reflexivity|].
  destruct (get_filename_strips_longest_folder Fixture.rt
              (Fixture.views Fixture.A) "/srv/site/shop/views.py" "/srv/site")
    as (_ & H & _).
  - reflexivity.
  - right. left. reflexivity.
  - reflexivity.
  - intros p [<-|[<-|[]]] Hc; [discriminate Hc|simpl; lia].
  - exact (H "/shop/views.py" eq_refl).
Defined.

(** [get_filename] has no answer for a file outside [sys.path]: when no
    entry of [sys.path] occurs in the file name, [max] is given an empty
    sequence and raises [ValueError]; and for a built-in module, which
    has no file, the [TypeError] of [inspect.getfile] comes through. *)
Theorem get_filename_outside_sys_path (rt : Runtime) (member : PyObject) :
  (forall filename,
     inspect.getfile member = Ok filename ->
     (forall p, In p (sys_path rt) -> Str.contains filename p = false) ->
     get_filename rt member = Raise ValueError) /\
  (inspect.getfile member = Raise TypeError ->
   get_filename rt member = Raise TypeError).
Proof.
  split.
  - intros filename Hfile Hnone. unfold get_filename. rewrite Hfile.
    cbn [bind].
    assert (E : List.filter (fun p => Str.contains filename p) (sys_path rt)
                = []).
    { induction (sys_path rt) as [|p rest IH]; [reflexivity|]. simpl.
      rewrite (Hnone p) by (left; reflexivity).
      apply IH. intros q Hq. apply Hnone. right. exact Hq. }
    rewrite E. reflexivity.
  - intros Hfile. unfold get_filename. rewrite Hfile. reflexivity.
Qed.

Lemma get_filename_outside_sys_path_witness :
  inspect.getfile Fixture.fast_views = Ok "/srv/site/fast/views.so" /\
  get_filename
    {| sys_path := ["/usr/lib/python3"]; sys_modules := ∅;
       object_dict_values := [] |} Fixture.fast_views
  = Raise ValueError.
Proof.
  split; [reflexivity|].
  apply (proj1 (get_filename_outside_sys_path _ Fixture.fast_views)
           "/srv/site/fast/views.so" eq_refl).
  intros p [<-|[]]. reflexivity.
Defined.

(** ** Inheritance edges *)

Lemma inheritance_of_known lookup (klass_data : Klass) child i0 ancestors :
  lookup !! klass_path klass_data = Some child ->
  exists edges,
    inheritance_of lookup klass_data i0 ancestors = Ok edges /\
    forall e,
      In e edges <->
      exists j ancestor parent,
        List.nth_error ancestors j = Some ancestor /\
        lookup !! ancestor = Some parent /\
        e = {| inh_parent := km_pk parent; inh_child := km_pk child;
               inh_order := (i0 + j)%nat |}.
Proof.
  intros Hc. revert i0.
  induction ancestors as [|a rest IH]; intros i0.
  - exists []. split; [reflexivity|]. intros e. split; [intros []|].
    intros (j & x & p & H & _). destruct j; discriminate H.
  - destruct (IH (S i0)) as (more & Hmore & Hspec).
    cbn [inheritance_of]. destruct (lookup !! a) as [parent|] eqn:Ea.
    + unfold lookup_klass. rewrite Hc. cbn [bind]. rewrite Hmore. cbn [bind].
      eexists. split; [reflexivity|]. intros e. cbn [In]. rewrite Hspec. split.
      * intros [<-|(j & x & p & Hn & Hp & ->)].
        -- exists 0%nat, a, parent. rewrite Nat.add_0_r. auto.
        -- exists (S j), x, p. rewrite Nat.add_succ_r. auto.
      * intros (j & x & p & Hn & Hp & ->). destruct j as [|j].
        -- left. injection Hn as <-. rewrite Ea in Hp. injection Hp as <-.
           rewrite Nat.add_0_r. reflexivity.
        -- right. exists j, x, p. rewrite Nat.add_succ_r. auto.
    + exists more. split; [exact Hmore|]. intros e. rewrite Hspec. split.
      * intros (j & x & p & Hn & Hp & ->). exists (S j), x, p.
        rewrite Nat.add_succ_r. auto.
      * intros (j & x & p & Hn & Hp & ->). destruct j as [|j].
        -- injection Hn as <-. congruence.
        -- exists j, x, p. rewrite Nat.add_succ_r. auto.
Qed.

Lemma inheritance_of_unknown lookup (klass_data : Klass) i0 ancestors :
  (forall a, In a ancestors -> lookup !! a = None) ->
  inheritance_of lookup klass_data i0 ancestors = Ok [].
Proof.
  revert i0. induction ancestors as [|a rest IH]; intros i0 H; [reflexivity|].
  cbn [inheritance_of]. rewrite (H a) by (left; reflexivity).
  apply IH. intros x Hx. apply H. right. exact Hx.
Qed.

Lemma inheritance_of_spec (klass_lookup : gmap string KlassModel) (k : Klass) :
  ((exists a, In a (klass_bases k) /\ is_Some (klass_lookup !! a)) ->
   is_Some (klass_lookup !! klass_path k)) ->
  exists own,
    inheritance_of klass_lookup k 0 (klass_bases k) = Ok own /\
    forall e,
      In e own <->
      exists i ancestor parent child,
        List.nth_error (klass_bases k) i = Some ancestor /\
        klass_lookup !! ancestor = Some parent /\
        klass_lookup !! klass_path k = Some child /\
        e = {| inh_parent := km_pk parent;
               inh_child := km_pk child; inh_order := i |}.
Proof.
  intros Hk. destruct (klass_lookup !! klass_path k) as [child|] eqn:Ec.
  - destruct (inheritance_of_known klass_lookup k child 0 (klass_bases k) Ec)
      as (own & Hown & Hs).
    exists own. split; [exact Hown|]. intros e. rewrite Hs. split.
    + intros (j & a & p & Hn & Hp & ->). exists j, a, p, child. auto.
    + intros (j & a & p & c & Hn & Hp & [= <-] & ->). exists j, a, p. auto.
  - exists []. split.
    + apply inheritance_of_unknown. intros a Ha.
      destruct (klass_lookup !! a) as [p|] eqn:Ea; [|reflexivity].
      destruct Hk as [c Hc];
        [exists a; split; [exact Ha|eauto]|congruence].
    + intros e. split; [intros []|].
      intros (i & a & p & c & _ & _ & Hc & _). discriminate Hc.
Qed.

(** The edges of one class are as many as its discovered bases, and
    they differ in their order. *)
Lemma inheritance_of_count lookup (klass_data : Klass) i0 ancestors own :
  inheritance_of lookup klass_data i0 ancestors = Ok own ->
  List.length own = List.length (List.filter (discovered lookup) ancestors) /\
  List.NoDup own /\
  forall e, In e own -> (i0 <= inh_order e)%nat.
Proof.
  revert i0 own. induction ancestors as [|a rest IH]; intros i0 own H;
    cbn [inheritance_of] in H.
  - injection H as <-. split; [reflexivity|]. split; [constructor|].
    intros e [].
  - cbn [List.filter]. unfold discovered at 1.
    destruct (lookup !! a) as [parent|] eqn:Ea.
    + rewrite bool_decide_eq_true_2 by eauto.
      unfold lookup_klass in H.
      destruct (lookup !! klass_path klass_data) as [child|];
        cbn [bind] in H; [|discriminate].
      destruct (inheritance_of lookup klass_data (S i0) rest) as [more|e0]
        eqn:Em; cbn [bind] in H; [|discriminate].
      injection H as <-. destruct (IH _ _ Em) as (Hl & Hn & Ho).
      split; [cbn [List.length]; f_equal; exact Hl|]. split.
      * constructor; [|exact Hn]. intros Hin. apply Ho in Hin.
        cbn [inh_order] in Hin. lia.
      * intros e [<-|Hin]; [cbn [inh_order]; lia|].
        apply Ho in Hin. lia.
    + rewrite bool_decide_eq_false_2 by (intros [x Hx]; discriminate Hx).
      destruct (IH _ _ H) as (Hl & Hn & Ho).
      split; [exact Hl|]. split; [exact Hn|].
      intros e Hin. apply Ho in Hin. lia.
Qed.

Lemma create_inheritance_total (klasses : list Klass)
    (klass_lookup : gmap string KlassModel) :
  (forall k, In k klasses -> is_Some (klass_lookup !! klass_path k)) ->
  exists edges, create_inheritance klasses klass_lookup = Ok edges.
Proof.
  induction klasses as [|k rest IH]; intros Hk; [exists []; reflexivity|].
  destruct IH as (more & Hmore).
  { intros k' Hin. apply Hk. right. exact Hin. }
  destruct (inheritance_of_spec klass_lookup k) as (own & Hown & _).
  { intros _. apply Hk. left. reflexivity. }
  exists (own ++ more)%list. cbn [create_inheritance].
  rewrite Hown. cbn [bind]. rewrite Hmore. reflexivity.
Qed.

(** [create_inheritance] makes the edges of the classes in the order of
    [klasses]: an edge is made for a base of a listed class when the
    base was discovered too, with the position of the base among the
    bases as its order, and a base that was not discovered is passed
    over without an error. There are as many edges as there are
    discovered bases, counted over the list; and when the listed classes
    have different paths and different rows, no edge is made twice: one
    edge exactly for each discovered base of each class. The class
    itself is looked up only when one of its bases is found. *)
Theorem create_inheritance_edges (klasses : list Klass)
    (klass_lookup : gmap string KlassModel) :
  (forall k,
     In k klasses ->
     (exists a, In a (klass_bases k) /\ is_Some (klass_lookup !! a)) ->
     is_Some (klass_lookup !! klass_path k)) ->
  exists edges,
    create_inheritance klasses klass_lookup = Ok edges /\
    (forall e,
       In e edges <->
       exists k i ancestor parent child,
         In k klasses /\
         List.nth_error (klass_bases k) i = Some ancestor /\
         klass_lookup !! ancestor = Some parent /\
         klass_lookup !! klass_path k = Some child /\
         e = {| inh_parent := km_pk parent; inh_child := km_pk child;
                inh_order := i |}) /\
    List.length edges
    = list_sum
        (List.map
           (fun k =>
              List.length
                (List.filter (discovered klass_lookup) (klass_bases k)))
           klasses) /\
    (List.NoDup (List.map klass_path klasses) ->
     (forall p q kp kq,
        klass_lookup !! p = Some kp -> klass_lookup !! q = Some kq ->
        km_pk kp = km_pk kq -> p = q) ->
     List.NoDup edges).
Proof.
  induction klasses as [|k rest IH]; intros Hk.
  - exists []. split; [reflexivity|]. split; [|split].
    + intros e. split; [intros []|].
      intros (k & i & a & p & c & [] & _).
    + reflexivity.
    + intros _ _. constructor.
  - destruct IH as (more & Hmore & Hspec & Hlen & Hnodup).
    { intros k' Hin. apply Hk. right. exact Hin. }
    destruct (inheritance_of_spec klass_lookup k) as (own & Hown & Hs).
    { apply Hk. left. reflexivity. }
    destruct (inheritance_of_count _ _ _ _ _ Hown) as (Hl & Hn & _).
    exists (own ++ more)%list. cbn [create_inheritance].
    rewrite Hown. cbn [bind]. rewrite Hmore. cbn [bind].
    split; [reflexivity|]. split; [|split].
    + intros e. rewrite in_app_iff, Hs, Hspec. split.
      * intros [(i & a & p & c & H)|(k' & i & a & p & c & Hin & H)].
        -- exists k, i, a, p, c. split; [left; reflexivity|exact H].
        -- exists k', i, a, p, c. split; [right; exact Hin|exact H].
      * intros (k' & i & a & p & c & [<-|Hin] & H).
        -- left. exists i, a, p, c. exact H.
        -- right. exists k', i, a, p, c. auto.
    + rewrite length_app, Hl, Hlen. reflexivity.
    + intros Hpaths Hinj. cbn [List.map] in Hpaths.
      apply List.NoDup_cons_iff in Hpaths as [Hfresh Hpaths].
      apply List.NoDup_app; [exact Hn|exact (Hnodup Hpaths Hinj)|].
      intros e Hown' Hmore'.
      apply Hs in Hown' as (i & a & p & c & _ & _ & Hc & ->).
      apply Hspec in Hmore' as (k' & i' & a' & p' & c' & Hin & _ & _ & Hc' & E).
      injection E as _ Hpk _.
      apply Hfresh. rewrite (Hinj _ _ _ _ Hc Hc' Hpk).
      apply List.in_map. exact Hin.
Qed.

Lemma create_inheritance_edges_witness :
  (forall k,
     In k [Fixture.A_record; Fixture.B_record] ->
     (exists a, In a (klass_bases k) /\
                is_Some (Fixture.klass_lookup !! a)) ->
     is_Some (Fixture.klass_lookup !! klass_path k)) /\
  exists edges,
    create_inheritance [Fixture.A_record; Fixture.B_record]
      Fixture.klass_lookup = Ok edges /\
    In {| inh_parent := 2; inh_child := 3; inh_order := 0 |} edges /\
    List.length edges = 1%nat.
Proof.
  assert (H : forall k,
            In k [Fixture.A_record; Fixture.B_record] ->
            (exists a, In a (klass_bases k) /\
                       is_Some (Fixture.klass_lookup !! a)) ->
            is_Some (Fixture.klass_lookup !! klass_path k)).
  { intros k [<-|[<-|[]]] _; vm_compute; eauto. }
  split; [exact H|].
  destruct (create_inheritance_edges _ _ H) as (edges & He & Hs & Hl & _).
  exists edges. split; [exact He|]. split; [|exact Hl].
  apply Hs.
  exists Fixture.B_record, 0%nat, "shop.views.A", Fixture.klass_A,
    Fixture.klass_B.
  split; [right; left; reflexivity|]. repeat split; reflexivity.
Defined.

(** ** The order of the records *)

(** A visit yields its own record, if any, and then what the walk of
    the members yields; the members are walked only behind a Module or
    Klass record. *)
Lemma _process_member_with_yielded rt subs member name root parent :
  yielded (_process_member_with rt subs member name root parent)
  = yielded (_process_member_with rt gen_return member name root parent)
  \/
  exists own,
    yielded (_process_member_with rt gen_return member name root parent)
    = [own] /\
    match own with IsModule _ | IsKlass _ => True | _ => False end /\
    yielded (_process_member_with rt subs member name root parent)
    = own :: yielded subs.
Proof.
  unfold _process_member_with.
  destruct (inspect.isbuiltin member); [left; reflexivity|].
  destruct (inspect.ismodule (Some member)).
  { unfold _handle_module.
    destruct (py_name member); gen_simpl; [|left; reflexivity].
    destruct (negb _); [left; reflexivity|].
    destruct (get_filename rt member); gen_simpl; [|left; reflexivity].
    right. eexists. split; [reflexivity|]. split; [exact I|reflexivity]. }
  destruct (inspect.isclass (Some member) && inspect.ismodule parent);
    [|left; reflexivity].
  destruct parent as [p|]; [|left; reflexivity].
  unfold _handle_class_on_module.
  repeat match goal with
         | |- context [gen_try ?r _] =>
             destruct r; gen_simpl; [|left; reflexivity]
         | |- context [if negb ?b then _ else _] =>
             destruct b; gen_simpl; [|left; reflexivity]
         end.
  right. eexists. split; [reflexivity|]. split; [exact I|reflexivity].
Qed.

(** A visit alone yields at most one record. *)
Lemma node_single rt member name root parent :
  yielded (_process_member_with rt gen_return member name root parent) = []
  \/ exists own,
       yielded (_process_member_with rt gen_return member name root parent)
       = [own].
Proof.
  unfold _process_member_with.
  destruct (inspect.isbuiltin member); [left; reflexivity|].
  destruct (inspect.ismodule (Some member)).
  { unfold _handle_module.
    destruct (py_name member); gen_simpl; [|left; reflexivity].
    destruct (negb _); [left; reflexivity|].
    destruct (get_filename rt member); gen_simpl; [|left; reflexivity].
    right. eexists. reflexivity. }
  destruct (inspect.isclass (Some member) && inspect.ismodule parent).
  { destruct parent as [p|]; [|left; reflexivity].
    unfold _handle_class_on_module.
    repeat match goal with
           | |- context [gen_try ?r _] =>
               destruct r; gen_simpl; [|left; reflexivity]
           | |- context [if negb ?b then _ else _] =>
               destruct b; gen_simpl; [|left; reflexivity]
           end.
    right. eexists. reflexivity. }
  destruct (inspect.isroutine member).
  { unfold _handle_function_or_method.
    destruct (ok_to_add_method _ _) as [[|]|]; gen_simpl;
      try (left; reflexivity).
    destruct (get_code _) as [[[code arguments] start]|]; gen_simpl;
      [|left; reflexivity].
    destruct parent as [p|]; gen_simpl; [|left; reflexivity].
    destruct (_full_path p); gen_simpl; [|left; reflexivity].
    right. eexists. reflexivity. }
  destruct (inspect.isclass parent); [|left; reflexivity].
  unfold _handle_class_attribute.
  destruct (replace_lazy member); gen_simpl; [|left; reflexivity].
  destruct (negb _); [left; reflexivity|].
  destruct (get_value _); gen_simpl; [|left; reflexivity].
  destruct (get_line_number _); gen_simpl; [|left; reflexivity].
  destruct parent as [p|]; gen_simpl; [|left; reflexivity].
  destruct (_full_path p); gen_simpl; [|left; reflexivity].
  right. eexists. reflexivity.
Qed.

Lemma covered_incl seen seen' members :
  incl seen seen' -> covered seen members -> covered seen' members.
Proof.
  revert seen seen'. induction members as [|[m|k|m|a] rest IH];
    intros seen seen' Hi; simpl; [tauto|apply IH; exact Hi| | |].
  - apply IH. intros x [<-|Hx]; [left; reflexivity|right; apply Hi; exact Hx].
  - intros [H1 H2]. split; [apply Hi; exact H1|eapply IH; eassumption].
  - intros [H1 H2]. split; [apply Hi; exact H1|eapply IH; eassumption].
Qed.

Lemma covered_app seen l1 l2 :
  covered seen l1 -> covered seen l2 -> covered seen (l1 ++ l2)%list.
Proof.
  revert seen. induction l1 as [|[m|k|m|a] rest IH]; intros seen; simpl;
    [tauto|apply IH| | |].
  - intros H1 H2. apply IH; [exact H1|].
    eapply covered_incl; [|exact H2]. apply incl_tl, incl_refl.
  - intros [H0 H1] H2. split; [exact H0|apply IH; assumption].
  - intros [H0 H1] H2. split; [exact H0|apply IH; assumption].
Qed.

Lemma gen_seq_covered seen g1 g2 :
  covered seen (yielded g1) -> covered seen (yielded g2) ->
  covered seen (yielded (gen_seq g1 g2)).
Proof.
  intros H1 H2. unfold gen_seq. destruct (raised g1); [exact H1|].
  simpl. apply covered_app; assumption.
Qed.

Lemma walk_covered rt root :
  forall member name parent seen,
    (forall p path,
       parent = Some p -> inspect.isclass parent = true ->
       _full_path p = Ok path -> In path seen) ->
    covered seen (yielded (_process_member rt member name root parent)).
Proof.
  intros member. induction member as [m0 IH] using PyObject_members_ind.
  intros name parent seen Hparent. rewrite _process_member_unfold.
  destruct (_process_member_with_yielded rt
              (_process_submembers rt m0 root (getmembers m0))
              m0 name root parent) as [E|(own & Eown & Hown & E)];
    rewrite E; clear E.
  - destruct (node_single rt m0 name root parent) as [E|[own E]];
      [rewrite E; exact I|].
    assert (He : emits rt m0 name root parent own).
    { apply node_emits. rewrite E. left. reflexivity. }
    rewrite E. destruct He; simpl; try exact I.
    + split; [|exact I]. subst parent. eapply Hparent; [reflexivity| |eassumption].
      match goal with
      | H : ok_to_add_method _ _ = Ok true |- _ =>
          apply ok_to_add_method_true in H as (? & ? & ? & ? & ? & _ & _ & Hc & _)
      end. exact Hc.
    + split; [|exact I]. subst parent. eapply Hparent; eauto.
  - assert (He : emits rt m0 name root parent own).
    { apply node_emits. rewrite Eown. left. reflexivity. }
    assert (Hsubs : forall seen',
              (forall path, inspect.isclass (Some m0) = true ->
                            _full_path m0 = Ok path -> In path seen') ->
              covered seen'
                (yielded (_process_submembers rt m0 root (getmembers m0)))).
    { intros seen' Hs.
      assert (Hall : forall n s, In (n, s) (getmembers m0) ->
                covered seen'
                  (yielded (_process_member rt s n root (Some m0)))).
      { intros n s Hin. apply (IH n s Hin).
        intros p path [= <-] Hc Hp. apply Hs; assumption. }
      revert Hall. generalize (getmembers m0) as members.
      induction members as [|[n s] rest IHl]; intros Hall; [exact I|].
      cbn [_process_submembers]. apply gen_seq_covered.
      - apply Hall. left. reflexivity.
      - apply IHl. intros n' s' Hin. apply Hall. right. exact Hin. }
    destruct He; try destruct Hown; simpl.
    + apply Hsubs. intros path Hc _.
      match goal with
      | H : inspect.ismodule (Some m0) = true |- _ =>
          clear - H Hc; destruct m0; discriminate
      end.
    + apply Hsubs. intros path' _ Hp.
      match goal with
      | H : _full_path m0 = Ok ?q |- _ =>
          rewrite H in Hp; injection Hp as <-
      end.
      left. reflexivity.
Qed.

Lemma process_each_covered rt modules :
  covered [] (yielded (process_each rt modules)).
Proof.
  induction modules as [|module rest IH]; [exact I|].
  cbn [process_each]. apply gen_seq_covered; [|exact IH].
  destruct (py_name module) as [root|e]; gen_simpl; [|exact I].
  apply walk_covered. intros p path H. discriminate H.
Qed.

Lemma covered_inv seen before rec after :
  covered seen (before ++ rec :: after)%list ->
  forall path,
    match rec with
    | IsMethod m => method_klass_path m = path
    | IsKlassAttribute a => attr_klass_path a = path
    | _ => False
    end ->
    In path seen \/ exists k, In (IsKlass k) before /\ klass_path k = path.
Proof.
  revert seen. induction before as [|[m|k|m|a] rest IH]; intros seen; simpl.
  - destruct rec as [m|k|m|a]; intros H path Hp; try contradiction;
      subst path; left; tauto.
  - intros H path Hp. destruct (IH seen H path Hp) as [Hs|(k & Hk & E)];
      [left; exact Hs|right; exists k; auto].
  - intros H path Hp.
    destruct (IH _ H path Hp) as [[<-|Hs]|(k' & Hk & E)].
    + right. exists k. auto.
    + left. exact Hs.
    + right. exists k'. auto.
  - intros [_ H] path Hp. destruct (IH seen H path Hp) as [Hs|(k & Hk & E)];
      [left; exact Hs|right; exists k; auto].
  - intros [_ H] path Hp. destruct (IH seen H path Hp) as [Hs|(k & Hk & E)];
      [left; exact Hs|right; exists k; auto].
Qed.

(** In the stream of a run, every Method record and every KlassAttribute
    candidate comes after the Klass record of the class it names. *)
Theorem klass_record_comes_first (rt : Runtime) (module_paths : list string)
    (before after : list Member) (rec : Member) (path : string) :
  yielded (process_modules rt module_paths) = (before ++ rec :: after)%list ->
  match rec with
  | IsMethod m => method_klass_path m = path
  | IsKlassAttribute a => attr_klass_path a = path
  | _ => False
  end ->
  exists k, In (IsKlass k) before /\ klass_path k = path.
Proof.
  intros Hy Hrec.
  pose proof (process_each_covered rt (import_all rt module_paths)) as Hc.
  fold (process_modules rt module_paths) in Hc. rewrite Hy in Hc.
  destruct (covered_inv [] before rec after Hc path Hrec) as [[]|H].
  exact H.
Qed.

Lemma klass_record_comes_first_witness :
  yielded (process_modules Fixture.rt ["shop.views"])
  = ([IsModule {| module_name := "shop.views"; module_docstring := "";
                  module_filename := "/shop/views.py" |};
      IsKlass Fixture.A_record]
     ++ IsMethod Fixture.get_record
     :: [IsKlassAttribute Fixture.x_record; IsKlass Fixture.B_record;
         IsKlassAttribute
           {| attr_name := "x"; attr_value := "1"; attr_line_number := -1;
              attr_klass_path := "shop.views.B" |}])%list /\
  exists k,
    In (IsKlass k)
      [IsModule {| module_name := "shop.views"; module_docstring := "";
                   module_filename := "/shop/views.py" |};
       IsKlass Fixture.A_record] /\
    klass_path k = "shop.views.A".
Proof.
  assert (H : yielded (process_modules Fixture.rt ["shop.views"])
              = ([IsModule {| module_name := "shop.views";
                              module_docstring := "";
                              module_filename := "/shop/views.py" |};
                  IsKlass Fixture.A_record]
                 ++ IsMethod Fixture.get_record
                 :: [IsKlassAttribute Fixture.x_record;
                     IsKlass Fixture.B_record;
                     IsKlassAttribute
                       {| attr_name := "x"; attr_value := "1";
                          attr_line_number := -1;
                          attr_klass_path := "shop.views.B" |}])%list)
    by (vm_compute; reflexivity).
  split; [exact H|].
  exact (klass_record_comes_first Fixture.rt ["shop.views"] _ _ _ _ H eq_refl).
Defined.

(** ** The import of a run *)

Lemma add_attribute_entries key0 entry0 table key entries x :
  In (key, entries) (add_attribute key0 entry0 table) -> In x entries ->
  x = entry0 \/ exists entries', In (key, entries') table /\ In x entries'.
Proof.
  induction table as [|[k es] rest IH]; simpl.
  - intros [[= <- <-]|[]] [<-|[]]. left. reflexivity.
  - destruct (bool_decide (k = key0)).
    + intros [[= <- <-]|Hin] Hx.
      * apply in_app_iff in Hx as [Hx|[<-|[]]]; [|left; reflexivity].
        right. exists es. split; [left; reflexivity|exact Hx].
      * right. exists entries. split; [right; exact Hin|exact Hx].
    + intros [[= <- <-]|Hin] Hx.
      * right. exists es. split; [left; reflexivity|exact Hx].
      * destruct (IH Hin Hx) as [->|(es' & H1 & H2)]; [left; reflexivity|].
        right. exists es'. split; [right; exact H1|exact H2].
Qed.

Lemma consume_covered st seen member :
  (forall k, In k (st_klasses st) ->
             is_Some (st_klass_models st !! klass_path k)) ->
  (forall key entries path line,
     In (key, entries) (st_attributes st) -> In (path, line) entries ->
     is_Some (st_klass_models st !! path)) ->
  (forall p, In p seen -> is_Some (st_klass_models st !! p)) ->
  match member with
  | IsMethod m => In (method_klass_path m) seen
  | IsKlassAttribute a => In (attr_klass_path a) seen
  | _ => True
  end ->
  match consume st member with
  | Ok st' =>
      (forall k, In k (st_klasses st') ->
                 is_Some (st_klass_models st' !! klass_path k)) /\
      (forall key entries path line,
         In (key, entries) (st_attributes st') -> In (path, line) entries ->
         is_Some (st_klass_models st' !! path)) /\
      (forall p,
         In p match member with
              | IsKlass k => klass_path k :: seen
              | _ => seen
              end ->
         is_Some (st_klass_models st' !! p))
  | Raise e =>
      (exists k, member = IsKlass k /\ e = KeyError (klass_module k)) \/
      e = IntegrityError
  end.
Proof.
  intros Hk Ha Hs Hm. destruct member as [m|k|m|a]; cbn [consume].
  - unfold create_module. cbn [mm_name].
    destruct (st_module_models st !! module_name m); cbn [bind];
      [right; reflexivity|].
    cbn [st_klasses st_attributes st_klass_models]. auto.
  - destruct (st_module_models st !! klass_module k) as [module|]; [|eauto].
    unfold create_klass.
    destruct (st_klass_models st !! klass_path k); cbn [bind];
      [right; reflexivity|].
    cbn [st_klasses st_attributes st_klass_models].
    assert (Hins : forall p, is_Some (st_klass_models st !! p) ->
              is_Some (<[klass_path k := {| km_pk := db_next_pk (st_db st);
                                            km_module := mm_pk module;
                                            km_name := klass_name k;
                                            km_docstring := klass_docstring k;
                                            km_line_number := klass_line_number k;
                                            km_import_path :=
                                              klass_best_import_path k |}]>
                         (st_klass_models st) !! p)).
    { intros p Hp. rewrite lookup_insert_is_Some. 
      destruct (decide (klass_path k = p)); auto. }
    split; [|split].
    + intros k' Hin. apply in_app_iff in Hin as [Hin|[<-|[]]].
      * apply Hins, Hk, Hin.
      * rewrite lookup_insert_eq. eauto.
    + intros key es path line H1 H2. eapply Hins, Ha; eassumption.
    + intros p [<-|Hp]; [rewrite lookup_insert_eq; eauto|apply Hins, Hs, Hp].
  - unfold lookup_klass. destruct (Hs _ Hm) as [klass Hl]. rewrite Hl.
    cbn [bind st_klasses st_attributes st_klass_models]. auto.
  - cbn [st_klasses st_attributes st_klass_models].
    split; [exact Hk|]. split; [|exact Hs].
    intros key es path line H1 H2.
    destruct (add_attribute_entries _ _ _ _ _ _ H1 H2)
      as [[= -> ->]|(es' & H3 & H4)].
    + apply Hs. exact Hm.
    + eapply Ha; eassumption.
Qed.

Lemma consume_all_covered members :
  forall st seen,
    (forall k, In k (st_klasses st) ->
               is_Some (st_klass_models st !! klass_path k)) ->
    (forall key entries path line,
       In (key, entries) (st_attributes st) -> In (path, line) entries ->
       is_Some (st_klass_models st !! path)) ->
    (forall p, In p seen -> is_Some (st_klass_models st !! p)) ->
    covered seen members ->
    forall st' err,
      consume_all st members = (st', err) ->
      (forall k, In k (st_klasses st') ->
                 is_Some (st_klass_models st' !! klass_path k)) /\
      (forall key entries path line,
         In (key, entries) (st_attributes st') -> In (path, line) entries ->
         is_Some (st_klass_models st' !! path)) /\
      (forall e, err = Some e ->
                 (exists k, In (IsKlass k) members /\
                            e = KeyError (klass_module k)) \/
                 e = IntegrityError).
Proof.
  induction members as [|member rest IH]; intros st seen Hk Ha Hs Hc st' err.
  - cbn [consume_all]. intros [= <- <-]. split; [exact Hk|].
    split; [exact Ha|]. intros e He. discriminate He.
  - cbn [consume_all].
    assert (Hm : match member with
                 | IsMethod m => In (method_klass_path m) seen
                 | IsKlassAttribute a => In (attr_klass_path a) seen
                 | _ => True
                 end).
    { destruct member; simpl in Hc; tauto. }
    pose proof (consume_covered st seen member Hk Ha Hs Hm) as Hstep.
    destruct (consume st member) as [st1|e1].
    + destruct Hstep as (Hk1 & Ha1 & Hs1). intros Hrest.
      assert (Hc1 : covered match member with
                            | IsKlass k => klass_path k :: seen
                            | _ => seen
                            end rest).
      { destruct member; simpl in Hc; tauto. }
      destruct (IH st1 _ Hk1 Ha1 Hs1 Hc1 st' err Hrest) as (R1 & R2 & R3).
      split; [exact R1|]. split; [exact R2|].
      intros e He. destruct (R3 e He) as [(k & Hin & E)|E];
        [|right; exact E].
      left. exists k. split; [right; exact Hin|exact E].
    + intros [= <- <-]. split; [exact Hk|]. split; [exact Ha|].
      intros e [= <-]. destruct Hstep as [(k & -> & ->)| ->];
        [|right; reflexivity].
      left. exists k. split; [left; reflexivity|reflexivity].
Qed.

(** The database refuses a row only for a name, or a path, that a row of
    the run has already. *)
Lemma consume_integrity st member :
  consume st member = Raise IntegrityError ->
  match member with
  | IsModule m => is_Some (st_module_models st !! module_name m)
  | IsKlass k => is_Some (st_klass_models st !! klass_path k)
  | _ => False
  end.
Proof.
  destruct member as [m|k|m|a]; cbn [consume].
  - unfold create_module. cbn [mm_name].
    destruct (st_module_models st !! module_name m); [eauto|discriminate].
  - destruct (st_module_models st !! klass_module k); [|discriminate].
    unfold create_klass.
    destruct (st_klass_models st !! klass_path k); [eauto|discriminate].
  - unfold lookup_klass.
    destruct (st_klass_models st !! method_klass_path m); discriminate.
  - discriminate.
Qed.

Lemma consume_keys st member st' :
  consume st member = Ok st' ->
  (forall name,
     is_Some (st_module_models st' !! name) ->
     is_Some (st_module_models st !! name) \/
     exists m, member = IsModule m /\ module_name m = name) /\
  (forall path,
     is_Some (st_klass_models st' !! path) ->
     is_Some (st_klass_models st !! path) \/
     exists k, member = IsKlass k /\ klass_path k = path).
Proof.
  destruct member as [m|k|m|a]; cbn [consume].
  - unfold create_module. cbn [mm_name].
    destruct (st_module_models st !! module_name m); [discriminate|].
    cbn [bind]. intros [= <-]. cbn [st_module_models st_klass_models].
    split; [|auto]. intros name H. apply lookup_insert_is_Some in H.
    destruct H as [<-|[_ H]]; [right; eauto|left; exact H].
  - destruct (st_module_models st !! klass_module k); [|discriminate].
    unfold create_klass.
    destruct (st_klass_models st !! klass_path k); [discriminate|].
    cbn [bind]. intros [= <-]. cbn [st_module_models st_klass_models].
    split; [auto|]. intros path H. apply lookup_insert_is_Some in H.
    destruct H as [<-|[_ H]]; [right; eauto|left; exact H].
  - unfold lookup_klass.
    destruct (st_klass_models st !! method_klass_path m); [|discriminate].
    cbn [bind]. intros [= <-]. cbn [st_module_models st_klass_models]. auto.
  - intros [= <-]. cbn [st_module_models st_klass_models]. auto.
Qed.

Lemma consume_all_repeats members :
  forall st done st',
    (forall name, is_Some (st_module_models st !! name) ->
                  exists m, In (IsModule m) done /\ module_name m = name) ->
    (forall path, is_Some (st_klass_models st !! path) ->
                  exists k, In (IsKlass k) done /\ klass_path k = path) ->
    consume_all st members = (st', Some IntegrityError) ->
    exists before rec after,
      members = (before ++ rec :: after)%list /\
      repeats (done ++ before) rec.
Proof.
  induction members as [|member rest IH]; intros st done st' Hm Hk;
    cbn [consume_all]; [discriminate|].
  destruct (consume st member) as [st1|e1] eqn:E.
  - intros Hrest. destruct (consume_keys _ _ _ E) as [Km Kk].
    destruct (IH st1 (done ++ [member])%list st') as (b & rec & a & -> & Hr).
    + intros name H. apply Km in H as [H|(m & -> & <-)].
      * destruct (Hm name H) as (m & Hin & Hn). exists m.
        split; [apply in_app_iff; left; exact Hin|exact Hn].
      * exists m. split; [apply in_app_iff; right; left|]; reflexivity.
    + intros path H. apply Kk in H as [H|(k & -> & <-)].
      * destruct (Hk path H) as (k & Hin & Hn). exists k.
        split; [apply in_app_iff; left; exact Hin|exact Hn].
      * exists k. split; [apply in_app_iff; right; left|]; reflexivity.
    + exact Hrest.
    + exists (member :: b), rec, a. split; [reflexivity|].
      rewrite <- app_assoc in Hr. exact Hr.
  - intros [= <- ->]. apply consume_integrity in E.
    exists [], member, rest. split; [reflexivity|]. rewrite app_nil_r.
    destruct member as [m|k|m|a]; cbn [repeats]; auto.
Qed.

Lemma create_attributes_total edges klass_lookup (attributes : AttributeTable) :
  (forall key entries, In (key, entries) attributes ->
                       all_known klass_lookup entries) ->
  exists rows, create_attributes edges klass_lookup attributes = Ok rows.
Proof.
  induction attributes as [|[[name value] klasses] rest IH]; intros H.
  - exists []. reflexivity.
  - destruct (group_spec edges klass_lookup name value klasses)
      as (D & rem & models & HD & Hrem & Hm & _).
    { eapply H. left. reflexivity. }
    destruct IH as (more & Hmore).
    { intros key es Hin. eapply H. right. exact Hin. }
    exists (models ++ more)%list. cbn [create_attributes].
    rewrite HD. cbn [bind]. rewrite Hrem. cbn [bind]. rewrite Hm.
    cbn [bind]. rewrite Hmore. reflexivity.
Qed.

(** The import of a run looks up no class that is missing: the lookups
    in [klass_models] for methods, inheritance edges and attributes all
    succeed. It ends with an exception only when the walk raised one,
    when a Klass record names a module for which the import made no row
    ([KeyError] on [module_models]), or when the stream repeats the name
    of a module or the path of a class and the database refuses the
    second row. *)
Theorem import_of_a_run_finds_every_class (rt : Runtime)
    (module_paths : list string) (db : DB) (e : Exn) :
  snd (import_project_version db (process_modules rt module_paths)) = Some e ->
  raised (process_modules rt module_paths) = Some e \/
  (exists k,
     In (IsKlass k) (yielded (process_modules rt module_paths)) /\
     e = KeyError (klass_module k)) \/
  (e = IntegrityError /\
   exists before rec after,
     yielded (process_modules rt module_paths)
     = (before ++ rec :: after)%list /\
     repeats before rec).
Proof.
  set (g := process_modules rt module_paths).
  unfold import_project_version.
  destruct (consume_all (initial_state db) (yielded g)) as [st err] eqn:Ec.
  destruct (consume_all_covered (yielded g) (initial_state db) [])
    with (st' := st) (err := err) as (Hk & Ha & He).
  { intros k []. }
  { intros key es path line []. }
  { intros p []. }
  { apply process_each_covered. }
  { exact Ec. }
  destruct err as [e0|].
  - cbn [snd]. intros [= <-]. right.
    destruct (He e0 eq_refl) as [H| ->]; [left; exact H|].
    right. split; [reflexivity|].
    destruct (consume_all_repeats (yielded g) (initial_state db) [] st)
      as (b & rec & a & Hy & Hr).
    { intros name [x Hx]. cbn [initial_state st_module_models] in Hx.
      rewrite lookup_empty in Hx. discriminate Hx. }
    { intros path [x Hx]. cbn [initial_state st_klass_models] in Hx.
      rewrite lookup_empty in Hx. discriminate Hx. }
    { exact Ec. }
    exists b, rec, a. split; [exact Hy|exact Hr].
  - destruct (raised g) as [e0|]; [cbn [snd]; intros [= <-]; left; reflexivity|].
    destruct (create_inheritance_total (st_klasses st) (st_klass_models st))
      as (inh & Hinh).
    { intros k Hin. apply Hk. exact Hin. }
    rewrite Hinh.
    destruct (create_attributes_total
                (db_inheritance (st_db st) ++ inh)%list
                (st_klass_models st) (st_attributes st)) as (rows & Hrows).
    { intros key es Hin path line Hp. eapply Ha; eassumption. }
    cbn [db_inheritance]. rewrite Hrows. cbn [snd]. discriminate.
Qed.

Lemma import_of_a_run_finds_every_class_witness :
  snd (import_project_version empty_db
         (process_modules Fixture.twice ["shop"]))
  = Some IntegrityError /\
  (raised (process_modules Fixture.twice ["shop"]) = Some IntegrityError \/
   (exists k,
      In (IsKlass k) (yielded (process_modules Fixture.twice ["shop"])) /\
      IntegrityError = KeyError (klass_module k)) \/
   (IntegrityError = IntegrityError /\
    exists before rec after,
      yielded (process_modules Fixture.twice ["shop"])
      = (before ++ rec :: after)%list /\
      repeats before rec)).
Proof.
  assert (H : snd (import_project_version empty_db
                     (process_modules Fixture.twice ["shop"]))
              = Some IntegrityError)
    by (vm_compute; reflexivity).
  split; [exact H|].
  exact (import_of_a_run_finds_every_class _ _ _ _ H).
Defined.

(** ** Grouping the candidates *)

Lemma table_find_add key0 entry0 (table : AttributeTable) key :
  table_find key (add_attribute key0 entry0 table)
  = if bool_decide (key = key0)
    then (table_find key0 table ++ [entry0])%list
    else table_find key table.
Proof.
  induction table as [|[k es] rest IH]; cbn [add_attribute table_find].
  - destruct (decide (key = key0)) as [->|N].
    + rewrite !bool_decide_eq_true_2 by reflexivity. reflexivity.
    + rewrite !bool_decide_eq_false_2 by congruence. reflexivity.
  - destruct (decide (k = key0)) as [->|Nk].
    + rewrite !(bool_decide_eq_true_2 (key0 = key0)) by reflexivity.
      cbn [table_find]. destruct (decide (key = key0)) as [->|N].
      * rewrite !bool_decide_eq_true_2 by reflexivity. reflexivity.
      * rewrite !bool_decide_eq_false_2 by congruence. reflexivity.
    + rewrite (bool_decide_eq_false_2 (k = key0)) by exact Nk.
      cbn [table_find]. rewrite IH.
      destruct (decide (k = key)) as [->|N].
      * rewrite (bool_decide_eq_true_2 (key = key)) by reflexivity.
        rewrite bool_decide_eq_false_2 by exact Nk. reflexivity.
      * rewrite (bool_decide_eq_false_2 (k = key)) by exact N. reflexivity.
Qed.

Lemma add_attribute_keys key entry (table : AttributeTable) :
  (In key (List.map fst table) /\
   List.map fst (add_attribute key entry table) = List.map fst table) \/
  (~ In key (List.map fst table) /\
   List.map fst (add_attribute key entry table)
   = (List.map fst table ++ [key])%list).
Proof.
  induction table as [|[k es] rest IH]; cbn [add_attribute].
  - right. split; [intros []|reflexivity].
  - destruct (decide (k = key)) as [->|N].
    + rewrite bool_decide_eq_true_2 by reflexivity.
      left. split; [left; reflexivity|reflexivity].
    + rewrite bool_decide_eq_false_2 by exact N. cbn [List.map fst].
      destruct IH as [[Hin E]|[Hn E]]; rewrite E.
      * left. split; [right; exact Hin|reflexivity].
      * right. split; [|reflexivity]. intros [H|H]; [exact (N H)|exact (Hn H)].
Qed.

Lemma add_attribute_nodup key entry (table : AttributeTable) :
  List.NoDup (List.map fst table) ->
  List.NoDup (List.map fst (add_attribute key entry table)).
Proof.
  intros H. destruct (add_attribute_keys key entry table) as [[_ E]|[Hn E]];
    rewrite E; [exact H|].
  apply NoDup_rev in H. rewrite <- (rev_involutive (_ ++ [key])%list).
  apply NoDup_rev. rewrite rev_app_distr. simpl.
  constructor; [|exact H]. rewrite <- in_rev. exact Hn.
Qed.

Lemma add_attribute_nonempty key0 entry0 (table : AttributeTable) :
  (forall key entries, In (key, entries) table -> entries <> []) ->
  forall key entries,
    In (key, entries) (add_attribute key0 entry0 table) -> entries <> [].
Proof.
  induction table as [|[k es] rest IH]; intros H key entries;
    cbn [add_attribute].
  - intros [[= <- <-]|[]]. discriminate.
  - destruct (bool_decide (k = key0)).
    + intros [[= <- <-]|Hin].
      * destruct es; discriminate.
      * apply (H key). right. exact Hin.
    + intros [[= <- <-]|Hin].
      * apply (H k). left. reflexivity.
      * apply (IH (fun key es Hx => H key es (or_intror Hx)) key). exact Hin.
Qed.

Lemma table_find_in (table : AttributeTable) key entries :
  List.NoDup (List.map fst table) ->
  In (key, entries) table -> table_find key table = entries.
Proof.
  induction table as [|[k es] rest IH]; [intros _ []|].
  cbn [List.map fst table_find]. intros Hnd [[= -> ->]|Hin].
  - rewrite bool_decide_eq_true_2 by reflexivity. reflexivity.
  - apply NoDup_cons_iff in Hnd as [Hk Hnd].
    rewrite bool_decide_eq_false_2.
    + apply IH; assumption.
    + intros ->. apply Hk. apply in_map_iff. exists (key, entries). auto.
Qed.

Lemma table_find_found (table : AttributeTable) key :
  table_find key table <> [] -> In (key, table_find key table) table.
Proof.
  induction table as [|[k es] rest IH]; cbn [table_find]; [congruence|].
  destruct (decide (k = key)) as [->|N].
  - rewrite bool_decide_eq_true_2 by reflexivity. intros _. left. reflexivity.
  - rewrite bool_decide_eq_false_2 by exact N. intros H. right. exact (IH H).
Qed.

Lemma consume_all_table members :
  forall st st',
    consume_all st members = (st', None) ->
    List.NoDup (List.map fst (st_attributes st)) ->
    (forall key entries, In (key, entries) (st_attributes st) ->
                         entries <> []) ->
    List.NoDup (List.map fst (st_attributes st')) /\
    (forall key entries, In (key, entries) (st_attributes st') ->
                         entries <> []) /\
    forall key,
      table_find key (st_attributes st')
      = (table_find key (st_attributes st) ++ candidates_for key members)%list.
Proof.
  induction members as [|member rest IH]; intros st st'; cbn [consume_all].
  - intros [= <-] Hnd Hne. split; [exact Hnd|]. split; [exact Hne|].
    intros key. cbn [candidates_for]. rewrite app_nil_r. reflexivity.
  - destruct (consume st member) as [st1|e] eqn:E; [|discriminate].
    intros Hrest Hnd Hne.
    assert (H1 : List.NoDup (List.map fst (st_attributes st1)) /\
                 (forall key entries, In (key, entries) (st_attributes st1) ->
                                      entries <> []) /\
                 forall key,
                   table_find key (st_attributes st1)
                   = (table_find key (st_attributes st)
                      ++ candidates_for key [member])%list).
    { unfold consume, create_module, create_klass in E.
      destruct member as [m|k|m|a].
      - cbn [mm_name] in E.
        destruct (st_module_models st !! module_name m); [discriminate|].
        cbn [bind] in E.
        injection E as <-. cbn [st_attributes candidates_for].
        split; [exact Hnd|]. split; [exact Hne|]. intros key.
        rewrite app_nil_r. reflexivity.
      - destruct (st_module_models st !! klass_module k); [|discriminate].
        destruct (st_klass_models st !! klass_path k); [discriminate|].
        cbn [bind] in E.
        injection E as <-. cbn [st_attributes candidates_for].
        split; [exact Hnd|]. split; [exact Hne|]. intros key.
        rewrite app_nil_r. reflexivity.
      - destruct (lookup_klass _ _); [|discriminate]. cbn [bind] in E.
        injection E as <-. cbn [st_attributes candidates_for].
        split; [exact Hnd|]. split; [exact Hne|]. intros key.
        rewrite app_nil_r. reflexivity.
      - injection E as <-. cbn [st_attributes candidates_for].
        split; [apply add_attribute_nodup; exact Hnd|].
        split; [apply add_attribute_nonempty; exact Hne|].
        intros key. rewrite table_find_add.
        destruct (decide (key = (attr_name a, attr_value a))) as [->|N].
        + rewrite !bool_decide_eq_true_2 by reflexivity. reflexivity.
        + rewrite (bool_decide_eq_false_2 (key = _)) by exact N.
          rewrite bool_decide_eq_false_2 by congruence.
          rewrite app_nil_r. reflexivity. }
    destruct H1 as (Hnd1 & Hne1 & Hf1).
    destruct (IH st1 st' Hrest Hnd1 Hne1) as (Hnd' & Hne' & Hf').
    split; [exact Hnd'|]. split; [exact Hne'|].
    intros key. rewrite Hf', Hf1, <- app_assoc. f_equal.
    destruct member as [m|k|m|a]; try reflexivity.
    cbn [candidates_for]. destruct (bool_decide _); reflexivity.
Qed.

(** The loop of [import_project_version] groups the candidates by
    (name, value): when it has gone through the whole stream, the
    dictionary [attributes] has one entry for each (name, value) that
    has a candidate, and the entry holds the class and line of each of
    these candidates, in the order of the stream. *)
Theorem attributes_are_grouped_by_name_and_value (db : DB)
    (members : list Member) (st : ImportState) :
  consume_all (initial_state db) members = (st, None) ->
  List.NoDup (List.map fst (st_attributes st)) /\
  forall name value klasses,
    In ((name, value), klasses) (st_attributes st) <->
    klasses <> [] /\ klasses = candidates_for (name, value) members.
Proof.
  intros H.
  destruct (consume_all_table members (initial_state db) st H)
    as (Hnd & Hne & Hf).
  { constructor. }
  { intros key es []. }
  split; [exact Hnd|]. intros name value klasses.
  specialize (Hf (name, value)). cbn [initial_state st_attributes table_find app]
    in Hf.
  split.
  - intros Hin. split; [exact (Hne _ _ Hin)|].
    rewrite <- Hf. symmetry. apply table_find_in; assumption.
  - intros [Hk ->]. rewrite <- Hf. apply table_find_found.
    rewrite Hf. exact Hk.
Qed.

Lemma attributes_are_grouped_by_name_and_value_witness :
  exists st,
    consume_all (initial_state empty_db)
      (yielded (process_modules Fixture.rt ["shop.views"])) = (st, None) /\
    In (("x", "1"), [("shop.views.A", -1); ("shop.views.B", -1)])
      (st_attributes st).
Proof.
  destruct (consume_all (initial_state empty_db)
              (yielded (process_modules Fixture.rt ["shop.views"])))
    as [st err] eqn:E.
  assert (Herr : err = None).
  { apply (f_equal snd) in E. vm_compute in E. congruence. }
  subst err. exists st. split; [reflexivity|].
  apply (proj2 (attributes_are_grouped_by_name_and_value _ _ _ E)).
  split; [discriminate|]. vm_compute. reflexivity.
Defined.

(** ** Staying under the root *)

Lemma walk_under_root rt root :
  forall member name parent,
    (forall p parent_name,
       parent = Some p -> inspect.ismodule parent = true ->
       py_name p = Ok parent_name ->
       Str.startswith parent_name root = true) ->
    forall rec,
      In rec (yielded (_process_member rt member name root parent)) ->
      under_root root rec.
Proof.
  intros member. induction member as [m0 IH] using PyObject_members_ind.
  intros name parent Hparent rec. rewrite _process_member_unfold.
  assert (Hnode : forall own,
            In own (yielded (_process_member_with rt gen_return m0 name root
                               parent)) ->
            under_root root own).
  { intros own Hin. apply node_emits in Hin. destruct Hin; simpl; try exact I.
    - assumption.
    - subst parent. eapply prefix_trans.
      + apply (Hparent p parent_name); auto.
      + assumption. }
  destruct (_process_member_with_yielded rt
              (_process_submembers rt m0 root (getmembers m0))
              m0 name root parent) as [E|(own & Eown & Hown & E)];
    rewrite E; clear E.
  - apply Hnode.
  - assert (He : emits rt m0 name root parent own).
    { apply node_emits. rewrite Eown. left. reflexivity. }
    intros [<-|Hin].
    + apply Hnode. rewrite Eown. left. reflexivity.
    + apply _process_submembers_yielded in Hin as (n & s & Hs & Hy).
      apply (IH n s Hs n (Some m0)); [|exact Hy].
      intros p pn [= <-] Hm Hn.
      destruct He; try destruct Hown.
      * match goal with
        | H1 : py_name m0 = Ok ?a, H2 : py_name m0 = Ok ?b |- _ =>
            rewrite H1 in H2; injection H2 as <-
        end. assumption.
      * match goal with
        | H : inspect.isclass (Some m0) = true |- _ =>
            clear - H Hm; destruct m0; discriminate
        end.
Qed.

(** The walk does not leave the package it was started on: every Module
    record of a run has a name that starts with the name of one of the
    root modules, and so has the module of every Klass record. *)
Theorem records_stay_under_a_root (rt : Runtime) (module_paths : list string)
    (rec : Member) :
  In rec (yielded (process_modules rt module_paths)) ->
  exists module root,
    In module (import_all rt module_paths) /\
    py_name module = Ok root /\
    match rec with
    | IsModule m => Str.startswith (module_name m) root = true
    | IsKlass k => Str.startswith (klass_module k) root = true
    | _ => True
    end.
Proof.
  intros H. apply process_each_yields in H as (module & root & Hin & Hn & Hy).
  exists module, root. split; [exact Hin|]. split; [exact Hn|].
  apply (walk_under_root rt root module root None); [|exact Hy].
  intros p pn Hp. discriminate Hp.
Qed.

Lemma records_stay_under_a_root_witness :
  In (IsKlass Fixture.Detail_record)
    (yielded (process_modules Fixture.packages ["shop.views.generic"])) /\
  exists module root,
    In module (import_all Fixture.packages ["shop.views.generic"]) /\
    py_name module = Ok root /\
    Str.startswith "shop.views.generic" root = true.
Proof.
  assert (H : In (IsKlass Fixture.Detail_record)
                (yielded (process_modules Fixture.packages
                            ["shop.views.generic"])))
    by (vm_compute; in_list).
  split; [exact H|].
  exact (records_stay_under_a_root _ _ _ H).
Defined.

(** ** What the walk passes over *)

(** A class found inside a class is not a class to the walker: it is
    handled as a class attribute. No Klass record is made for it and
    its own members are not walked; what it yields, if anything, is one
    KlassAttribute candidate of the enclosing class, whose value is the
    text of the class object. *)
Theorem nested_class_is_an_attribute (rt : Runtime) (r : Reflect)
    (cname cmodule : string) (bases : list (string * string))
    (members : list (string * PyObject)) (pr : Reflect)
    (pname pmodule : string) (pbases : list (string * string))
    (pmembers : list (string * PyObject)) (name root : string) :
  let nested := PyClass r cname cmodule bases members in
  let outer := PyClass pr pname pmodule pbases pmembers in
  _process_member rt nested name root (Some outer)
  = _handle_class_attribute rt nested name (Some outer) /\
  forall rec,
    In rec (yielded (_process_member rt nested name root (Some outer))) ->
    yielded (_process_member rt nested name root (Some outer)) = [rec] /\
    exists line,
      rec = IsKlassAttribute
              {| attr_name := name; attr_value := r_str r;
                 attr_line_number := line;
                 attr_klass_path := pmodule +:+ "." +:+ pname |}.
Proof.
  intros nested outer.
  assert (E : _process_member rt nested name root (Some outer)
              = _handle_class_attribute rt nested name (Some outer)).
  { rewrite _process_member_unfold. reflexivity. }
  split; [exact E|]. rewrite E. intros rec.
  unfold _handle_class_attribute, replace_lazy.
  cbn [is_promise nested gen_try].
  destruct (negb _); [intros []|].
  cbn [get_value inspect.reflect gen_try].
  destruct (get_line_number _) as [line|e]; gen_simpl; [|intros []].
  cbn [outer _full_path py_module py_name bind gen_try gen_yield yielded].
  intros [<-|[]]. split; [reflexivity|]. exists line. reflexivity.
Qed.

(** Outside a class nothing but modules and classes leaves a record: a
    function or any other value found in a module, or at the top of the
    walk, yields nothing; and a built-in function yields nothing
    wherever it is found. *)
Theorem module_level_members_yield_nothing (rt : Runtime) (member : PyObject)
    (name root : string) (parent : option PyObject) :
  (inspect.isbuiltin member = true ->
   _process_member rt member name root parent = gen_return) /\
  (inspect.isclass parent = false ->
   inspect.ismodule (Some member) = false ->
   inspect.isclass (Some member) = false ->
   yielded (_process_member rt member name root parent) = []).
Proof.
  rewrite _process_member_unfold. unfold _process_member_with. split.
  - intros ->. reflexivity.
  - intros Hp Hm Hc. rewrite Hm, Hc, Hp.
    destruct (inspect.isbuiltin member); [reflexivity|]. cbn [andb].
    destruct (inspect.isroutine member); [|reflexivity].
    unfold _handle_function_or_method.
    destruct (ok_to_add_method (unwrap member) parent) as [[|]|e] eqn:E;
      gen_simpl; try reflexivity.
    apply ok_to_add_method_true in E as (? & ? & ? & ? & ? & _ & _ & Hc' & _).
    congruence.
Qed.

Lemma module_level_members_yield_nothing_witness :
  inspect.isclass (Some (Fixture.views Fixture.A)) = false /\
  yielded (_process_member Fixture.rt Fixture.helper "helper" "shop.views"
             (Some (Fixture.views Fixture.A))) = [].
Proof.
  split; [reflexivity|].
  apply (proj2 (module_level_members_yield_nothing Fixture.rt Fixture.helper
                  "helper" "shop.views" (Some (Fixture.views Fixture.A))));
    reflexivity.
Defined.

Lemma nested_class_is_an_attribute_witness :
  In (IsKlassAttribute
        {| attr_name := "Meta";
           attr_value := "<class 'shop.views.generic.Detail'>";
           attr_line_number := 1; attr_klass_path := "shop.views.A" |})
    (yielded (_process_member Fixture.rt Fixture.Detail "Meta" "shop.views"
                (Some Fixture.A))) /\
  yielded (_process_member Fixture.rt Fixture.Detail "Meta" "shop.views"
             (Some Fixture.A))
  = [IsKlassAttribute
       {| attr_name := "Meta";
          attr_value := "<class 'shop.views.generic.Detail'>";
          attr_line_number := 1; attr_klass_path := "shop.views.A" |}].
Proof.
  assert (H : In (IsKlassAttribute
                    {| attr_name := "Meta";
                       attr_value := "<class 'shop.views.generic.Detail'>";
                       attr_line_number := 1;
                       attr_klass_path := "shop.views.A" |})
                (yielded (_process_member Fixture.rt Fixture.Detail "Meta"
                            "shop.views" (Some Fixture.A))))
    by (vm_compute; in_list).
  split; [exact H|].
  exact (proj1 (proj2 (nested_class_is_an_attribute Fixture.rt
                         _ _ _ _ _ _ _ _ _ _ "Meta" "shop.views") _ H)).
Defined.

(** ** Where a method lies *)

Lemma get_code_start member code arguments start_line :
  get_code member = Ok (code, arguments, start_line) ->
  exists lines,
    inspect.getsourcelines (Some member) = SourceOK lines start_line.
Proof.
  unfold get_code.
  destruct (inspect.getsourcelines (Some member)) as [lines start| |];
    try discriminate.
  destruct lines as [|first rest]; [discriminate|].
  destruct (inspect.getfullargspec member) as [spec|e]; [|discriminate].
  cbn [bind]. intros [= _ _ <-]. eauto.
Qed.

(** Every Method record of a run belongs to a class: its class path is
    that of the class the callable was found in, the callable (without
    its decorators) has the source file of that class, and the line
    number of the record is the starting line of the callable, which is
    not before the first line of the class and not more than the number
    of lines of the class after it. *)
Theorem method_records_lie_by_their_class (rt : Runtime)
    (module_paths : list string) (m : Method) :
  In (IsMethod m) (yielded (process_modules rt module_paths)) ->
  exists root member p file lines parent_lines parent_start_line,
    walked rt module_paths root member (Some p) (method_name m) /\
    inspect.isclass (Some p) = true /\
    _full_path p = Ok (method_klass_path m) /\
    inspect.getsourcefile (Some (unwrap member)) = Ok file /\
    inspect.getsourcefile (Some p) = Ok file /\
    inspect.getsourcelines (Some (unwrap member))
    = SourceOK lines (method_line_number m) /\
    inspect.getsourcelines (Some p)
    = SourceOK parent_lines parent_start_line /\
    parent_start_line <= method_line_number m
      <= parent_start_line + Z.of_nat (List.length parent_lines).
Proof.
  intros H.
  apply process_modules_yields in H as (root & mb & p & n & Hw & He).
  inversion He as [| |p' code arguments start path Hr Hp Hok Hcode Hfp Hrec|];
    subst. cbn [method_name method_klass_path method_line_number].
  apply ok_to_add_method_true in Hok
    as (file & lines & start' & plines & pstart & Hf1 & Hf2 & Hc & Hl1 & Hl2
        & Hrange).
  apply get_code_start in Hcode as (lines' & Hl1').
  rewrite Hl1 in Hl1'. injection Hl1' as <- <-.
  exists root, mb, p', file, lines, plines, pstart. auto 10.
Qed.

Lemma method_records_lie_by_their_class_witness :
  In (IsMethod Fixture.get_record)
    (yielded (process_modules Fixture.rt ["shop.views"])) /\
  exists p parent_lines parent_start_line,
    _full_path p = Ok "shop.views.A" /\
    inspect.getsourcelines (Some p)
    = SourceOK parent_lines parent_start_line /\
    parent_start_line <= 3
      <= parent_start_line + Z.of_nat (List.length parent_lines).
Proof.
  assert (H : In (IsMethod Fixture.get_record)
                (yielded (process_modules Fixture.rt ["shop.views"])))
    by (vm_compute; in_list).
  split; [exact H|].
  destruct (method_records_lie_by_their_class _ _ _ H)
    as (root & member & p & file & lines & plines & pstart & _ & _ & Hp & _
        & _ & _ & Hl & Hr).
  exists p, plines, pstart. auto.
Defined.

(** ** The errors of [__repr__] *)

Lemma repr_kwargs_cases (kw : list (string * PyArg)) :
  (exists strs,
     LazyAttribute.repr_kwargs kw = Ok (List.map ArgStr strs) /\
     forall k v, In (k, v) kw -> String.length k = 2%nat) \/
  (LazyAttribute.repr_kwargs kw = Raise ValueError /\
   exists k v, In (k, v) kw /\ String.length k <> 2%nat).
Proof.
  induction kw as [|[k v] rest IH].
  - left. exists []. split; [reflexivity|]. intros k v [].
  - cbn [LazyAttribute.repr_kwargs].
    destruct k as [|a [|b [|c k']]].
    + right. split; [reflexivity|]. exists "", v.
      split; [left; reflexivity|discriminate].
    + right. split; [reflexivity|]. exists (String a ""), v.
      split; [left; reflexivity|discriminate].
    + destruct IH as [(strs & -> & Hall)|(-> & k & v' & Hin & Hlen)].
      * left. eexists (_ :: strs). split; [reflexivity|].
        intros k v' [[= <- <-]|Hin]; [reflexivity|]. eapply Hall. exact Hin.
      * right. split; [reflexivity|]. exists k, v'.
        split; [right; exact Hin|exact Hlen].
    + right. split; [reflexivity|]. exists (String a (String b (String c k'))), v.
      split; [left; reflexivity|simpl; lia].
Qed.

Lemma all_str_cases (l : list PyArg) :
  (exists strs, LazyAttribute.all_str l = Ok strs /\
                forall repr, ~ In (ArgOther repr) l) \/
  (LazyAttribute.all_str l = Raise TypeError /\
   exists repr, In (ArgOther repr) l).
Proof.
  induction l as [|[s|r] rest IH].
  - left. exists []. split; [reflexivity|]. intros r [].
  - cbn [LazyAttribute.all_str].
    destruct IH as [(strs & -> & Hn)|(-> & r & Hin)].
    + left. eexists. split; [reflexivity|].
      intros r [H|H]; [discriminate H|exact (Hn r H)].
    + right. split; [reflexivity|]. exists r. right. exact Hin.
  - right. split; [reflexivity|]. exists r. left. reflexivity.
Qed.

Lemma repr_args_other (a : list PyArg) (strs : list string) (repr : string) :
  In (ArgOther repr) (LazyAttribute.repr_args a ++ List.map ArgStr strs)%list
  <-> In (ArgOther repr) a.
Proof.
  rewrite in_app_iff. unfold LazyAttribute.repr_args. rewrite !in_map_iff.
  split.
  - intros [(x & E & Hin)|(x & E & _)]; [|discriminate E].
    destruct x; [discriminate E|]. injection E as ->. exact Hin.
  - intros H. left. exists (ArgOther repr). auto.
Qed.

(** [__repr__] of a deferred call returns a text only when every keyword
    has a name of exactly two characters and every positional argument
    is a string. A keyword of any other length makes it raise
    [ValueError], in the loop that unpacks the keys; failing that, a
    positional argument that is not a string makes it raise [TypeError],
    in [join]. *)
Theorem lazy_repr_errors (l : LazyAttribute.t) :
  (LazyAttribute.__repr__ l = Raise ValueError <->
   exists k v, In (k, v) (LazyAttribute.kwargs l) /\
               String.length k <> 2%nat) /\
  (LazyAttribute.__repr__ l = Raise TypeError <->
   (forall k v, In (k, v) (LazyAttribute.kwargs l) ->
                String.length k = 2%nat) /\
   exists repr, In (ArgOther repr) (LazyAttribute.args l)) /\
  ((exists text, LazyAttribute.__repr__ l = Ok text) <->
   (forall k v, In (k, v) (LazyAttribute.kwargs l) ->
                String.length k = 2%nat) /\
   forall repr, ~ In (ArgOther repr) (LazyAttribute.args l)).
Proof.
  unfold LazyAttribute.__repr__.
  destruct (repr_kwargs_cases (LazyAttribute.kwargs l))
    as [(strs & -> & Hall)|(-> & k & v & Hin & Hlen)]; cbn [bind].
  - destruct (all_str_cases
                (LazyAttribute.repr_args (LazyAttribute.args l)
                 ++ List.map ArgStr strs)%list)
      as [(out & -> & Hn)|(-> & r & Hr)]; cbn [bind].
    + assert (Hn' : forall repr, ~ In (ArgOther repr) (LazyAttribute.args l)).
      { intros r Hr. apply (Hn r). apply repr_args_other. exact Hr. }
      split; [|split].
      * split; [discriminate|].
        intros (k & v & Hin & Hlen). exfalso. exact (Hlen (Hall k v Hin)).
      * split; [discriminate|]. intros [_ [r Hr]]. exfalso. exact (Hn' r Hr).
      * split; [auto|eauto].
    + apply repr_args_other in Hr. split; [|split].
      * split; [discriminate|].
        intros (k & v & Hin & Hlen). exfalso. exact (Hlen (Hall k v Hin)).
      * split; [eauto|reflexivity].
      * split; [intros [text H]; discriminate H|].
        intros [_ Hn]. exfalso. exact (Hn r Hr).
  - split; [|split].
    + split; [eauto|reflexivity].
    + split; [discriminate|]. intros [Hall _]. exfalso.
      exact (Hlen (Hall k v Hin)).
    + split; [intros [text H]; discriminate H|].
      intros [Hall _]. exfalso. exact (Hlen (Hall k v Hin)).
Qed.

Lemma lazy_repr_errors_witness :
  (exists k v,
     In (k, v) [("kwargs", ArgOther "{'pk': 1}")] /\
     String.length k <> 2%nat) /\
  LazyAttribute.__repr__
    {| LazyAttribute.lazy_func := "reverse_lazy";
       LazyAttribute.args := [ArgStr "detail"];
       LazyAttribute.kwargs := [("kwargs", ArgOther "{'pk': 1}")] |}
  = Raise ValueError.
Proof.
  assert (H : exists k v,
            In (k, v) [("kwargs", ArgOther "{'pk': 1}")] /\
            String.length k <> 2%nat).
  { exists "kwargs", (ArgOther "{'pk': 1}").
    split; [left; reflexivity|simpl; lia]. }
  split; [exact H|].
  exact (proj2 (proj1 (lazy_repr_errors
                         {| LazyAttribute.lazy_func := "reverse_lazy";
                            LazyAttribute.args := [ArgStr "detail"];
                            LazyAttribute.kwargs :=
                              [("kwargs", ArgOther "{'pk': 1}")] |})) H).
Defined.

(** ** What is left of a group *)

Lemma create_attributes_rows edges klass_lookup (attributes : AttributeTable) :
  (forall key entries, In (key, entries) attributes ->
                       all_known klass_lookup entries) ->
  exists rows,
    create_attributes edges klass_lookup attributes = Ok rows /\
    forall row,
      In row rows <->
      exists name value klasses klass_path line klass,
        In ((name, value), klasses) attributes /\
        In (klass_path, line) klasses /\
        klass_lookup !! klass_path = Some klass /\
        row = {| ka_klass := km_pk klass; ka_line_number := line;
                 ka_name := name; ka_value := value |} /\
        ~ descends edges klass_lookup klasses (km_pk klass).
Proof.
  induction attributes as [|[[name value] klasses] rest IH]; intros H.
  - exists []. split; [reflexivity|]. intros row. split; [intros []|].
    intros (n & v & ks & p & l & k & [] & _).
  - destruct (group_spec edges klass_lookup name value klasses)
      as (D & rem & models & HD & Hrem & Hm & Hspec).
    { eapply H. left. reflexivity. }
    destruct IH as (more & Hmore & Hmspec).
    { intros key es Hin. eapply H. right. exact Hin. }
    exists (models ++ more)%list. cbn [create_attributes].
    rewrite HD. cbn [bind]. rewrite Hrem. cbn [bind]. rewrite Hm.
    cbn [bind]. rewrite Hmore. cbn [bind]. split; [reflexivity|].
    intros row. rewrite in_app_iff, Hspec, Hmspec. split.
    + intros [(p & l & k & Hin & Hp & -> & Hn)
             |(n & v & ks & p & l & k & Hin & Hrest)].
      * exists name, value, klasses, p, l, k.
        split; [left; reflexivity|]. auto.
      * exists n, v, ks, p, l, k. split; [right; exact Hin|exact Hrest].
    + intros (n & v & ks & p & l & k & [[= <- <- <-]|Hin] & Hrest).
      * left. exists p, l, k. exact Hrest.
      * right. exists n, v, ks, p, l, k. auto.
Qed.

(** Among finitely many classes of an acyclic hierarchy there is one
    that descends from none of them. *)
Lemma root_exists edges (pks : list nat) :
  acyclic edges -> pks <> [] ->
  exists x, In x pks /\
            forall y, In y pks -> ~ clos_trans nat (child_of edges) y x.
Proof.
  intros Hac. induction pks as [|a rest IH]; [congruence|]. intros _.
  destruct rest as [|b rest'].
  - exists a. split; [left; reflexivity|]. intros y [<-|[]]. apply Hac.
  - destruct IH as (x & Hx & Hmin); [discriminate|].
    destruct (in_dec Nat.eq_dec x (get_all_children edges a)) as [Hd|Hd].
    + apply get_all_children_spec in Hd. exists a.
      split; [left; reflexivity|]. intros y [<-|Hy]; [apply Hac|].
      intros Hya. apply (Hmin y Hy). eapply t_trans; eassumption.
    + exists x. split; [right; exact Hx|]. intros y [<-|Hy].
      * intros H. apply Hd. apply get_all_children_spec. exact H.
      * apply Hmin. exact Hy.
Qed.

Lemma group_pks klass_lookup (klasses : list (string * Z)) :
  all_known klass_lookup klasses ->
  exists pks,
    forall pk,
      In pk pks <->
      exists klass_path line klass,
        In (klass_path, line) klasses /\
        klass_lookup !! klass_path = Some klass /\ km_pk klass = pk.
Proof.
  induction klasses as [|[p l] rest IH]; intros Hk.
  - exists []. intros pk. split; [intros []|].
    intros (p & l & k & [] & _).
  - apply all_known_cons in Hk as [[klass Hl] Hk]. simpl in Hl.
    destruct (IH Hk) as (pks & Hspec). exists (km_pk klass :: pks).
    intros pk. cbn [In]. rewrite Hspec. split.
    + intros [<-|(p' & l' & k' & Hin & Hp & E)].
      * exists p, l, klass. auto.
      * exists p', l', k'. auto.
    + intros (p' & l' & k' & [[= <- <-]|Hin] & Hp & E).
      * left. rewrite Hl in Hp. injection Hp as <-. exact E.
      * right. exists p', l', k'. auto.
Qed.

(** Resolution never loses an attribute: when no class is its own
    descendant, every (name, value) that has a candidate keeps at least
    one row. *)
Theorem every_group_keeps_a_row (edges : list Inheritance)
    (klass_lookup : gmap string KlassModel) (attributes : AttributeTable) :
  (forall k, ~ clos_trans nat (child_of edges) k k) ->
  (forall key klasses klass_path line,
     In (key, klasses) attributes -> In (klass_path, line) klasses ->
     is_Some (klass_lookup !! klass_path)) ->
  exists rows,
    create_attributes edges klass_lookup attributes = Ok rows /\
    forall name value klasses,
      In ((name, value), klasses) attributes -> klasses <> [] ->
      exists row, In row rows /\ ka_name row = name /\ ka_value row = value.
Proof.
  intros Hac Hknown.
  destruct (create_attributes_rows edges klass_lookup attributes)
    as (rows & Hrows & Hspec).
  { intros key es Hin p l Hp. eapply Hknown; eassumption. }
  exists rows. split; [exact Hrows|].
  intros name value klasses Hin Hne.
  assert (Hk : all_known klass_lookup klasses).
  { intros p l Hp. eapply Hknown; eassumption. }
  destruct (group_pks klass_lookup klasses Hk) as (pks & Hpks).
  assert (Hpne : pks <> []).
  { destruct klasses as [|[p l] rest]; [congruence|].
    destruct (Hk p l (or_introl eq_refl)) as [klass Hl].
    intros E. assert (Hx : In (km_pk klass) pks).
    { apply Hpks. exists p, l, klass. split; [left; reflexivity|]. auto. }
    rewrite E in Hx. destruct Hx. }
  destruct (root_exists edges pks Hac Hpne) as (x & Hx & Hmin).
  apply Hpks in Hx as (p & l & klass & Hp & Hl & <-).
  exists {| ka_klass := km_pk klass; ka_line_number := l; ka_name := name;
            ka_value := value |}.
  split; [|split; reflexivity].
  apply Hspec. exists name, value, klasses, p, l, klass.
  repeat (split; [assumption || reflexivity|]).
  intros (p' & l' & k' & Hp' & Hl' & Hc).
  apply (Hmin (km_pk k')); [|exact Hc].
  apply Hpks. exists p', l', k'. auto.
Qed.

Lemma every_group_keeps_a_row_witness :
  (forall k, ~ clos_trans nat (child_of Fixture.edges) k k) /\
  exists rows,
    create_attributes Fixture.edges Fixture.klass_lookup Fixture.candidates
    = Ok rows /\
    exists row, In row rows /\ ka_name row = "x" /\ ka_value row = "1".
Proof.
  assert (Hac : forall k, ~ clos_trans nat (child_of Fixture.edges) k k).
  { intros k H. apply get_all_children_spec in H.
    destruct k as [|[|[|k]]]; simpl in H; try contradiction.
    destruct H as [H|[]]. discriminate H. }
  assert (Hk : forall key klasses klass_path line,
            In (key, klasses) Fixture.candidates ->
            In (klass_path, line) klasses ->
            is_Some (Fixture.klass_lookup !! klass_path)).
  { intros key klasses klass_path line [[= <- <-]|[]]
      [[= <- <-]|[[= <- <-]|[]]]; vm_compute; eauto. }
  split; [exact Hac|].
  destruct (every_group_keeps_a_row Fixture.edges Fixture.klass_lookup
              Fixture.candidates Hac Hk) as (rows & Hrows & Hkeep).
  exists rows. split; [exact Hrows|].
  apply (Hkeep "x" "1" [("shop.views.A", -1); ("shop.views.B", -1)]).
  - left. reflexivity.
  - discriminate.
Defined.

(** ** A module met twice *)

Lemma module_walk_anywhere rt r mname members root n1 p1 n2 p2 :
  _process_member rt (PyModule r mname members) n1 root p1
  = _process_member rt (PyModule r mname members) n2 root p2.
Proof. rewrite !_process_member_unfold. reflexivity. Qed.

(** The walk keeps no account of the modules it has seen. What a module
    yields does not depend on where it was found, and a module that is
    a member twice (a submodule imported under two names, say) is walked
    twice: its records come twice in the stream. *)
Theorem module_met_twice_is_walked_twice (rt : Runtime) (r : Reflect)
    (mname : string) (members : list (string * PyObject))
    (parent : PyObject) (root n1 n2 : string)
    (rest : list (string * PyObject)) :
  raised (_process_member rt (PyModule r mname members) mname root None)
  = None ->
  yielded (_process_submembers rt parent root
             ((n1, PyModule r mname members)
              :: (n2, PyModule r mname members) :: rest))
  = (yielded (_process_member rt (PyModule r mname members) mname root None)
     ++ yielded (_process_member rt (PyModule r mname members) mname root
                   None)
     ++ yielded (_process_submembers rt parent root rest))%list.
Proof.
  intros Hr. cbn [_process_submembers].
  rewrite (module_walk_anywhere rt r mname members root n1 (Some parent)
             mname None).
  rewrite (module_walk_anywhere rt r mname members root n2 (Some parent)
             mname None).
  unfold gen_seq at 1. rewrite Hr. cbn [yielded].
  unfold gen_seq at 1. rewrite Hr. reflexivity.
Qed.

Lemma module_met_twice_is_walked_twice_witness :
  raised (_process_member Fixture.packages Fixture.generic
            "shop.views.generic" "shop" None) = None /\
  yielded (_process_submembers Fixture.packages Fixture.shop_package "shop"
             [("generic", Fixture.generic); ("views", Fixture.generic)])
  = [IsModule {| module_name := "shop.views.generic"; module_docstring := "";
                 module_filename := "/shop/views/generic.py" |};
     IsKlass Fixture.Detail_record;
     IsModule {| module_name := "shop.views.generic"; module_docstring := "";
                 module_filename := "/shop/views/generic.py" |};
     IsKlass Fixture.Detail_record].
Proof.
  assert (H : raised (_process_member Fixture.packages Fixture.generic
                        "shop.views.generic" "shop" None) = None)
    by reflexivity.
  split; [exact H|].
  refine (eq_trans
            (module_met_twice_is_walked_twice Fixture.packages
               (Fixture.in_file 81 Fixture.generic_py [] 0
                  "<module 'shop.views.generic'>")
               "shop.views.generic" [("Detail", Fixture.Detail)]
               Fixture.shop_package "shop" "generic" "views" [] H) _).
  vm_compute. reflexivity.
Defined.

(** ** Prefixes that cannot be imported *)

Section BestImportPathErrors.

Context (rt : Runtime) (name : string) (klass : PyObject).

Lemma best_import_path_loop_imports (module_path best_path : string) :
  (forall best,
     best_import_path_loop rt name klass module_path best_path = Ok best ->
     forall p, p <> "" -> dotted_prefix p module_path ->
               exists module, import_module rt p = Ok module) /\
  (forall e,
     best_import_path_loop rt name klass module_path best_path = Raise e ->
     e = ImportError /\
     exists p, p <> "" /\ dotted_prefix p module_path /\
               import_module rt p = Raise ImportError).
Proof.
  funelim (best_import_path_loop rt name klass module_path best_path).
  - split; [|discriminate]. intros best _ p Hp Hdp. exfalso.
    match goal with
    | E : Str.rpartition_head _ = "" |- _ =>
        exact (rpartition_head_empty _ p E Hp Hdp)
    end.
  - assert (Hstep : forall p, dotted_prefix p module_path <->
                              p = String c s \/ dotted_prefix p (String c s)).
    { intros p. apply rpartition_head_step; [assumption|discriminate]. }
    destruct (import_module rt (String c s)) as [module|e0] eqn:Ei.
    + match goal with
      | IH : forall (m : PyObject), _ /\ _ |- _ =>
          destruct (IH module) as [IHok IHraise]
      end.
      split.
      * intros best Hb p Hp Hdp. apply Hstep in Hdp as [->|Hdp]; [eauto|].
        eapply IHok; eassumption.
      * intros e He. destruct (IHraise e He) as (-> & p & Hp & Hdp & Hi).
        split; [reflexivity|]. exists p. split; [exact Hp|].
        split; [apply Hstep; right; exact Hdp|exact Hi].
    + split; [discriminate|]. intros e [= <-].
      assert (e0 = ImportError) as ->.
      { unfold import_module in Ei.
        destruct (sys_modules rt !! String c s); congruence. }
      split; [reflexivity|]. exists (String c s).
      split; [discriminate|]. split; [apply Hstep; left; reflexivity|exact Ei].
Qed.

End BestImportPathErrors.

(** The search for the best import path imports every non-empty dotted
    prefix of the defining module path, so it raises exactly when one of
    them cannot be imported, and what it raises is the [ImportError] of
    that import. *)
Theorem best_import_path_raises_on_a_missing_prefix (rt : Runtime)
    (r : Reflect) (cname cmodule : string) (bases : list (string * string))
    (members : list (string * PyObject)) :
  (_get_best_import_path_for_class rt (PyClass r cname cmodule bases members)
   = Raise ImportError <->
   exists p, p <> "" /\ dotted_prefix p cmodule /\
             import_module rt p = Raise ImportError) /\
  (forall e,
     _get_best_import_path_for_class rt (PyClass r cname cmodule bases members)
     = Raise e ->
     e = ImportError).
Proof.
  unfold _get_best_import_path_for_class.
  cbn [py_module py_name bind].
  destruct (best_import_path_loop_imports rt cname
              (PyClass r cname cmodule bases members) cmodule cmodule)
    as [Hok Hraise].
  split; [split|].
  - intros H. apply Hraise in H as [_ H]. exact H.
  - intros (p & Hp & Hdp & Hi).
    destruct (best_import_path_loop rt cname _ cmodule cmodule)
      as [best|e] eqn:E.
    + destruct (Hok best eq_refl p Hp Hdp) as [m Hm]. congruence.
    + destruct (Hraise e eq_refl) as [-> _]. reflexivity.
  - intros e H. apply Hraise in H as [-> _]. reflexivity.
Qed.

Lemma best_import_path_raises_on_a_missing_prefix_witness :
  (exists p, p <> "" /\ dotted_prefix p "fast.base" /\
             import_module Fixture.rt p = Raise ImportError) /\
  _get_best_import_path_for_class Fixture.rt Fixture.Base = Raise ImportError.
Proof.
  assert (H : exists p, p <> "" /\ dotted_prefix p "fast.base" /\
                        import_module Fixture.rt p = Raise ImportError).
  { exists "fast". split; [discriminate|]. split; [exists "base"|]; reflexivity. }
  split; [exact H|].
  exact (proj2 (proj1 (best_import_path_raises_on_a_missing_prefix Fixture.rt
                         _ _ _ _ _)) H).
Defined.
